(** * Brink: the infinite-canvas scene engine

    A shallow embedding of the engine of [src/Canvas]: the geometry helpers of
    [Types.ts], the event bus of [EventBus.ts], the entity store of
    [SceneManager.ts], the selection and connection modules, the object type
    definitions of [ObjectTypes.ts] (and their inline copies in
    [InfiniteCanvasApp.tsx]), the camera, and the pointer, wheel and
    import/export handlers of [CanvasEngine].

    Conventions of the embedding.
    - A JavaScript [number] is an exact rational or [NaN]; rounding and the
      infinities of IEEE doubles are not modelled.  [NaN] is what arithmetic
      makes of [undefined], so it is also how a missing numeric property reads
      in an arithmetic expression.
    - [props] and [metadata] are JavaScript objects; they are records whose
      fields are the keys the engine reads or writes, each optional (absent
      keys are [None]).  Object spread [{...a, ...b}] is the field-wise
      right-biased merge.
    - The entity store is a [Map] in insertion order; every [set] call of the
      source uses the entity's own id as key, so the map is the list of its
      values, looked up by [Entity.id].
    - Every mutable field of the engine, of the scene manager and of the
      modules lives in one record [Engine.t]; methods are state transformers.
      Two fields are ghost state: the trace of bus emissions and the console.
    - The camera and the pointer positions are rationals.  For a zoom that is
      not zero the camera maps are the code's; at zoom zero the code's
      division gives an infinity or [NaN], which a rational cannot hold, so
      the statements whose truth depends on the value of a division by the
      zoom assume a zoom that is not zero.
    - A lookup in an object literal ([FRAME_PRESETS], the fallback table of
      [onPointerUp]) finds the literal's own keys; the properties every
      object inherits ([constructor], [toString], ...) are not modelled, and
      the statements name the keys they are about. *)

From Stdlib Require Import QArith Qminmax Qabs Lqa.
From Stdlib Require Import List String Ascii Bool Arith Lia DecimalString.
Import ListNotations.
Open Scope string_scope.
Open Scope list_scope.

(* ================================================================== *)
(** * Numbers *)
(* ================================================================== *)

Inductive number : Type :=
| Num (q : Q)
| NaN.

Declare Scope num_scope.
Delimit Scope num_scope with num.
Bind Scope num_scope with number.

Module Number.

(** [a + b] *)
Definition add (a b : number) : number :=
  match a, b with
  | Num p, Num q => Num (p + q)
  | _, _ => NaN
  end.

(** [a - b] *)
Definition sub (a b : number) : number :=
  match a, b with
  | Num p, Num q => Num (p - q)
  | _, _ => NaN
  end.

(** [a / 2] *)
Definition half (a : number) : number :=
  match a with
  | Num p => Num (p / 2)
  | NaN => NaN
  end.

(** [Math.min(a, b)]: [NaN] as soon as one argument is. *)
Definition min (a b : number) : number :=
  match a, b with
  | Num p, Num q => Num (Qmin p q)
  | _, _ => NaN
  end.

(** [Math.abs(a)] *)
Definition abs (a : number) : number :=
  match a with
  | Num p => Num (Qabs p)
  | NaN => NaN
  end.

(** [a <= b]: every comparison with [NaN] is false. *)
Definition leb (a b : number) : bool :=
  match a, b with
  | Num p, Num q => Qle_bool p q
  | _, _ => false
  end.

(** [a < b] *)
Definition ltb (a b : number) : bool :=
  match a, b with
  | Num p, Num q => negb (Qle_bool q p)
  | _, _ => false
  end.

(** [a >= b] *)
Definition geb (a b : number) : bool := leb b a.

(** A property read in a numeric expression: [undefined] becomes [NaN]. *)
Definition ofProp (v : option number) : number :=
  match v with
  | Some n => n
  | None => NaN
  end.

End Number.

Infix "+" := Number.add : num_scope.
Infix "-" := Number.sub : num_scope.
Infix "<=?" := Number.leb : num_scope.
Infix "<?" := Number.ltb : num_scope.
Infix ">=?" := Number.geb : num_scope.

(* ================================================================== *)
(** * Types.ts: points, boxes, anchors *)
(* ================================================================== *)

Module Point.
Record t : Type := mk { x : number; y : number }.
End Point.

Module BBox.
Record t : Type := mk { minX : number; minY : number; maxX : number; maxY : number }.
End BBox.

Inductive HandleType : Type := Htl | Htr | Hbl | Hbr.

(** ['t' | 'r' | 'b' | 'l' | 'c'] *)
Inductive AnchorPosition : Type := At | Ar | Ab | Al | Ac.

Definition getAnchorPoint (bbox : BBox.t) (pos : AnchorPosition) : Point.t :=
  let midX := Number.half (BBox.minX bbox + BBox.maxX bbox) in
  let midY := Number.half (BBox.minY bbox + BBox.maxY bbox) in
  match pos with
  | At => Point.mk midX (BBox.minY bbox)
  | Ar => Point.mk (BBox.maxX bbox) midY
  | Ab => Point.mk midX (BBox.maxY bbox)
  | Al => Point.mk (BBox.minX bbox) midY
  | Ac => Point.mk midX midY
  end.

(** [FRAME_PRESETS]: preset name to [{w, h}]. *)
Definition FRAME_PRESETS : list (string * (Q * Q)) :=
  [ ("A4", (595, 842)); ("Letter", (612, 792)); ("16:9", (1920, 1080));
    ("4:3", (1024, 768)); ("1:1", (1080, 1080)); ("Mobile", (390, 844));
    ("Tablet", (834, 1194)); ("Desktop", (1440, 1024)) ]%Q.

(** [table[key]] on a string-keyed object literal. *)
Fixpoint lookup {A : Type} (key : string) (table : list (string * A)) : option A :=
  match table with
  | [] => None
  | (k, v) :: rest => if String.eqb k key then Some v else lookup key rest
  end.

(* ================================================================== *)
(** * EventBus.ts *)
(* ================================================================== *)

Module EventBus.
Section Bus.

(** [S] is the program state the callbacks close over, [P] the payload. *)
Variables S P : Type.

(** How a call ends: it returns, or it throws; either way it leaves a state. *)
Inductive completion : Type :=
| Return (s : S)
| Throw (error : string) (s : S).

Definition EventCallback : Type := P -> S -> completion.

(** A subscribed callback.  JavaScript tells functions apart by identity;
[handle] stands for that identity. *)
Record listener : Type := mkListener { handle : nat; call : EventCallback }.

(** [Map<string, Set<EventCallback>>], sets in insertion order. *)
Definition t : Type := list (string * list listener).

Definition get (event : string) (listeners : t) : option (list listener) :=
lookup event listeners.

Definition has (l : listener) (callbacks : list listener) : bool :=
existsb (fun l' => Nat.eqb (handle l') (handle l)) callbacks.

(** [Set.add] *)
Definition setAdd (l : listener) (callbacks : list listener) : list listener :=
if has l callbacks then callbacks else callbacks ++ [l].

(** [Set.delete] *)
Definition setDelete (l : listener) (callbacks : list listener) : list listener :=
filter (fun l' => negb (Nat.eqb (handle l') (handle l))) callbacks.

Fixpoint alter (event : string) (f : list listener -> list listener) (listeners : t) : t :=
match listeners with
| [] => []
| (k, cbs) :: rest =>
  if String.eqb k event then (k, f cbs) :: rest else (k, cbs) :: alter event f rest
end.

Definition on (event : string) (callback : listener) (listeners : t) : t :=
let listeners' :=
match get event listeners with
| None => listeners ++ [(event, [])]
| Some _ => listeners
end in
alter event (setAdd callback) listeners'.

Definition off (event : string) (callback : listener) (listeners : t) : t :=
alter event (setDelete callback) listeners.

(** [callbacks.forEach(f)]: an exception thrown by [f] ends the loop and
propagates. *)
Fixpoint forEach (f : listener -> S -> completion) (callbacks : list listener) (s : S)
: completion :=
match callbacks with
| [] => Return s
| cb :: rest =>
  match f cb s with
  | Return s' => forEach f rest s'
  | Throw error s' => Throw error s'
  end
end.

(** [try { body } catch (error) { handler }] *)
Definition tryCatch (body : S -> completion) (handler : string -> S -> completion) (s : S)
: completion :=
match body s with
| Return s' => Return s'
| Throw error s' => handler error s'
end.

(** [console.error(`[EventBus] Error in listener for event '${event}':`, error)] *)
Variable consoleError : string -> string -> S -> S.

Definition emit (listeners : t) (event : string) (payload : P) (s : S) : completion :=
match get event listeners with
| Some callbacks =>
  forEach (fun cb =>
             tryCatch (call cb payload)
                      (fun error s' => Return (consoleError event error s')))
          callbacks s
| None => Return s
end.

(** The state a completed call leaves behind. *)
Definition stateOf (c : completion) : S :=
match c with
| Return s => s
| Throw _ s => s
end.

(** What one dispatch step of [emit] does to the state. *)
Definition deliver (event : string) (payload : P) (s : S) (cb : listener) : S :=
match call cb payload s with
| Return s' => s'
| Throw error s' => consoleError event error s'
end.

Definition subscribers (event : string) (listeners : t) : list listener :=
match get event listeners with
| Some callbacks => callbacks
| None => []
end.

End Bus.

Arguments Return {S} s.
Arguments Throw {S} error s.
Arguments mkListener {S P} handle call.
Arguments handle {S P} l.
Arguments call {S P} l.
Arguments get {S P} event listeners.
Arguments on {S P} event callback listeners.
Arguments off {S P} event callback listeners.
Arguments forEach {S P} f callbacks s.
Arguments tryCatch {S} body handler s.
Arguments emit {S P} consoleError listeners event payload s.
Arguments stateOf {S} c.
Arguments deliver {S P} consoleError event payload s cb.
Arguments subscribers {S P} event listeners.

(** ** Observing invocations

  To state which callbacks [emit] invokes, each callback is wrapped so that
  it first records its handle and the payload it was given in a call log
  carried next to the state. *)
Section Traced.
Variables S P : Type.

Definition calls : Type := list (nat * P).

Definition traced (l : listener S P) : listener (S * calls) P :=
mkListener (handle l)
(fun payload st =>
   let log := snd st ++ [(handle l, payload)] in
   match call l payload (fst st) with
   | Return s' => Return (s', log)
   | Throw error s' => Throw error (s', log)
   end).

Definition tracedBus (listeners : t S P) : t (S * calls) P :=
map (fun entry => (fst entry, map traced (snd entry))) listeners.

Definition tracedConsole (consoleError : string -> string -> S -> S)
: string -> string -> S * calls -> S * calls :=
fun event error st => (consoleError event error (fst st), snd st).

End Traced.

Arguments traced {S P} l.
Arguments tracedBus {S P} listeners.
Arguments tracedConsole {S} {P} consoleError event error st.

End EventBus.

(* ================================================================== *)
(** * Types.ts: entities *)
(* ================================================================== *)

(** [o || d] on an optional property. *)
Definition orElse {A : Type} (o : option A) (d : A) : A :=
  match o with
  | Some a => a
  | None => d
  end.

(** One key of [{...a, ...b}]: the value of [b] when [b] has the key. *)
Definition over {A : Type} (a b : option A) : option A :=
  match b with
  | Some v => Some v
  | None => a
  end.

(** A property that the engine also writes as [null]. *)
Inductive nullable (A : Type) : Type :=
| Null
| Val (a : A).
Arguments Null {A}.
Arguments Val {A} a.

(** The string a property holds, when it holds a non-empty one: what the
    tests [if (props.k)] and [this.k && ...] let through. *)
Definition truthyString (v : option string) : option string :=
  match v with
  | Some s => if String.eqb s "" then None else Some s
  | None => None
  end.

Definition isTruthy (v : option string) : bool :=
  match truthyString v with
  | Some _ => true
  | None => false
  end.

Definition stringOf (v : option (nullable string)) : option string :=
  match v with
  | Some (Val s) => Some s
  | _ => None
  end.

(** [v === s] for a property [v] and a string [s]. *)
Definition isString (v : option (nullable string)) (s : string) : bool :=
  match stringOf v with
  | Some s' => String.eqb s' s
  | None => false
  end.

(** [v || 'c'] for an anchor property (every anchor tag is truthy). *)
Definition anchorOrCenter (v : option (nullable AnchorPosition)) : AnchorPosition :=
  match v with
  | Some (Val a) => a
  | _ => Ac
  end.

Module Transform.
Record t : Type := mk {
  x : number; y : number; scaleX : number; scaleY : number; rotation : number }.
End Transform.

(** [Partial<Transform>] *)
Module PartialTransform.
Record t : Type := mk {
  x : option number; y : option number;
  scaleX : option number; scaleY : option number; rotation : option number }.

Definition empty : t := mk None None None None None.

(** [{ x, y }] *)
Definition xy (x y : number) : t := mk (Some x) (Some y) None None None.

(** [{ ...base, ...p }] *)
Definition spread (base : Transform.t) (p : t) : Transform.t :=
  Transform.mk (orElse (x p) (Transform.x base))
               (orElse (y p) (Transform.y base))
               (orElse (scaleX p) (Transform.scaleX base))
               (orElse (scaleY p) (Transform.scaleY base))
               (orElse (rotation p) (Transform.rotation base)).
End PartialTransform.

(** ['nw-se' | 'sw-ne'] *)
Inductive Direction : Type := NwSe | SwNe.

(** [props: Record<string, any>], by the keys the engine uses. *)
Module Props.
Record t : Type := mk {
  width : option (number);
  height : option (number);
  color : option (string);
  text : option (string);
  name : option (string);
  src : option (string);
  direction : option (Direction);
  start : option (Point.t);
  end_ : option (Point.t);
  startConnectedId : option (nullable string);
  endConnectedId : option (nullable string);
  startAnchor : option (nullable AnchorPosition);
  endAnchor : option (nullable AnchorPosition) }.

(** [{}] *)
Definition empty : t :=
  mk None None None None None None None None None None None None None.

(** [{ ...a, ...b }] *)
Definition spread (a b : t) : t :=
  mk (over (width a) (width b))
     (over (height a) (height b))
     (over (color a) (color b))
     (over (text a) (text b))
     (over (name a) (name b))
     (over (src a) (src b))
     (over (direction a) (direction b))
     (over (start a) (start b))
     (over (end_ a) (end_ b))
     (over (startConnectedId a) (startConnectedId b))
     (over (endConnectedId a) (endConnectedId b))
     (over (startAnchor a) (startAnchor b))
     (over (endAnchor a) (endAnchor b)).

(** One [key: value] of an object literal. *)
Inductive field : Type :=
| Width (v : number)
| Height (v : number)
| Color (v : string)
| Text (v : string)
| Name (v : string)
| Src (v : string)
| Dir (v : Direction)
| Start (v : Point.t)
| End (v : Point.t)
| StartConnectedId (v : nullable string)
| EndConnectedId (v : nullable string)
| StartAnchor (v : nullable AnchorPosition)
| EndAnchor (v : nullable AnchorPosition).

Definition set (f : field) (p : t) : t :=
  match f with
  | Width v =>
      mk (Some v) (height p) (color p) (text p) (name p) (src p) (direction p) (start p) (end_ p) (startConnectedId p) (endConnectedId p) (startAnchor p) (endAnchor p)
  | Height v =>
      mk (width p) (Some v) (color p) (text p) (name p) (src p) (direction p) (start p) (end_ p) (startConnectedId p) (endConnectedId p) (startAnchor p) (endAnchor p)
  | Color v =>
      mk (width p) (height p) (Some v) (text p) (name p) (src p) (direction p) (start p) (end_ p) (startConnectedId p) (endConnectedId p) (startAnchor p) (endAnchor p)
  | Text v =>
      mk (width p) (height p) (color p) (Some v) (name p) (src p) (direction p) (start p) (end_ p) (startConnectedId p) (endConnectedId p) (startAnchor p) (endAnchor p)
  | Name v =>
      mk (width p) (height p) (color p) (text p) (Some v) (src p) (direction p) (start p) (end_ p) (startConnectedId p) (endConnectedId p) (startAnchor p) (endAnchor p)
  | Src v =>
      mk (width p) (height p) (color p) (text p) (name p) (Some v) (direction p) (start p) (end_ p) (startConnectedId p) (endConnectedId p) (startAnchor p) (endAnchor p)
  | Dir v =>
      mk (width p) (height p) (color p) (text p) (name p) (src p) (Some v) (start p) (end_ p) (startConnectedId p) (endConnectedId p) (startAnchor p) (endAnchor p)
  | Start v =>
      mk (width p) (height p) (color p) (text p) (name p) (src p) (direction p) (Some v) (end_ p) (startConnectedId p) (endConnectedId p) (startAnchor p) (endAnchor p)
  | End v =>
      mk (width p) (height p) (color p) (text p) (name p) (src p) (direction p) (start p) (Some v) (startConnectedId p) (endConnectedId p) (startAnchor p) (endAnchor p)
  | StartConnectedId v =>
      mk (width p) (height p) (color p) (text p) (name p) (src p) (direction p) (start p) (end_ p) (Some v) (endConnectedId p) (startAnchor p) (endAnchor p)
  | EndConnectedId v =>
      mk (width p) (height p) (color p) (text p) (name p) (src p) (direction p) (start p) (end_ p) (startConnectedId p) (Some v) (startAnchor p) (endAnchor p)
  | StartAnchor v =>
      mk (width p) (height p) (color p) (text p) (name p) (src p) (direction p) (start p) (end_ p) (startConnectedId p) (endConnectedId p) (Some v) (endAnchor p)
  | EndAnchor v =>
      mk (width p) (height p) (color p) (text p) (name p) (src p) (direction p) (start p) (end_ p) (startConnectedId p) (endConnectedId p) (startAnchor p) (Some v)
  end.

(** The object literal [{ k1: v1, ..., kn: vn }]. *)
Definition object (fields : list field) : t :=
  fold_left (fun p f => set f p) fields empty.

(** [{ width, height }] *)
Definition size (w h : number) : t := object [Width w; Height h].
End Props.

(** [metadata: Record<string, any>]; the engine uses the key [selected]. *)
Module Metadata.
Record t : Type := mk { selected : option bool }.

Definition empty : t := mk None.

Definition spread (a b : t) : t := mk (over (selected a) (selected b)).

(** The test [if (e.metadata.selected)]. *)
Definition isSelected (m : t) : bool := orElse (selected m) false.
End Metadata.

(** [CanvasEntity] *)
Module Entity.
Record t : Type := mk {
  id : string;
  type : string;
  transform : Transform.t;
  props : Props.t;
  metadata : Metadata.t;
  visible : bool;
  parentId : option string }.
End Entity.

(** The argument of [updateObject]:
    [Partial<Pick<CanvasEntity, 'props' | 'metadata' | 'visible' | 'parentId'>>
     & { transform?: Partial<Transform> }]. *)
Module Updates.
Record t : Type := mk {
  transform : option PartialTransform.t;
  props : option Props.t;
  metadata : option Metadata.t;
  visible : option bool;
  parentId : option (option string) }.

Definition empty : t := mk None None None None None.

(** [{ transform: tr }] *)
Definition ofTransform (tr : PartialTransform.t) : t := mk (Some tr) None None None None.
(** [{ props: p }] *)
Definition ofProps (p : Props.t) : t := mk None (Some p) None None None.
(** [{ metadata: m }] *)
Definition ofMetadata (m : Metadata.t) : t := mk None None (Some m) None None.
(** [{ transform: tr, props: p }] *)
Definition ofTransformProps (tr : PartialTransform.t) (p : Props.t) : t :=
  mk (Some tr) (Some p) None None None.
End Updates.

(** [entity.type === 'LINE' || entity.type === 'ARROW'] *)
Definition isLineOrArrow (type : string) : bool :=
  String.eqb type "LINE" || String.eqb type "ARROW".

(** [ObjectTypeDefinition], without [render]. *)
Module ObjectTypeDefinition.
Record t : Type := mk {
  type : string;
  hitTest : Entity.t -> number -> number -> bool;
  getBBox : Entity.t -> BBox.t }.
End ObjectTypeDefinition.

(* ================================================================== *)
(** * ObjectTypes.ts *)
(* ================================================================== *)

Definition widthOf (e : Entity.t) : number := Number.ofProp (Props.width (Entity.props e)).
Definition heightOf (e : Entity.t) : number := Number.ofProp (Props.height (Entity.props e)).
Definition xOf (e : Entity.t) : number := Transform.x (Entity.transform e).
Definition yOf (e : Entity.t) : number := Transform.y (Entity.transform e).

(** The type definitions of [ObjectTypes.ts], registered by [CanvasEngine.ts]. *)
Module ObjectTypes.

Definition RectangleType_getBBox (e : Entity.t) : BBox.t :=
  BBox.mk (xOf e) (yOf e) (xOf e + widthOf e)%num (yOf e + heightOf e)%num.

Definition RectangleType_hitTest (e : Entity.t) (wx wy : number) : bool :=
  let p := Num 10 in  (* 10px selection padding *)
  (wx >=? xOf e - p)%num && (wx <=? xOf e + widthOf e + p)%num &&
  (wy >=? yOf e - p)%num && (wy <=? yOf e + heightOf e + p)%num.

Definition LineType_hitTest (e : Entity.t) (wx wy : number) : bool :=
  (wx >=? xOf e - Num 10)%num && (wx <=? xOf e + widthOf e + Num 10)%num &&
  (wy >=? yOf e - Num 10)%num && (wy <=? yOf e + heightOf e + Num 10)%num.

Definition shape (type : string) : ObjectTypeDefinition.t :=
  ObjectTypeDefinition.mk type RectangleType_hitTest RectangleType_getBBox.

Definition connector (type : string) : ObjectTypeDefinition.t :=
  ObjectTypeDefinition.mk type LineType_hitTest RectangleType_getBBox.

Definition RectangleType := shape "RECTANGLE".
Definition ImageType := shape "IMAGE".
Definition StickyNoteType := shape "STICKY_NOTE".
Definition TextType := shape "TEXT".
Definition EllipseType := shape "ELLIPSE".
Definition TriangleType := shape "TRIANGLE".
Definition DiamondType := shape "DIAMOND".
Definition LineType := connector "LINE".
Definition ArrowType := connector "ARROW".
Definition FrameType := shape "FRAME".

End ObjectTypes.

(** The copies of the type definitions inside [InfiniteCanvasApp.tsx], which
    its own [CanvasEngine] registers.  [getBBox] and the connector hit test are
    the same; the shape hit test has no padding. *)
Module Inline.

Definition RectangleType_getBBox (e : Entity.t) : BBox.t :=
  BBox.mk (xOf e) (yOf e) (xOf e + widthOf e)%num (yOf e + heightOf e)%num.

Definition RectangleType_hitTest (e : Entity.t) (wx wy : number) : bool :=
  (wx >=? xOf e)%num && (wx <=? xOf e + widthOf e)%num &&
  (wy >=? yOf e)%num && (wy <=? yOf e + heightOf e)%num.

Definition LineType_hitTest (e : Entity.t) (wx wy : number) : bool :=
  (wx >=? xOf e - Num 10)%num && (wx <=? xOf e + widthOf e + Num 10)%num &&
  (wy >=? yOf e - Num 10)%num && (wy <=? yOf e + heightOf e + Num 10)%num.

Definition shape (type : string) : ObjectTypeDefinition.t :=
  ObjectTypeDefinition.mk type RectangleType_hitTest RectangleType_getBBox.

Definition connector (type : string) : ObjectTypeDefinition.t :=
  ObjectTypeDefinition.mk type LineType_hitTest RectangleType_getBBox.

Definition RectangleType := shape "RECTANGLE".
Definition ImageType := shape "IMAGE".
Definition StickyNoteType := shape "STICKY_NOTE".
Definition TextType := shape "TEXT".
Definition EllipseType := shape "ELLIPSE".
Definition TriangleType := shape "TRIANGLE".
Definition DiamondType := shape "DIAMOND".
Definition LineType := connector "LINE".
Definition ArrowType := connector "ARROW".
Definition FrameType := shape "FRAME".

End Inline.

(* ================================================================== *)
(** * Camera.ts *)
(* ================================================================== *)

(** A point whose coordinates are finite: pointer positions on the screen and
    what the camera computes from them. *)
Module QPoint.
Record t : Type := mk { x : Q; y : Q }.
End QPoint.

Definition toPoint (p : QPoint.t) : Point.t :=
  Point.mk (Num (QPoint.x p)) (Num (QPoint.y p)).

(** [zoom] is meant to be non-zero: [sx / zoom] below is the division of
    [Q], which the code's division agrees with for every zoom but zero. *)
Module Camera.
Record t : Type := mk { x : Q; y : Q; zoom : Q }.

(** [x = 0; y = 0; zoom = 1] *)
Definition initial : t := mk 0 0 1.

Definition screenToWorld (c : t) (sx sy : Q) : QPoint.t :=
  QPoint.mk (sx / zoom c + x c) (sy / zoom c + y c).

Definition worldToScreen (c : t) (wx wy : Q) : QPoint.t :=
  QPoint.mk ((wx - x c) * zoom c) ((wy - y c) * zoom c).
End Camera.
(* ================================================================== *)
(** * The state of one engine *)
(* ================================================================== *)

(** [ToolType] *)
Inductive ToolType : Type :=
| SELECT | RECT | STICKY | TEXT | ELLIPSE | TRIANGLE | DIAMOND | LINE | ARROW | FRAME.

(** [EVENTS] *)
Module EVENTS.
Definition ENTITY_CREATED := "entity:created".
Definition ENTITY_UPDATED := "entity:updated".
Definition ENTITY_DELETED := "entity:deleted".
Definition SCENE_CLEARED := "scene:cleared".
Definition SELECTION_CHANGED := "selection:changed".
Definition TOOL_CHANGED := "tool:changed".
Definition REQUEST_IMAGE_UPLOAD := "request:image:upload".
End EVENTS.

(** What the engine passes to [emit]. *)
Inductive Payload : Type :=
| OfEntity (entity : Entity.t)             (* ENTITY_CREATED, ENTITY_DELETED *)
| OfUpdate (old new : Entity.t)            (* ENTITY_UPDATED: [{ old, new }] *)
| OfIds (ids : list string)                (* SELECTION_CHANGED *)
| OfTool (tool : ToolType)                 (* TOOL_CHANGED *)
| OfFrame (frameId : string).              (* REQUEST_IMAGE_UPLOAD *)

(** [resizeOriginal: { x, y, w, h }] *)
Module Rect.
Record t : Type := mk { x : number; y : number; w : number; h : number }.
End Rect.

(** The fields of [CanvasEngine], of its [SceneManager] and of its
    [SelectionModule].  The listener table of the bus is fixed by the
    constructor and is not part of the state (see [CanvasEngine.listeners]).
    The sources of fresh ids and of random numbers are part of the state as
    the sequences of values they will return. *)
Module Engine.
Record t : Type := mk {
  entities : list Entity.t;  (* [SceneManager.entities] *)
  objectTypes : list ObjectTypeDefinition.t;  (* [SceneManager.objectTypes], keyed by [type], in registration order *)
  selectedIds : list string;  (* [SelectionModule.selectedIds], a [Set] in insertion order *)
  camera : Camera.t;
  isDirty : bool;
  activeTool : ToolType;
  framePreset : option string;
  width : Q;
  height : Q;
  isPanning : bool;
  lastMouse : QPoint.t;
  draggedEntityId : option string;
  draggedChildrenIds : list string;
  dragOffset : Point.t;
  creatingEntityId : option string;
  createStartPoint : option Point.t;
  isResizing : bool;
  resizeHandle : option HandleType;
  resizeOriginal : option Rect.t;
  hoveredEntityId : option string;
  hoveredAnchor : option AnchorPosition;
  emitted : list (string * Payload);  (* ghost: every [events.emit(event, payload)], oldest first *)
  console : list string;  (* ghost: the lines written by [console.error] *)
  uuids : nat -> string;  (* the results of the successive calls of [crypto.randomUUID()] *)
  uuidsUsed : nat;  (* how many of them were drawn *)
  randoms : nat -> nat;  (* [Math.floor(Math.random() * 100)], call after call *)
  randomsUsed : nat }.  (* how many of them were drawn *)

Definition set_entities (v : list Entity.t) (e : t) : t :=
  mk v (objectTypes e) (selectedIds e) (camera e) (isDirty e) (activeTool e) (framePreset e) (width e) (height e) (isPanning e) (lastMouse e) (draggedEntityId e) (draggedChildrenIds e) (dragOffset e) (creatingEntityId e) (createStartPoint e) (isResizing e) (resizeHandle e) (resizeOriginal e) (hoveredEntityId e) (hoveredAnchor e) (emitted e) (console e) (uuids e) (uuidsUsed e) (randoms e) (randomsUsed e).
Definition set_objectTypes (v : list ObjectTypeDefinition.t) (e : t) : t :=
  mk (entities e) v (selectedIds e) (camera e) (isDirty e) (activeTool e) (framePreset e) (width e) (height e) (isPanning e) (lastMouse e) (draggedEntityId e) (draggedChildrenIds e) (dragOffset e) (creatingEntityId e) (createStartPoint e) (isResizing e) (resizeHandle e) (resizeOriginal e) (hoveredEntityId e) (hoveredAnchor e) (emitted e) (console e) (uuids e) (uuidsUsed e) (randoms e) (randomsUsed e).
Definition set_selectedIds (v : list string) (e : t) : t :=
  mk (entities e) (objectTypes e) v (camera e) (isDirty e) (activeTool e) (framePreset e) (width e) (height e) (isPanning e) (lastMouse e) (draggedEntityId e) (draggedChildrenIds e) (dragOffset e) (creatingEntityId e) (createStartPoint e) (isResizing e) (resizeHandle e) (resizeOriginal e) (hoveredEntityId e) (hoveredAnchor e) (emitted e) (console e) (uuids e) (uuidsUsed e) (randoms e) (randomsUsed e).
Definition set_camera (v : Camera.t) (e : t) : t :=
  mk (entities e) (objectTypes e) (selectedIds e) v (isDirty e) (activeTool e) (framePreset e) (width e) (height e) (isPanning e) (lastMouse e) (draggedEntityId e) (draggedChildrenIds e) (dragOffset e) (creatingEntityId e) (createStartPoint e) (isResizing e) (resizeHandle e) (resizeOriginal e) (hoveredEntityId e) (hoveredAnchor e) (emitted e) (console e) (uuids e) (uuidsUsed e) (randoms e) (randomsUsed e).
Definition set_isDirty (v : bool) (e : t) : t :=
  mk (entities e) (objectTypes e) (selectedIds e) (camera e) v (activeTool e) (framePreset e) (width e) (height e) (isPanning e) (lastMouse e) (draggedEntityId e) (draggedChildrenIds e) (dragOffset e) (creatingEntityId e) (createStartPoint e) (isResizing e) (resizeHandle e) (resizeOriginal e) (hoveredEntityId e) (hoveredAnchor e) (emitted e) (console e) (uuids e) (uuidsUsed e) (randoms e) (randomsUsed e).
Definition set_activeTool (v : ToolType) (e : t) : t :=
  mk (entities e) (objectTypes e) (selectedIds e) (camera e) (isDirty e) v (framePreset e) (width e) (height e) (isPanning e) (lastMouse e) (draggedEntityId e) (draggedChildrenIds e) (dragOffset e) (creatingEntityId e) (createStartPoint e) (isResizing e) (resizeHandle e) (resizeOriginal e) (hoveredEntityId e) (hoveredAnchor e) (emitted e) (console e) (uuids e) (uuidsUsed e) (randoms e) (randomsUsed e).
Definition set_framePreset (v : option string) (e : t) : t :=
  mk (entities e) (objectTypes e) (selectedIds e) (camera e) (isDirty e) (activeTool e) v (width e) (height e) (isPanning e) (lastMouse e) (draggedEntityId e) (draggedChildrenIds e) (dragOffset e) (creatingEntityId e) (createStartPoint e) (isResizing e) (resizeHandle e) (resizeOriginal e) (hoveredEntityId e) (hoveredAnchor e) (emitted e) (console e) (uuids e) (uuidsUsed e) (randoms e) (randomsUsed e).
Definition set_width (v : Q) (e : t) : t :=
  mk (entities e) (objectTypes e) (selectedIds e) (camera e) (isDirty e) (activeTool e) (framePreset e) v (height e) (isPanning e) (lastMouse e) (draggedEntityId e) (draggedChildrenIds e) (dragOffset e) (creatingEntityId e) (createStartPoint e) (isResizing e) (resizeHandle e) (resizeOriginal e) (hoveredEntityId e) (hoveredAnchor e) (emitted e) (console e) (uuids e) (uuidsUsed e) (randoms e) (randomsUsed e).
Definition set_height (v : Q) (e : t) : t :=
  mk (entities e) (objectTypes e) (selectedIds e) (camera e) (isDirty e) (activeTool e) (framePreset e) (width e) v (isPanning e) (lastMouse e) (draggedEntityId e) (draggedChildrenIds e) (dragOffset e) (creatingEntityId e) (createStartPoint e) (isResizing e) (resizeHandle e) (resizeOriginal e) (hoveredEntityId e) (hoveredAnchor e) (emitted e) (console e) (uuids e) (uuidsUsed e) (randoms e) (randomsUsed e).
Definition set_isPanning (v : bool) (e : t) : t :=
  mk (entities e) (objectTypes e) (selectedIds e) (camera e) (isDirty e) (activeTool e) (framePreset e) (width e) (height e) v (lastMouse e) (draggedEntityId e) (draggedChildrenIds e) (dragOffset e) (creatingEntityId e) (createStartPoint e) (isResizing e) (resizeHandle e) (resizeOriginal e) (hoveredEntityId e) (hoveredAnchor e) (emitted e) (console e) (uuids e) (uuidsUsed e) (randoms e) (randomsUsed e).
Definition set_lastMouse (v : QPoint.t) (e : t) : t :=
  mk (entities e) (objectTypes e) (selectedIds e) (camera e) (isDirty e) (activeTool e) (framePreset e) (width e) (height e) (isPanning e) v (draggedEntityId e) (draggedChildrenIds e) (dragOffset e) (creatingEntityId e) (createStartPoint e) (isResizing e) (resizeHandle e) (resizeOriginal e) (hoveredEntityId e) (hoveredAnchor e) (emitted e) (console e) (uuids e) (uuidsUsed e) (randoms e) (randomsUsed e).
Definition set_draggedEntityId (v : option string) (e : t) : t :=
  mk (entities e) (objectTypes e) (selectedIds e) (camera e) (isDirty e) (activeTool e) (framePreset e) (width e) (height e) (isPanning e) (lastMouse e) v (draggedChildrenIds e) (dragOffset e) (creatingEntityId e) (createStartPoint e) (isResizing e) (resizeHandle e) (resizeOriginal e) (hoveredEntityId e) (hoveredAnchor e) (emitted e) (console e) (uuids e) (uuidsUsed e) (randoms e) (randomsUsed e).
Definition set_draggedChildrenIds (v : list string) (e : t) : t :=
  mk (entities e) (objectTypes e) (selectedIds e) (camera e) (isDirty e) (activeTool e) (framePreset e) (width e) (height e) (isPanning e) (lastMouse e) (draggedEntityId e) v (dragOffset e) (creatingEntityId e) (createStartPoint e) (isResizing e) (resizeHandle e) (resizeOriginal e) (hoveredEntityId e) (hoveredAnchor e) (emitted e) (console e) (uuids e) (uuidsUsed e) (randoms e) (randomsUsed e).
Definition set_dragOffset (v : Point.t) (e : t) : t :=
  mk (entities e) (objectTypes e) (selectedIds e) (camera e) (isDirty e) (activeTool e) (framePreset e) (width e) (height e) (isPanning e) (lastMouse e) (draggedEntityId e) (draggedChildrenIds e) v (creatingEntityId e) (createStartPoint e) (isResizing e) (resizeHandle e) (resizeOriginal e) (hoveredEntityId e) (hoveredAnchor e) (emitted e) (console e) (uuids e) (uuidsUsed e) (randoms e) (randomsUsed e).
Definition set_creatingEntityId (v : option string) (e : t) : t :=
  mk (entities e) (objectTypes e) (selectedIds e) (camera e) (isDirty e) (activeTool e) (framePreset e) (width e) (height e) (isPanning e) (lastMouse e) (draggedEntityId e) (draggedChildrenIds e) (dragOffset e) v (createStartPoint e) (isResizing e) (resizeHandle e) (resizeOriginal e) (hoveredEntityId e) (hoveredAnchor e) (emitted e) (console e) (uuids e) (uuidsUsed e) (randoms e) (randomsUsed e).
Definition set_createStartPoint (v : option Point.t) (e : t) : t :=
  mk (entities e) (objectTypes e) (selectedIds e) (camera e) (isDirty e) (activeTool e) (framePreset e) (width e) (height e) (isPanning e) (lastMouse e) (draggedEntityId e) (draggedChildrenIds e) (dragOffset e) (creatingEntityId e) v (isResizing e) (resizeHandle e) (resizeOriginal e) (hoveredEntityId e) (hoveredAnchor e) (emitted e) (console e) (uuids e) (uuidsUsed e) (randoms e) (randomsUsed e).
Definition set_isResizing (v : bool) (e : t) : t :=
  mk (entities e) (objectTypes e) (selectedIds e) (camera e) (isDirty e) (activeTool e) (framePreset e) (width e) (height e) (isPanning e) (lastMouse e) (draggedEntityId e) (draggedChildrenIds e) (dragOffset e) (creatingEntityId e) (createStartPoint e) v (resizeHandle e) (resizeOriginal e) (hoveredEntityId e) (hoveredAnchor e) (emitted e) (console e) (uuids e) (uuidsUsed e) (randoms e) (randomsUsed e).
Definition set_resizeHandle (v : option HandleType) (e : t) : t :=
  mk (entities e) (objectTypes e) (selectedIds e) (camera e) (isDirty e) (activeTool e) (framePreset e) (width e) (height e) (isPanning e) (lastMouse e) (draggedEntityId e) (draggedChildrenIds e) (dragOffset e) (creatingEntityId e) (createStartPoint e) (isResizing e) v (resizeOriginal e) (hoveredEntityId e) (hoveredAnchor e) (emitted e) (console e) (uuids e) (uuidsUsed e) (randoms e) (randomsUsed e).
Definition set_resizeOriginal (v : option Rect.t) (e : t) : t :=
  mk (entities e) (objectTypes e) (selectedIds e) (camera e) (isDirty e) (activeTool e) (framePreset e) (width e) (height e) (isPanning e) (lastMouse e) (draggedEntityId e) (draggedChildrenIds e) (dragOffset e) (creatingEntityId e) (createStartPoint e) (isResizing e) (resizeHandle e) v (hoveredEntityId e) (hoveredAnchor e) (emitted e) (console e) (uuids e) (uuidsUsed e) (randoms e) (randomsUsed e).
Definition set_hoveredEntityId (v : option string) (e : t) : t :=
  mk (entities e) (objectTypes e) (selectedIds e) (camera e) (isDirty e) (activeTool e) (framePreset e) (width e) (height e) (isPanning e) (lastMouse e) (draggedEntityId e) (draggedChildrenIds e) (dragOffset e) (creatingEntityId e) (createStartPoint e) (isResizing e) (resizeHandle e) (resizeOriginal e) v (hoveredAnchor e) (emitted e) (console e) (uuids e) (uuidsUsed e) (randoms e) (randomsUsed e).
Definition set_hoveredAnchor (v : option AnchorPosition) (e : t) : t :=
  mk (entities e) (objectTypes e) (selectedIds e) (camera e) (isDirty e) (activeTool e) (framePreset e) (width e) (height e) (isPanning e) (lastMouse e) (draggedEntityId e) (draggedChildrenIds e) (dragOffset e) (creatingEntityId e) (createStartPoint e) (isResizing e) (resizeHandle e) (resizeOriginal e) (hoveredEntityId e) v (emitted e) (console e) (uuids e) (uuidsUsed e) (randoms e) (randomsUsed e).
Definition set_emitted (v : list (string * Payload)) (e : t) : t :=
  mk (entities e) (objectTypes e) (selectedIds e) (camera e) (isDirty e) (activeTool e) (framePreset e) (width e) (height e) (isPanning e) (lastMouse e) (draggedEntityId e) (draggedChildrenIds e) (dragOffset e) (creatingEntityId e) (createStartPoint e) (isResizing e) (resizeHandle e) (resizeOriginal e) (hoveredEntityId e) (hoveredAnchor e) v (console e) (uuids e) (uuidsUsed e) (randoms e) (randomsUsed e).
Definition set_console (v : list string) (e : t) : t :=
  mk (entities e) (objectTypes e) (selectedIds e) (camera e) (isDirty e) (activeTool e) (framePreset e) (width e) (height e) (isPanning e) (lastMouse e) (draggedEntityId e) (draggedChildrenIds e) (dragOffset e) (creatingEntityId e) (createStartPoint e) (isResizing e) (resizeHandle e) (resizeOriginal e) (hoveredEntityId e) (hoveredAnchor e) (emitted e) v (uuids e) (uuidsUsed e) (randoms e) (randomsUsed e).
Definition set_uuids (v : nat -> string) (e : t) : t :=
  mk (entities e) (objectTypes e) (selectedIds e) (camera e) (isDirty e) (activeTool e) (framePreset e) (width e) (height e) (isPanning e) (lastMouse e) (draggedEntityId e) (draggedChildrenIds e) (dragOffset e) (creatingEntityId e) (createStartPoint e) (isResizing e) (resizeHandle e) (resizeOriginal e) (hoveredEntityId e) (hoveredAnchor e) (emitted e) (console e) v (uuidsUsed e) (randoms e) (randomsUsed e).
Definition set_uuidsUsed (v : nat) (e : t) : t :=
  mk (entities e) (objectTypes e) (selectedIds e) (camera e) (isDirty e) (activeTool e) (framePreset e) (width e) (height e) (isPanning e) (lastMouse e) (draggedEntityId e) (draggedChildrenIds e) (dragOffset e) (creatingEntityId e) (createStartPoint e) (isResizing e) (resizeHandle e) (resizeOriginal e) (hoveredEntityId e) (hoveredAnchor e) (emitted e) (console e) (uuids e) v (randoms e) (randomsUsed e).
Definition set_randoms (v : nat -> nat) (e : t) : t :=
  mk (entities e) (objectTypes e) (selectedIds e) (camera e) (isDirty e) (activeTool e) (framePreset e) (width e) (height e) (isPanning e) (lastMouse e) (draggedEntityId e) (draggedChildrenIds e) (dragOffset e) (creatingEntityId e) (createStartPoint e) (isResizing e) (resizeHandle e) (resizeOriginal e) (hoveredEntityId e) (hoveredAnchor e) (emitted e) (console e) (uuids e) (uuidsUsed e) v (randomsUsed e).
Definition set_randomsUsed (v : nat) (e : t) : t :=
  mk (entities e) (objectTypes e) (selectedIds e) (camera e) (isDirty e) (activeTool e) (framePreset e) (width e) (height e) (isPanning e) (lastMouse e) (draggedEntityId e) (draggedChildrenIds e) (dragOffset e) (creatingEntityId e) (createStartPoint e) (isResizing e) (resizeHandle e) (resizeOriginal e) (hoveredEntityId e) (hoveredAnchor e) (emitted e) (console e) (uuids e) (uuidsUsed e) (randoms e) v.
End Engine.
(* ================================================================== *)
(** * SceneManager.ts *)
(* ================================================================== *)

(** [Map.set(e.id, e)]: an existing key keeps its place. *)
Fixpoint mapSet (e : Entity.t) (entities : list Entity.t) : list Entity.t :=
  match entities with
  | [] => [e]
  | e' :: rest =>
      if String.eqb (Entity.id e') (Entity.id e) then e :: rest else e' :: mapSet e rest
  end.

(** [Map.delete(id)] *)
Definition mapDelete (id : string) (entities : list Entity.t) : list Entity.t :=
  filter (fun e => negb (String.eqb (Entity.id e) id)) entities.

(** [Set.add(id)] *)
Definition setAdd (id : string) (ids : list string) : list string :=
  if existsb (String.eqb id) ids then ids else ids ++ [id].

(** [Set.delete(id)] *)
Definition setDelete (id : string) (ids : list string) : list string :=
  filter (fun i => negb (String.eqb i id)) ids.

(** [Set.has(id)] *)
Definition setHas (id : string) (ids : list string) : bool :=
  existsb (String.eqb id) ids.

Module SceneManager.

(** [objectTypes.set(def.type, def)] *)
Fixpoint registerObjectType (def : ObjectTypeDefinition.t) (types : list ObjectTypeDefinition.t)
  : list ObjectTypeDefinition.t :=
  match types with
  | [] => [def]
  | d :: rest =>
      if String.eqb (ObjectTypeDefinition.type d) (ObjectTypeDefinition.type def)
      then def :: rest
      else d :: registerObjectType def rest
  end.

Definition getObjectType (type : string) (w : Engine.t) : option ObjectTypeDefinition.t :=
  find (fun d => String.eqb (ObjectTypeDefinition.type d) type) (Engine.objectTypes w).

Definition getObject (id : string) (w : Engine.t) : option Entity.t :=
  find (fun e => String.eqb (Entity.id e) id) (Engine.entities w).

Definition getAllObjects (w : Engine.t) : list Entity.t := Engine.entities w.

(** [crypto.randomUUID()]: the next id of the supply. *)
Definition randomUUID (w : Engine.t) : string := Engine.uuids w (Engine.uuidsUsed w).

(** [console.error] of the bus, on the ghost console. *)
Definition consoleError (event error : string) (w : Engine.t) : Engine.t :=
  Engine.set_console
    (Engine.console w
       ++ [("[EventBus] Error in listener for event '" ++ event ++ "': " ++ error)%string])
    w.

(** [{ ...entity, ...updates, transform: ..., props: ..., metadata: ... }] *)
Definition merge (entity : Entity.t) (updates : Updates.t) : Entity.t :=
  Entity.mk
    (Entity.id entity)
    (Entity.type entity)
    (match Updates.transform updates with
     | Some tr => PartialTransform.spread (Entity.transform entity) tr
     | None => Entity.transform entity
     end)
    (match Updates.props updates with
     | Some p => Props.spread (Entity.props entity) p
     | None => Entity.props entity
     end)
    (match Updates.metadata updates with
     | Some m => Metadata.spread (Entity.metadata entity) m
     | None => Entity.metadata entity
     end)
    (orElse (Updates.visible updates) (Entity.visible entity))
    (orElse (Updates.parentId updates) (Entity.parentId entity)).

Section WithListeners.

(** The listener table of [this.events]. *)
Variable listeners : EventBus.t Engine.t Payload.

(** [this.events.emit(event, payload)].  [EventBus.emit] never throws
    ([emit_isolates_listener_failures]), so the caller goes on with the state
    it leaves. *)
Definition emit (event : string) (payload : Payload) (w : Engine.t) : Engine.t :=
  EventBus.stateOf
    (EventBus.emit consoleError listeners event payload
       (Engine.set_emitted (Engine.emitted w ++ [(event, payload)]) w)).

(** [createObject]; the id it returns is [randomUUID w]. *)
Definition createObject (type : string) (props : Props.t)
           (transform : option PartialTransform.t) (metadata : Metadata.t)
           (parentId : option string) (w : Engine.t) : Engine.t :=
  let id := randomUUID w in
  let entity :=
    Entity.mk id type
      (PartialTransform.spread (Transform.mk (Num 0) (Num 0) (Num 1) (Num 1) (Num 0))
                               (orElse transform PartialTransform.empty))
      props metadata true parentId in
  emit EVENTS.ENTITY_CREATED (OfEntity entity)
       (Engine.set_entities (mapSet entity (Engine.entities w))
          (Engine.set_uuidsUsed (S (Engine.uuidsUsed w)) w)).

Definition updateObject (id : string) (updates : Updates.t) (w : Engine.t) : Engine.t :=
  match getObject id w with
  | None => w
  | Some entity =>
      let updatedEntity := merge entity updates in
      emit EVENTS.ENTITY_UPDATED (OfUpdate entity updatedEntity)
           (Engine.set_entities (mapSet updatedEntity (Engine.entities w)) w)
  end.

Definition deleteObject (id : string) (w : Engine.t) : Engine.t :=
  match getObject id w with
  | Some entity =>
      emit EVENTS.ENTITY_DELETED (OfEntity entity)
           (Engine.set_entities (mapDelete id (Engine.entities w)) w)
  | None => w
  end.

End WithListeners.

(** An element of the array [JSON.parse] returned, read as a [CanvasEntity]:
    an entity record, or [null].  (Other elements that are no entity records
    have no counterpart in the typed store.) *)
Inductive item : Type :=
| Record_ (entity : Entity.t)
| Null_.

(** [objects.forEach(obj => this.entities.set(obj.id, obj))]: reading [id] of
    [null] throws. *)
Fixpoint setAll (objects : list item) (w : Engine.t) : EventBus.completion Engine.t :=
  match objects with
  | [] => EventBus.Return w
  | Record_ obj :: rest => setAll rest (Engine.set_entities (mapSet obj (Engine.entities w)) w)
  | Null_ :: _ => EventBus.Throw "TypeError: Cannot read properties of null (reading 'id')" w
  end.

Definition loadData (objects : list item) (w : Engine.t) : EventBus.completion Engine.t :=
  setAll objects (Engine.set_entities [] w).

End SceneManager.

(* ================================================================== *)
(** * modules/SelectionModule.ts *)
(* ================================================================== *)

Module SelectionModule.
Section WithListeners.

Variable listeners : EventBus.t Engine.t Payload.

Definition getSelectedIds (w : Engine.t) : list string := Engine.selectedIds w.

Definition broadcastSelection (w : Engine.t) : Engine.t :=
  SceneManager.emit listeners EVENTS.SELECTION_CHANGED (OfIds (getSelectedIds w)) w.

(** The callback subscribed to ENTITY_DELETED. *)
Definition onEntityDeleted (payload : Payload) (w : Engine.t) : EventBus.completion Engine.t :=
  match payload with
  | OfEntity entity =>
      if setHas (Entity.id entity) (Engine.selectedIds w)
      then EventBus.Return
             (broadcastSelection
                (Engine.set_selectedIds (setDelete (Entity.id entity) (Engine.selectedIds w)) w))
      else EventBus.Return w
  | _ => EventBus.Return w  (* [entity.id] is [undefined]: not in the set *)
  end.

(** [this.selectedIds.forEach(sid => this.sceneManager.updateObject(sid,
    { metadata: { selected: false } }))].  No callback of ENTITY_UPDATED
    touches [selectedIds], so the loop visits the ids it started with. *)
Definition deselectAll (w : Engine.t) : Engine.t :=
  fold_left
    (fun w sid =>
       SceneManager.updateObject listeners sid
         (Updates.ofMetadata (Metadata.mk (Some false))) w)
    (Engine.selectedIds w) w.

Definition select (id : string) (multi : bool) (w : Engine.t) : Engine.t :=
  let w1 := if negb multi
            then Engine.set_selectedIds [] (deselectAll w)
            else w in
  let w2 := Engine.set_selectedIds (setAdd id (Engine.selectedIds w1)) w1 in
  let w3 := SceneManager.updateObject listeners id
              (Updates.ofMetadata (Metadata.mk (Some true))) w2 in
  broadcastSelection w3.

Definition clearSelection (w : Engine.t) : Engine.t :=
  broadcastSelection (Engine.set_selectedIds [] (deselectAll w)).

Definition deleteSelected (w : Engine.t) : Engine.t :=
  clearSelection
    (fold_left (fun w id => SceneManager.deleteObject listeners id w)
               (Engine.selectedIds w) w).

End WithListeners.
End SelectionModule.

(* ================================================================== *)
(** * modules/ConnectionModule.ts *)
(* ================================================================== *)

Module ConnectionModule.

(** One end of a connector: the anchor point of the entity it is connected
    to, when the connection id is truthy, the entity exists and its type is
    registered; otherwise the point [fallback]. *)
Definition resolveEnd (connectedId : option (nullable string))
           (anchor : option (nullable AnchorPosition)) (fallback : Point.t)
           (w : Engine.t) : Point.t :=
  match truthyString (stringOf connectedId) with
  | Some cid =>
      match SceneManager.getObject cid w with
      | Some obj =>
          match SceneManager.getObjectType (Entity.type obj) w with
          | Some typeDef =>
              getAnchorPoint (ObjectTypeDefinition.getBBox typeDef obj) (anchorOrCenter anchor)
          | None => fallback
          end
      | None => fallback
      end
  | None => fallback
  end.

(** The geometry [updateLineConnections] computes for [line]: the argument of
    its call of [updateObject]. *)
Definition routed (line : Entity.t) (w : Engine.t) : Updates.t :=
  let p := Entity.props line in
  let s0 := orElse (Props.start p) (Point.mk (xOf line) (yOf line)) in
  let e0 := orElse (Props.end_ p)
                   (Point.mk (xOf line + widthOf line)%num (yOf line + heightOf line)%num) in
  let s := resolveEnd (Props.startConnectedId p) (Props.startAnchor p) s0 w in
  let e := resolveEnd (Props.endConnectedId p) (Props.endAnchor p) e0 w in
  let minX := Number.min (Point.x s) (Point.x e) in
  let minY := Number.min (Point.y s) (Point.y e) in
  let width := Number.abs (Point.x e - Point.x s) in
  let height := Number.abs (Point.y e - Point.y s) in
  Updates.ofTransformProps
    (PartialTransform.xy minX minY)
    (Props.spread p
       (Props.object [Props.Width width; Props.Height height; Props.Start s; Props.End e])).

Section WithListeners.

Variable listeners : EventBus.t Engine.t Payload.

Definition updateLineConnections (line : Entity.t) (w : Engine.t) : Engine.t :=
  SceneManager.updateObject listeners (Entity.id line) (routed line w) w.

(** The filter of [onEntityUpdated]. *)
Definition isConnectedTo (id : string) (o : Entity.t) : bool :=
  isLineOrArrow (Entity.type o) &&
  (isString (Props.startConnectedId (Entity.props o)) id ||
   isString (Props.endConnectedId (Entity.props o)) id).

(** The callback subscribed to ENTITY_UPDATED. *)
Definition onEntityUpdated (payload : Payload) (w : Engine.t) : EventBus.completion Engine.t :=
  match payload with
  | OfUpdate _ entity =>
      if negb (isLineOrArrow (Entity.type entity))
      then
        let lines := filter (isConnectedTo (Entity.id entity)) (SceneManager.getAllObjects w) in
        EventBus.Return (fold_left (fun w line => updateLineConnections line w) lines w)
      else EventBus.Return w
  | _ => EventBus.Throw "TypeError" w
  end.

End WithListeners.
End ConnectionModule.
(* ================================================================== *)
(** * CanvasEngine *)
(* ================================================================== *)

Module PointerEvent.
Record t : Type := mk { clientX : Q; clientY : Q; button : nat; shiftKey : bool }.
End PointerEvent.

Module WheelEvent.
Record t : Type := mk { clientX : Q; clientY : Q; deltaX : Q; deltaY : Q; ctrlKey : bool }.
End WheelEvent.

(** What [JSON.parse(data)] does: it throws, or returns a value that is an
    array or not. *)
Inductive parsed : Type :=
| SyntaxError (message : string)
| NotAnArray
| AnArray (objects : list SceneManager.item).

Module CanvasEngine.

(** [const markDirty = () => { this.isDirty = true; }] *)
Definition markDirty (_ : Payload) (w : Engine.t) : EventBus.completion Engine.t :=
  EventBus.Return (Engine.set_isDirty true w).

(** The listener table once the constructor has run: [SelectionModule.init],
    [ConnectionModule.init], then the four subscriptions of [markDirty].  The
    callbacks of the modules call back into the scene manager, which emits on
    this same table; [depth] bounds that nesting, and the table of depth [0]
    is empty.  Nesting never goes deeper than two ([listeners_depth]). *)
Fixpoint listeners (depth : nat) : EventBus.t Engine.t Payload :=
  match depth with
  | O => []
  | S d =>
      let selection := EventBus.mkListener 1 (SelectionModule.onEntityDeleted (listeners d)) in
      let connection := EventBus.mkListener 2 (ConnectionModule.onEntityUpdated (listeners d)) in
      let dirty := EventBus.mkListener 3 markDirty in
      EventBus.on EVENTS.SELECTION_CHANGED dirty
        (EventBus.on EVENTS.ENTITY_DELETED dirty
           (EventBus.on EVENTS.ENTITY_UPDATED dirty
              (EventBus.on EVENTS.ENTITY_CREATED dirty
                 (EventBus.on EVENTS.ENTITY_UPDATED connection
                    (EventBus.on EVENTS.ENTITY_DELETED selection [])))))
  end.

(** [this.scene.events] *)
Definition bus : EventBus.t Engine.t Payload := listeners 2.

(** [this.scene] and [this.selectionModule] of the engine. *)
Definition emit := SceneManager.emit bus.
Definition createObject := SceneManager.createObject bus.
Definition updateObject := SceneManager.updateObject bus.
Definition deleteObject := SceneManager.deleteObject bus.
Definition select := SelectionModule.select bus.
Definition clearSelection := SelectionModule.clearSelection bus.
Definition deleteSelected := SelectionModule.deleteSelected bus.

(** The ten registrations of the constructor. *)
Definition registerAll (RectangleType StickyNoteType TextType EllipseType TriangleType
                        DiamondType LineType ArrowType FrameType ImageType
                        : ObjectTypeDefinition.t) : list ObjectTypeDefinition.t :=
  fold_left (fun types def => SceneManager.registerObjectType def types)
            [RectangleType; StickyNoteType; TextType; EllipseType; TriangleType;
             DiamondType; LineType; ArrowType; FrameType; ImageType]
            [].

(** The types [CanvasEngine.ts] registers, from [ObjectTypes.ts]. *)
Definition moduleTypes : list ObjectTypeDefinition.t :=
  registerAll ObjectTypes.RectangleType ObjectTypes.StickyNoteType ObjectTypes.TextType
              ObjectTypes.EllipseType ObjectTypes.TriangleType ObjectTypes.DiamondType
              ObjectTypes.LineType ObjectTypes.ArrowType ObjectTypes.FrameType
              ObjectTypes.ImageType.

(** The types the engine of [InfiniteCanvasApp.tsx] registers. *)
Definition inlineTypes : list ObjectTypeDefinition.t :=
  registerAll Inline.RectangleType Inline.StickyNoteType Inline.TextType
              Inline.EllipseType Inline.TriangleType Inline.DiamondType
              Inline.LineType Inline.ArrowType Inline.FrameType Inline.ImageType.

(** The engine after its constructor, with the field initialisers of the
    class; [isDirty] is false, since [startLoop] has rendered once. *)
Definition initial (types : list ObjectTypeDefinition.t)
           (uuids : nat -> string) (randoms : nat -> nat) : Engine.t :=
  Engine.mk [] types [] Camera.initial false SELECT None 0 0
            false (QPoint.mk 0 0) None [] (Point.mk (Num 0) (Num 0))
            None None false None None None None [] [] uuids 0%nat randoms 0%nat.

(** ** Hit testing *)

(** [hit] of [getResizeHandleAt] and [getAnchorAt]: the square of half side
    [hs] around [(hx, hy)]. *)
Definition hitSquare (hs wx wy : Q) (hx hy : number) : bool :=
  (Num wx >=? hx - Num hs)%num && (Num wx <=? hx + Num hs)%num &&
  (Num wy >=? hy - Num hs)%num && (Num wy <=? hy + Num hs)%num.

Definition getResizeHandleAt (bbox : BBox.t) (wx wy zoom : Q) : option HandleType :=
  let hs := ((16 / zoom) / 2)%Q in
  if hitSquare hs wx wy (BBox.minX bbox) (BBox.minY bbox) then Some Htl
  else if hitSquare hs wx wy (BBox.maxX bbox) (BBox.minY bbox) then Some Htr
  else if hitSquare hs wx wy (BBox.minX bbox) (BBox.maxY bbox) then Some Hbl
  else if hitSquare hs wx wy (BBox.maxX bbox) (BBox.maxY bbox) then Some Hbr
  else None.

Definition getAnchorAt (bbox : BBox.t) (wx wy zoom : Q) : option AnchorPosition :=
  let hs := ((16 / zoom) / 2)%Q in
  let hit p := hitSquare hs wx wy (Point.x p) (Point.y p) in
  if hit (getAnchorPoint bbox At) then Some At
  else if hit (getAnchorPoint bbox Ar) then Some Ar
  else if hit (getAnchorPoint bbox Ab) then Some Ab
  else if hit (getAnchorPoint bbox Al) then Some Al
  else None.

(** [typeDef && typeDef.hitTest(entity, wx, wy)] *)
Definition hits (w : Engine.t) (wx wy : Q) (entity : Entity.t) : bool :=
  match SceneManager.getObjectType (Entity.type entity) w with
  | Some typeDef => ObjectTypeDefinition.hitTest typeDef entity (Num wx) (Num wy)
  | None => false
  end.

(** The loops run from the last entity to the first. *)
Definition hitTestGlobal (wx wy : Q) (w : Engine.t) : option Entity.t :=
  find (hits w wx wy) (rev (SceneManager.getAllObjects w)).

Definition hitTestShapes (wx wy : Q) (w : Engine.t) : option Entity.t :=
  find (fun entity =>
          negb (isLineOrArrow (Entity.type entity) || String.eqb (Entity.type entity) "FRAME")
          && hits w wx wy entity)
       (rev (SceneManager.getAllObjects w)).

(** [['Mobile', 'Tablet', 'Desktop'].includes(name)] *)
Definition isDevice (name : option string) : bool :=
  match name with
  | Some n => String.eqb n "Mobile" || String.eqb n "Tablet" || String.eqb n "Desktop"
  | None => false
  end.

Definition isDeviceFrame (o : Entity.t) : bool :=
  String.eqb (Entity.type o) "FRAME" && isDevice (Props.name (Entity.props o)).

(** ** switchTool *)

(** [FRAME_PRESETS[preset]] for a truthy [preset], by the own keys of the
    literal. *)
Definition presetSize (preset : option string) : option (Q * Q) :=
  match truthyString preset with
  | Some name => lookup name FRAME_PRESETS
  | None => None
  end.

(** The tail of [switchTool].  The host callback [onToolChange] and the
    cursor style are outside the state. *)
Definition setTool (tool : ToolType) (preset : option string) (w : Engine.t) : Engine.t :=
  emit EVENTS.TOOL_CHANGED (OfTool tool)
       (Engine.set_framePreset preset (Engine.set_activeTool tool w)).

Definition switchTool (tool : ToolType) (preset : option string) (w : Engine.t) : Engine.t :=
  match tool, truthyString preset, presetSize preset with
  | FRAME, Some name, Some (pw, ph) =>
      let cx := (Engine.width w / 2)%Q in
      let cy := (Engine.height w / 2)%Q in
      let wx := (cx / Camera.zoom (Engine.camera w) + Camera.x (Engine.camera w))%Q in
      let wy := (cy / Camera.zoom (Engine.camera w) + Camera.y (Engine.camera w))%Q in
      let id := SceneManager.randomUUID w in
      let w1 := createObject "FRAME"
                  (Props.object [Props.Width (Num pw); Props.Height (Num ph); Props.Name name])
                  (Some (PartialTransform.xy (Num (wx - pw / 2)) (Num (wy - ph / 2))))
                  Metadata.empty None w in
      setTool SELECT None (Engine.set_isDirty true (select id false w1))
  | _, _, _ => setTool tool preset w
  end.

(** ** onPointerDown *)

Inductive frameButton : Type := AddText | AddImage.

Definition inButton (p : QPoint.t) (bx by_ : number) : bool :=
  (Num (QPoint.x p) >=? bx)%num && (Num (QPoint.x p) <=? bx + Num 66)%num &&
  (Num (QPoint.y p) >=? by_)%num && (Num (QPoint.y p) <=? by_ + Num 24)%num.

Definition buttonAt (p : QPoint.t) (frame : Entity.t) : option frameButton :=
  let btnY := (yOf frame + Num 12)%num in
  let txtBtnX := (xOf frame + Num 12)%num in
  let imgBtnX := (xOf frame + Num 86)%num in
  if inButton p txtBtnX btnY then Some AddText
  else if inButton p imgBtnX btnY then Some AddImage
  else None.

(** The first device frame one of whose buttons is under the pointer. *)
Fixpoint firstButton (p : QPoint.t) (deviceFrames : list Entity.t)
  : option (Entity.t * frameButton) :=
  match deviceFrames with
  | [] => None
  | frame :: rest =>
      match buttonAt p frame with
      | Some b => Some (frame, b)
      | None => firstButton p rest
      end
  end.

Definition toolToType (tool : ToolType) : option string :=
  match tool with
  | RECT => Some "RECTANGLE"
  | STICKY => Some "STICKY_NOTE"
  | ELLIPSE => Some "ELLIPSE"
  | TRIANGLE => Some "TRIANGLE"
  | DIAMOND => Some "DIAMOND"
  | LINE => Some "LINE"
  | ARROW => Some "ARROW"
  | FRAME => Some "FRAME"
  | TEXT => Some "TEXT"
  | SELECT => None
  end.

(** ["Section " + Math.floor(Math.random() * 100)] *)
Definition sectionName (n : nat) : string :=
  ("Section " ++ NilEmpty.string_of_uint (Nat.to_uint n))%string.

(** [defaultProps] of a tool drag. *)
Definition defaultProps (type : string) (w : Engine.t) : Props.t :=
  let sized := [Props.Width (Num 0); Props.Height (Num 0)] in
  let colored c := Props.object (sized ++ [Props.Color c]) in
  let texted c t := Props.object (sized ++ [Props.Color c; Props.Text t]) in
  if String.eqb type "RECTANGLE" then colored "#60a5fa"
  else if String.eqb type "STICKY_NOTE" then texted "#fef08a" "New Idea!"
  else if String.eqb type "ELLIPSE" then colored "#fca5a5"
  else if String.eqb type "TRIANGLE" then colored "#86efac"
  else if String.eqb type "DIAMOND" then colored "#d8b4fe"
  else if isLineOrArrow type
       then Props.object (sized ++ [Props.Color "#64748b"; Props.Dir NwSe])
  else if String.eqb type "FRAME"
       then Props.object
              (sized ++ [Props.Name (match truthyString (Engine.framePreset w) with
                                     | Some preset => preset
                                     | None => sectionName (Engine.randoms w (Engine.randomsUsed w))
                                     end)])
  else if String.eqb type "TEXT" then texted "#1e293b" "Double click to edit"
  else Props.object sized.

(** [Math.random()] was called when a frame is drawn without a preset. *)
Definition drawRandom (type : string) (w : Engine.t) : Engine.t :=
  if String.eqb type "FRAME" && negb (isTruthy (Engine.framePreset w))
  then Engine.set_randomsUsed (S (Engine.randomsUsed w)) w
  else w.

(** The children a dragged frame takes along. *)
Definition frameChildren (hit : Entity.t) (w : Engine.t) : option (list string) :=
  if isDevice (Props.name (Entity.props hit))
  then Some (map Entity.id
               (filter (fun o => match Entity.parentId o with
                                 | Some pid => String.eqb pid (Entity.id hit)
                                 | None => false
                                 end)
                       (SceneManager.getAllObjects w)))
  else
    match SceneManager.getObjectType "FRAME" w with
    | None => None  (* [getObjectType('FRAME')!.getBBox] throws *)
    | Some frameDef =>
        let frameBox := ObjectTypeDefinition.getBBox frameDef hit in
        Some (map Entity.id
                (filter
                   (fun o =>
                      if String.eqb (Entity.id o) (Entity.id hit) then false
                      else if match Entity.parentId o with
                              | Some pid => String.eqb pid (Entity.id hit)
                              | None => false
                              end then true
                      else if isTruthy (Entity.parentId o) then false
                      else if isLineOrArrow (Entity.type o)
                              && (isTruthy (stringOf (Props.startConnectedId (Entity.props o)))
                                  || isTruthy (stringOf (Props.endConnectedId (Entity.props o))))
                           then false
                      else match SceneManager.getObjectType (Entity.type o) w with
                           | None => false
                           | Some def =>
                               let box := ObjectTypeDefinition.getBBox def o in
                               (BBox.minX box >=? BBox.minX frameBox)%num
                               && (BBox.maxX box <=? BBox.maxX frameBox)%num
                               && (BBox.minY box >=? BBox.minY frameBox)%num
                               && (BBox.maxY box <=? BBox.maxY frameBox)%num
                           end)
                   (SceneManager.getAllObjects w)))
    end.

(** Step 4 of [onPointerDown]: the select tool. *)
Definition pointerDownSelect (p : QPoint.t) (w : Engine.t) : Engine.t :=
  let resizing :=
    match SelectionModule.getSelectedIds w with
    | [sid] =>
        match SceneManager.getObject sid w with
        | Some entity =>
            if negb (isLineOrArrow (Entity.type entity)) then
              match SceneManager.getObjectType (Entity.type entity) w with
              | Some typeDef =>
                  match getResizeHandleAt (ObjectTypeDefinition.getBBox typeDef entity)
                                          (QPoint.x p) (QPoint.y p)
                                          (Camera.zoom (Engine.camera w)) with
                  | Some handle => Some (entity, handle)
                  | None => None
                  end
              | None => None
              end
            else None
        | None => None
        end
    | _ => None
    end in
  match resizing with
  | Some (entity, handle) =>
      Engine.set_resizeOriginal
        (Some (Rect.mk (xOf entity) (yOf entity) (widthOf entity) (heightOf entity)))
        (Engine.set_draggedEntityId (Some (Entity.id entity))
           (Engine.set_resizeHandle (Some handle)
              (Engine.set_isResizing true w)))
  | None =>
      match hitTestGlobal (QPoint.x p) (QPoint.y p) w with
      | Some hit =>
          let w1 := select (Entity.id hit) false w in
          if negb (isLineOrArrow (Entity.type hit)) then
            let w2 :=
              Engine.set_dragOffset
                (Point.mk (Num (QPoint.x p) - xOf hit)%num (Num (QPoint.y p) - yOf hit)%num)
                (Engine.set_draggedEntityId (Some (Entity.id hit)) w1) in
            if String.eqb (Entity.type hit) "FRAME" then
              match frameChildren hit w2 with
              | Some children => Engine.set_draggedChildrenIds children w2
              | None => w2
              end
            else Engine.set_draggedChildrenIds [] w2
          else w1
      | None => Engine.set_isPanning true (clearSelection w)
      end
  end.

(** Step 3: a shape, connector or frame tool. *)
Definition pointerDownTool (type : string) (p : QPoint.t) (w : Engine.t) : Engine.t :=
  let start := toPoint p in
  let w1 := Engine.set_createStartPoint (Some start) w in
  let props := defaultProps type w1 in
  let w2 := drawRandom type w1 in
  let id := SceneManager.randomUUID w2 in
  Engine.set_creatingEntityId (Some id)
    (createObject type props (Some (PartialTransform.xy (Point.x start) (Point.y start)))
                  Metadata.empty None w2).

(** Step 2: the pointer is on a hovered anchor.  [None] when the step does
    not apply and the handler goes on. *)
Definition pointerDownAnchor (w : Engine.t) : option Engine.t :=
  match truthyString (Engine.hoveredEntityId w), Engine.hoveredAnchor w with
  | Some hid, Some anchor =>
      match SceneManager.getObject hid w with
      | Some hoverObj =>
          match SceneManager.getObjectType (Entity.type hoverObj) w with
          | None => Some w  (* [typeDef!.getBBox] throws: the handler ends here *)
          | Some typeDef =>
              let start := getAnchorPoint (ObjectTypeDefinition.getBBox typeDef hoverObj) anchor in
              let w1 := Engine.set_createStartPoint (Some start) w in
              let type := match Engine.activeTool w1 with
                          | LINE => "LINE"
                          | _ => "ARROW"
                          end in
              let id := SceneManager.randomUUID w1 in
              Some (Engine.set_creatingEntityId (Some id)
                      (createObject type
                         (Props.object
                            [Props.Color "#64748b"; Props.Dir NwSe;
                             Props.StartConnectedId (Val (Entity.id hoverObj));
                             Props.StartAnchor (Val anchor);
                             Props.Start start])
                         (Some (PartialTransform.xy (Point.x start) (Point.y start)))
                         Metadata.empty None w1))
          end
      | None => None
      end
  | _, _ => None
  end.

Definition onPointerDown (e : PointerEvent.t) (w : Engine.t) : Engine.t :=
  let w1 := Engine.set_lastMouse (QPoint.mk (PointerEvent.clientX e) (PointerEvent.clientY e)) w in
  let p := Camera.screenToWorld (Engine.camera w1)
                                (PointerEvent.clientX e) (PointerEvent.clientY e) in
  if Nat.eqb (PointerEvent.button e) 1
     || (Nat.eqb (PointerEvent.button e) 0 && PointerEvent.shiftKey e)
  then Engine.set_isPanning true w1
  else if negb (Nat.eqb (PointerEvent.button e) 0) then w1
  else
    match firstButton p (filter isDeviceFrame (SceneManager.getAllObjects w1)) with
    | Some (frame, AddText) =>
        Engine.set_activeTool SELECT
          (Engine.set_isDirty true
             (createObject "TEXT"
                (Props.object
                   [Props.Text "Device Text"; Props.Color "#1e293b";
                    Props.Width (widthOf frame - Num 24)%num; Props.Height (Num 50)])
                (Some (PartialTransform.xy (xOf frame + Num 12)%num (yOf frame + Num 60)%num))
                Metadata.empty (Some (Entity.id frame)) w1))
    | Some (frame, AddImage) =>
        Engine.set_activeTool SELECT
          (Engine.set_isDirty true
             (emit EVENTS.REQUEST_IMAGE_UPLOAD (OfFrame (Entity.id frame)) w1))
    | None =>
        match pointerDownAnchor w1 with
        | Some w2 => w2
        | None =>
            match toolToType (Engine.activeTool w1) with
            | Some type => pointerDownTool type p w1
            | None => pointerDownSelect p w1
            end
        end
    end.

(** ** onPointerMove *)

(** The hover block, run while nothing is being panned, dragged or resized.
    The cursor style is outside the state. *)
Definition hover (p : QPoint.t) (w : Engine.t) : Engine.t :=
  let zoom := Camera.zoom (Engine.camera w) in
  let anchorOfSelected sid :=
    match SceneManager.getObject sid w with
    | Some obj =>
        match SceneManager.getObjectType (Entity.type obj) w with
        | Some def =>
            if negb (isLineOrArrow (Entity.type obj) || String.eqb (Entity.type obj) "FRAME")
            then match getAnchorAt (ObjectTypeDefinition.getBBox def obj)
                                   (QPoint.x p) (QPoint.y p) zoom with
                 | Some anchor => Some (Entity.id obj, anchor)
                 | None => None
                 end
            else None
        | None => None
        end
    | None => None
    end in
  let fromSelection :=
    fold_left (fun found sid => match found with
                                | Some _ => found
                                | None => anchorOfSelected sid
                                end)
              (SelectionModule.getSelectedIds w) None in
  let found :=
    match fromSelection with
    | Some (id, anchor) => (Some id, Some anchor)
    | None => (None, None)
    end in
  let '(newHoverId, newHoverAnchor) :=
    if isTruthy (fst found) then found
    else
      match hitTestShapes (QPoint.x p) (QPoint.y p) w with
      | Some hit =>
          (Some (Entity.id hit),
           match SceneManager.getObjectType (Entity.type hit) w with
           | Some typeDef => getAnchorAt (ObjectTypeDefinition.getBBox typeDef hit)
                                         (QPoint.x p) (QPoint.y p) zoom
           | None => snd found
           end)
      | None => found
      end in
  let sameId :=
    match Engine.hoveredEntityId w, newHoverId with
    | Some a, Some b => String.eqb a b
    | None, None => true
    | _, _ => false
    end in
  let sameAnchor :=
    match Engine.hoveredAnchor w, newHoverAnchor with
    | Some a, Some b =>
        match a, b with
        | At, At | Ar, Ar | Ab, Ab | Al, Al | Ac, Ac => true
        | _, _ => false
        end
    | None, None => true
    | _, _ => false
    end in
  if sameId && sameAnchor then w
  else Engine.set_isDirty true
         (Engine.set_hoveredAnchor newHoverAnchor (Engine.set_hoveredEntityId newHoverId w)).

(** The block that stretches the entity being created. *)
Definition moveCreating (cid : string) (start : Point.t) (p : QPoint.t) (w : Engine.t)
  : Engine.t :=
  let entity := SceneManager.getObject cid w in
  let isConnector :=
    match entity with
    | Some en => isLineOrArrow (Entity.type en)
    | None => false
    end in
  let snapped :=
    if isConnector then
      match truthyString (Engine.hoveredEntityId w) with
      | Some hid =>
          if negb (String.eqb hid cid) then
            match SceneManager.getObject hid w with
            | Some hoverObj =>
                match SceneManager.getObjectType (Entity.type hoverObj) w with
                | Some typeDef =>
                    let anchor := orElse (Engine.hoveredAnchor w) Ac in
                    Some (getAnchorPoint (ObjectTypeDefinition.getBBox typeDef hoverObj) anchor,
                          Entity.id hoverObj, anchor)
                | None => None
                end
            | None => None
            end
          else None
      | None => None
      end
    else None in
  let targetW := match snapped with
                 | Some (pt, _, _) => pt
                 | None => toPoint p
                 end in
  let endConnectedId := match snapped with
                        | Some (_, hid, _) => Val hid
                        | None => Null
                        end in
  let endAnchor := match snapped with
                   | Some (_, _, anchor) => Val anchor
                   | None => Null
                   end in
  let minX := Number.min (Point.x start) (Point.x targetW) in
  let minY := Number.min (Point.y start) (Point.y targetW) in
  let width := Number.abs (Point.x targetW - Point.x start) in
  let height := Number.abs (Point.y targetW - Point.y start) in
  let extraProps :=
    if isConnector then
      let isNwSe := Bool.eqb (Point.x targetW >=? Point.x start)%num
                             (Point.y targetW >=? Point.y start)%num in
      Props.object
        [Props.Dir (if isNwSe then NwSe else SwNe);
         Props.End targetW;
         Props.EndConnectedId endConnectedId;
         Props.EndAnchor endAnchor]
    else Props.empty in
  updateObject cid
    (Updates.ofTransformProps (PartialTransform.xy minX minY)
                              (Props.spread (Props.size width height) extraProps))
    w.

(** The [switch] of the resize block: the new [x, y, width, height]. *)
Definition resized (handle : HandleType) (original : Rect.t) (p : Point.t) : Rect.t :=
  let x := Rect.x original in
  let y := Rect.y original in
  let minSize := Num 20 in
  match handle with
  | Htl =>
      let width := ((x + Rect.w original) - Point.x p)%num in
      let height := ((y + Rect.h original) - Point.y p)%num in
      Rect.mk (if (width >=? minSize)%num then Point.x p else x)
              (if (height >=? minSize)%num then Point.y p else y)
              (if (width >=? minSize)%num then width else minSize)
              (if (height >=? minSize)%num then height else minSize)
  | Htr =>
      let width := (Point.x p - x)%num in
      let height := ((y + Rect.h original) - Point.y p)%num in
      Rect.mk x
              (if (height >=? minSize)%num then Point.y p else y)
              (if (width <? minSize)%num then minSize else width)
              (if (height >=? minSize)%num then height else minSize)
  | Hbl =>
      let width := ((x + Rect.w original) - Point.x p)%num in
      let height := (Point.y p - y)%num in
      Rect.mk (if (width >=? minSize)%num then Point.x p else x)
              y
              (if (width >=? minSize)%num then width else minSize)
              (if (height <? minSize)%num then minSize else height)
  | Hbr =>
      let width := (Point.x p - x)%num in
      let height := (Point.y p - y)%num in
      Rect.mk x y
              (if (width <? minSize)%num then minSize else width)
              (if (height <? minSize)%num then minSize else height)
  end.

(** The block that moves the dragged entity and its children. *)
Definition moveDragged (did : string) (p : QPoint.t) (w : Engine.t) : option Engine.t :=
  let newX := (Num (QPoint.x p) - Point.x (Engine.dragOffset w))%num in
  let newY := (Num (QPoint.y p) - Point.y (Engine.dragOffset w))%num in
  match SceneManager.getObject did w with
  | None => None  (* [entity!.transform] throws *)
  | Some entity =>
      let deltaX := (newX - xOf entity)%num in
      let deltaY := (newY - yOf entity)%num in
      let w1 := updateObject did (Updates.ofTransform (PartialTransform.xy newX newY)) w in
      Some (fold_left
              (fun w childId =>
                 match SceneManager.getObject childId w with
                 | Some child =>
                     updateObject childId
                       (Updates.ofTransform
                          (PartialTransform.xy (xOf child + deltaX)%num (yOf child + deltaY)%num))
                       w
                 | None => w
                 end)
              (Engine.draggedChildrenIds w1) w1)
  end.

Definition onPointerMove (e : PointerEvent.t) (w : Engine.t) : Engine.t :=
  let mouse := QPoint.mk (PointerEvent.clientX e) (PointerEvent.clientY e) in
  let p := Camera.screenToWorld (Engine.camera w)
                                (PointerEvent.clientX e) (PointerEvent.clientY e) in
  let w1 := if negb (Engine.isPanning w) && negb (isTruthy (Engine.draggedEntityId w))
               && negb (Engine.isResizing w)
            then hover p w else w in
  match truthyString (Engine.creatingEntityId w1), Engine.createStartPoint w1 with
  | Some cid, Some start => Engine.set_lastMouse mouse (moveCreating cid start p w1)
  | _, _ =>
      match Engine.isResizing w1, Engine.resizeHandle w1,
            truthyString (Engine.draggedEntityId w1), Engine.resizeOriginal w1 with
      | true, Some handle, Some did, Some original =>
          let r := resized handle original (toPoint p) in
          Engine.set_lastMouse mouse
            (updateObject did
               (Updates.ofTransformProps (PartialTransform.xy (Rect.x r) (Rect.y r))
                                         (Props.size (Rect.w r) (Rect.h r)))
               w1)
      | _, _, _, _ =>
          if negb (Engine.isPanning w1) && negb (isTruthy (Engine.draggedEntityId w1)) then w1
          else
            let dx := (PointerEvent.clientX e - QPoint.x (Engine.lastMouse w1))%Q in
            let dy := (PointerEvent.clientY e - QPoint.y (Engine.lastMouse w1))%Q in
            if Engine.isPanning w1 then
              let c := Engine.camera w1 in
              Engine.set_lastMouse mouse
                (Engine.set_isDirty true
                   (Engine.set_camera
                      (Camera.mk (Camera.x c - dx / Camera.zoom c)
                                 (Camera.y c - dy / Camera.zoom c)
                                 (Camera.zoom c))%Q
                      w1))
            else
              match truthyString (Engine.draggedEntityId w1) with
              | Some did =>
                  match moveDragged did p w1 with
                  | Some w2 => Engine.set_lastMouse mouse w2
                  | None => w1
                  end
              | None => Engine.set_lastMouse mouse w1
              end
      end
  end.

(** ** onPointerUp *)

(** [fallbacks[entity.type] || { w: 100, h: 100 }] *)
Definition fallbackSize (type : string) (w : Engine.t) : Q * Q :=
  let fallbacks : list (string * (Q * Q)) :=
    [ ("STICKY_NOTE", (200, 200)); ("RECTANGLE", (100, 100));
      ("ELLIPSE", (100, 100)); ("TRIANGLE", (100, 100)); ("DIAMOND", (100, 100));
      ("LINE", (100, 100)); ("ARROW", (100, 100));
      ("FRAME", orElse (presetSize (Engine.framePreset w)) (400, 300));
      ("TEXT", (250, 50)) ]%Q in
  orElse (lookup type fallbacks) (100, 100)%Q.

(** The entity being created is too small and is no connector that ends on a
    connection. *)
Definition needsFallback (entity : Entity.t) : bool :=
  ((widthOf entity <? Num 10)%num || (heightOf entity <? Num 10)%num)
  && negb (isLineOrArrow (Entity.type entity)
           && isTruthy (stringOf (Props.endConnectedId (Entity.props entity)))).

Definition snapToFallback (cid : string) (entity : Entity.t) (w : Engine.t) : Engine.t :=
  let fb := fallbackSize (Entity.type entity) w in
  let sized := Props.spread (Entity.props entity) (Props.size (Num (fst fb)) (Num (snd fb))) in
  let propsToUpdate :=
    if isLineOrArrow (Entity.type entity)
    then Props.spread sized
           (Props.object [Props.End (Point.mk (xOf entity + Num (fst fb))%num
                                              (yOf entity + Num (snd fb))%num)])
    else sized in
  updateObject cid (Updates.ofProps propsToUpdate) w.

Definition onPointerUp (w : Engine.t) : Engine.t :=
  let w1 :=
    match truthyString (Engine.creatingEntityId w) with
    | Some cid =>
        let wa :=
          match SceneManager.getObject cid w with
          | Some entity => if needsFallback entity then snapToFallback cid entity w else w
          | None => w
          end in
        switchTool SELECT None
          (Engine.set_createStartPoint None
             (Engine.set_creatingEntityId None (select cid false wa)))
    | None => w
    end in
  Engine.set_draggedChildrenIds []
    (Engine.set_draggedEntityId None
       (Engine.set_resizeOriginal None
          (Engine.set_resizeHandle None
             (Engine.set_isResizing false
                (Engine.set_isPanning false w1))))).

(** ** onWheel *)

(** The host callback [onZoomChange] is outside the state. *)
Definition onWheel (e : WheelEvent.t) (w : Engine.t) : Engine.t :=
  let c := Engine.camera w in
  let c' :=
    if WheelEvent.ctrlKey e then
      let delta := (- WheelEvent.deltaY e * (1 # 100))%Q in
      let newZoom := Qmin (Qmax (Camera.zoom c * (1 + delta)) (1 # 10)) 5 in
      let wx := (WheelEvent.clientX e / Camera.zoom c + Camera.x c)%Q in
      let wy := (WheelEvent.clientY e / Camera.zoom c + Camera.y c)%Q in
      Camera.mk (wx - WheelEvent.clientX e / newZoom)%Q
                (wy - WheelEvent.clientY e / newZoom)%Q
                newZoom
    else
      Camera.mk (Camera.x c + WheelEvent.deltaX e / Camera.zoom c)%Q
                (Camera.y c + WheelEvent.deltaY e / Camera.zoom c)%Q
                (Camera.zoom c) in
  Engine.set_isDirty true (Engine.set_camera c' w).

(** ** zoomTo *)

(** The host callback [onZoomChange] is outside the state. *)
Definition zoomTo (zoom : Q) (w : Engine.t) : Engine.t :=
  let cx := (Engine.width w / 2)%Q in
  let cy := (Engine.height w / 2)%Q in
  let wx := (cx / Camera.zoom (Engine.camera w) + Camera.x (Engine.camera w))%Q in
  let wy := (cy / Camera.zoom (Engine.camera w) + Camera.y (Engine.camera w))%Q in
  Engine.set_isDirty true
    (Engine.set_camera (Camera.mk (wx - cx / zoom)%Q (wy - cy / zoom)%Q zoom) w).

(** ** exportData and importData *)

Section WithJSON.

(** [JSON.stringify(_, null, 2)] on an array of entities, and [JSON.parse],
    are the runtime's. *)
Variable JSON_stringify : list Entity.t -> string.
Variable JSON_parse : string -> parsed.

Definition exportData (w : Engine.t) : string :=
  JSON_stringify (SceneManager.getAllObjects w).

(** [console.error("Failed to parse board data", e)] *)
Definition logImportFailure (error : string) (w : Engine.t) : Engine.t :=
  Engine.set_console (Engine.console w ++ [("Failed to parse board data " ++ error)%string]) w.

Definition importData (data : string) (w : Engine.t) : Engine.t :=
  match JSON_parse data with
  | SyntaxError message => logImportFailure message w
  | NotAnArray => w
  | AnArray objects =>
      match SceneManager.loadData objects w with
      | EventBus.Throw error w' => logImportFailure error w'
      | EventBus.Return w' =>
          (* [window.dispatchEvent(new Event('canvas-dirty'))] runs [markDirty] *)
          Engine.set_isDirty true (Engine.set_isDirty true (clearSelection w'))
      end
  end.

End WithJSON.

End CanvasEngine.
(* ================================================================== *)
(** * Notions used by the statements *)
(* ================================================================== *)

(** The keys of the store, in iteration order. *)
Definition ids (entities : list Entity.t) : list string := map Entity.id entities.

(** The id and type of every entity, in iteration order. *)
Definition skeleton (entities : list Entity.t) : list (string * string) :=
  map (fun e => (Entity.id e, Entity.type e)) entities.

(** The store is a [Map]: no key occurs twice. *)
Definition storeOk (w : Engine.t) : Prop := NoDup (ids (Engine.entities w)).

(** The state after [emit(event, payload)] was entered: the emission is on
    the trace. *)
Definition traced (event : string) (payload : Payload) (w : Engine.t) : Engine.t :=
  Engine.set_emitted (Engine.emitted w ++ [(event, payload)]) w.

(** [updateObject] as it runs when [markDirty] is the only callback of
    ENTITY_UPDATED that does something: merge, store, emit, mark dirty. *)
Definition plainUpdate (id : string) (updates : Updates.t) (w : Engine.t) : Engine.t :=
  match SceneManager.getObject id w with
  | None => w
  | Some entity =>
      let updatedEntity := SceneManager.merge entity updates in
      Engine.set_isDirty true
        (traced EVENTS.ENTITY_UPDATED (OfUpdate entity updatedEntity)
           (Engine.set_entities (mapSet updatedEntity (Engine.entities w)) w))
  end.

(** One step of the loop of [onEntityUpdated], as a plain update. *)
Definition reroute (w : Engine.t) (line : Entity.t) : Engine.t :=
  plainUpdate (Entity.id line) (ConnectionModule.routed line w) w.

(** The loop of [onEntityUpdated] for the entity [id]. *)
Definition rerouteAll (id : string) (w : Engine.t) : Engine.t :=
  fold_left reroute (filter (ConnectionModule.isConnectedTo id) (Engine.entities w)) w.

(** The store holds a connector under the key [i]. *)
Definition lineAt (w : Engine.t) (i : string) : Prop :=
  exists cur, SceneManager.getObject i w = Some cur /\ isLineOrArrow (Entity.type cur) = true.

(** [w'] differs from [w] at most in the entities, the trace and the dirty
    flag. *)
Definition sceneOnly (w w' : Engine.t) : Prop :=
  w' = Engine.set_isDirty (Engine.isDirty w')
         (Engine.set_emitted (Engine.emitted w')
            (Engine.set_entities (Engine.entities w') w)).

(** The engine's [updateObject] with the same updates for each id of a list:
    the loops of the selection module. *)
Definition updateEach (u : Updates.t) (l : list string) (w : Engine.t) : Engine.t :=
  fold_left (fun w sid => CanvasEngine.updateObject sid u w) l w.

(** The entity created by a call [createObject(type, props, transform,
    undefined, parentId)], with the default metadata [{}]. *)
Module Creation.
Record t : Type := mk {
  type : string;
  props : Props.t;
  transform : option PartialTransform.t;
  parentId : option string }.
End Creation.

Definition populate (creations : list Creation.t) (w : Engine.t) : Engine.t :=
  fold_left
    (fun w c =>
       CanvasEngine.createObject (Creation.type c) (Creation.props c) (Creation.transform c)
                                 Metadata.empty (Creation.parentId c) w)
    creations w.

(** The operations of the selection module, and the deletion of an entity. *)
Inductive operation : Type :=
| Select (id : string) (multi : bool)
| ClearSelection
| DeleteSelected
| DeleteObject (id : string).

Definition perform (w : Engine.t) (op : operation) : Engine.t :=
  match op with
  | Select id multi => CanvasEngine.select id multi w
  | ClearSelection => CanvasEngine.clearSelection w
  | DeleteSelected => CanvasEngine.deleteSelected w
  | DeleteObject id => CanvasEngine.deleteObject id w
  end.

(** [metadata.selected] mirrors the selection set, key by key. *)
Definition mirrors (w : Engine.t) : Prop :=
  forall i e,
    SceneManager.getObject i w = Some e ->
    (Metadata.isSelected (Entity.metadata e) = true <-> In i (Engine.selectedIds w)).

(** The [Map] after [set(e.id, e)] for each record of a list, in order. *)
Definition storeAll (records : list Entity.t) (entities : list Entity.t) : list Entity.t :=
  fold_left (fun es e => mapSet e es) records entities.

(** The corner of a box that a resize handle sits on. *)
Definition cornerOf (bbox : BBox.t) (handle : HandleType) : Point.t :=
  match handle with
  | Htl => Point.mk (BBox.minX bbox) (BBox.minY bbox)
  | Htr => Point.mk (BBox.maxX bbox) (BBox.minY bbox)
  | Hbl => Point.mk (BBox.minX bbox) (BBox.maxY bbox)
  | Hbr => Point.mk (BBox.maxX bbox) (BBox.maxY bbox)
  end.

(** One key of a shallow merge [{ ...old, ...update }] into a record whose
    keys are always there: the key takes the value the update has for it and
    keeps the old value when the update does not have the key. *)
Definition mergedField {A : Type} (old : A) (update : option A) (result : A) : Prop :=
  (forall v, update = Some v -> result = v) /\ (update = None -> result = old).

(** The same for a key that the old object may lack. *)
Definition mergedKey {A : Type} (old update result : option A) : Prop :=
  (forall v, update = Some v -> result = Some v) /\ (update = None -> result = old).

(* ================================================================== *)
(** * Sample scenes *)
(* ================================================================== *)

Module Sample.

Definition uuids (n : nat) : string :=
  match n with
  | 0%nat => "id-0"
  | 1%nat => "id-1"
  | 2%nat => "id-2"
  | _ => "id-n"
  end.

(** The engine of [InfiniteCanvasApp.tsx] after its constructor. *)
Definition fresh : Engine.t :=
  CanvasEngine.initial CanvasEngine.inlineTypes uuids (fun _ => 0%nat).

Definition transformAt (x y : Q) : Transform.t :=
  Transform.mk (Num x) (Num y) (Num 1) (Num 1) (Num 0).

(** A rectangle at [(x, y)] of size [w] by [h]. *)
Definition rectangle (id : string) (x y w h : Q) : Entity.t :=
  Entity.mk id "RECTANGLE" (transformAt x y)
            (Props.object [Props.Width (Num w); Props.Height (Num h)])
            Metadata.empty true None.

(** An arrow from the anchor [anchor] of the entity [from], with stored
    endpoints [(sx, sy)] and [(ex, ey)] and no connection at its end. *)
Definition arrowFrom (id from : string) (anchor : AnchorPosition) (sx sy ex ey : Q)
  : Entity.t :=
  Entity.mk id "ARROW" (transformAt (Qmin sx ex) (Qmin sy ey))
            (Props.object
               [Props.Color "#64748b"; Props.Dir NwSe;
                Props.StartConnectedId (Val from); Props.StartAnchor (Val anchor);
                Props.Start (Point.mk (Num sx) (Num sy));
                Props.Width (Num (Qabs (ex - sx))); Props.Height (Num (Qabs (ey - sy)));
                Props.End (Point.mk (Num ex) (Num ey));
                Props.EndConnectedId Null; Props.EndAnchor Null])
            Metadata.empty true None.

Definition selected (e : Entity.t) : Entity.t :=
  Entity.mk (Entity.id e) (Entity.type e) (Entity.transform e) (Entity.props e)
            (Metadata.mk (Some true)) (Entity.visible e) (Entity.parentId e).

(** A rectangle with an arrow attached to its right anchor. *)
Definition boxAndArrow : Engine.t :=
  Engine.set_entities
    [rectangle "box" 0 0 100 100; arrowFrom "arrow" "box" Ar 100 50 200 50]
    fresh.

(** The same scene with the empty string as the rectangle's id, as a loaded
    file may have it. *)
Definition emptyIdScene : Engine.t :=
  Engine.set_entities
    [rectangle "" 0 0 100 100; arrowFrom "arrow" "" Ar 100 50 200 50]
    fresh.

(** [{ transform: { x, y } }] *)
Definition moveTo (x y : Q) : Updates.t :=
  Updates.ofTransform (PartialTransform.xy (Num x) (Num y)).

(** [{ transform: { x: 40 }, props: { width: 50, color: 'red' },
    metadata: { selected: true } }] *)
Definition restyle : Updates.t :=
  Updates.mk (Some (PartialTransform.mk (Some (Num 40)) None None None None))
             (Some (Props.object [Props.Width (Num 50); Props.Color "red"]))
             (Some (Metadata.mk (Some true)))
             None None.

(** A selected rectangle, pressed on its bottom-right resize handle. *)
Definition resizing : Engine.t :=
  CanvasEngine.onPointerDown (PointerEvent.mk 100 100 0 false)
    (CanvasEngine.select "box" false
       (Engine.set_entities [rectangle "box" 0 0 100 100] fresh)).

(** A pointer event of the primary button, without modifier. *)
Definition pointer (x y : Q) : PointerEvent.t := PointerEvent.mk x y 0 false.

(** The rectangle tool, pressed at [(0, 0)] and dragged to [(5, 5)]. *)
Definition creatingRectangle : Engine.t :=
  CanvasEngine.onPointerMove (pointer 5 5)
    (CanvasEngine.onPointerDown (pointer 0 0)
       (CanvasEngine.switchTool RECT None fresh)).

(** An arrow as [onPointerDown] creates it on an anchor: no width, no height
    yet. *)
Definition sizeless : Entity.t :=
  Entity.mk "new" "ARROW" (transformAt 100 50)
            (Props.object [Props.Color "#64748b"; Props.Dir NwSe;
                           Props.StartConnectedId (Val "box"); Props.StartAnchor (Val Ar);
                           Props.Start (Point.mk (Num 100) (Num 50))])
            Metadata.empty true None.

(** The engine on a viewport of 800 by 600. *)
Definition viewport : Engine.t :=
  Engine.set_height 600 (Engine.set_width 800 fresh).

(** A rectangle pressed at [(30, 40)] with the select tool: it is selected
    and being dragged. *)
Definition dragging : Engine.t :=
  CanvasEngine.onPointerDown (pointer 30 40)
    (Engine.set_entities [rectangle "box" 0 0 100 100] viewport).

(** The empty canvas pressed with the select tool: panning. *)
Definition panning : Engine.t :=
  CanvasEngine.onPointerDown (pointer 30 40) viewport.

(** A codec that round-trips the scene [boxAndArrow]. *)
Definition stringify (_ : list Entity.t) : string := "[box, arrow]".

Definition parse (data : string) : parsed :=
  if String.eqb data "[box, arrow]"
  then AnArray (map SceneManager.Record_ (SceneManager.getAllObjects boxAndArrow))
  else SyntaxError "Unexpected token".

End Sample.

(** ** Facts about the bus *)

Lemma lookup_map_snd {A B : Type} (f : A -> B) key (table : list (string * A)) :
  lookup key (map (fun entry => (fst entry, f (snd entry))) table)
  = option_map f (lookup key table).
Proof.
  induction table as [|[k v] rest IH]; simpl; [reflexivity|].
  destruct (String.eqb k key); [reflexivity|exact IH].
Qed.

Lemma forEach_traced {S P : Type} (consoleError : string -> string -> S -> S)
      event (payload : P) (callbacks : list (EventBus.listener S P)) :
  forall (s : S) (log : EventBus.calls P),
    EventBus.forEach
      (fun cb =>
         EventBus.tryCatch (EventBus.call cb payload)
           (fun error s' => EventBus.Return (EventBus.tracedConsole consoleError event error s')))
      (map EventBus.traced callbacks) (s, log)
    = EventBus.Return
        (fold_left (EventBus.deliver consoleError event payload) callbacks s,
         log ++ map (fun cb => (EventBus.handle cb, payload)) callbacks).
Proof.
  induction callbacks as [|cb rest IH]; intros s log; simpl.
  - now rewrite app_nil_r.
  - unfold EventBus.tryCatch at 1. cbn [EventBus.traced EventBus.call fst snd].
    destruct (EventBus.call cb payload s) as [s'|error s'] eqn:E.
    + assert (D : EventBus.deliver consoleError event payload s cb = s')
        by (unfold EventBus.deliver; now rewrite E).
      now rewrite D, IH, <- app_assoc.
    + assert (D : EventBus.deliver consoleError event payload s cb
                  = consoleError event error s')
        by (unfold EventBus.deliver; now rewrite E).
      change (EventBus.tracedConsole consoleError event error
                (s', log ++ [(EventBus.handle cb, payload)]))
        with (consoleError event error s', log ++ [(EventBus.handle cb, payload)]).
      now rewrite D, IH, <- app_assoc.
Qed.

(** C8.  Whatever the subscribed callbacks do, [emit] returns normally (an
    exception of a callback never reaches the caller), every subscribed
    callback is invoked once, in subscription order, with the payload, also
    those that come after a callback that threw, and the state is the one
    obtained by running them all. *)
Theorem emit_isolates_listener_failures
        {S P : Type} (consoleError : string -> string -> S -> S)
        (listeners : EventBus.t S P) (event : string) (payload : P)
        (s : S) (log : EventBus.calls P) :
  EventBus.emit (EventBus.tracedConsole consoleError)
                (EventBus.tracedBus listeners) event payload (s, log)
  = EventBus.Return
      (fold_left (EventBus.deliver consoleError event payload)
                 (EventBus.subscribers event listeners) s,
       log ++ map (fun cb => (EventBus.handle cb, payload))
                  (EventBus.subscribers event listeners)).
Proof.
  unfold EventBus.emit, EventBus.subscribers, EventBus.get, EventBus.tracedBus.
  rewrite lookup_map_snd.
  destruct (lookup event listeners) as [callbacks|]; simpl.
  - apply forEach_traced.
  - now rewrite app_nil_r.
Qed.
(* ================================================================== *)
(** * The store as a map *)
(* ================================================================== *)

Lemma find_mapSet_same (e : Entity.t) (es : list Entity.t) :
  find (fun x => String.eqb (Entity.id x) (Entity.id e)) (mapSet e es) = Some e.
Proof.
  induction es as [|e' rest IH]; simpl.
  - now rewrite String.eqb_refl.
  - destruct (String.eqb (Entity.id e') (Entity.id e)) eqn:E; simpl.
    + now rewrite String.eqb_refl.
    + now rewrite E.
Qed.

Lemma find_mapSet_other (e : Entity.t) (es : list Entity.t) (i : string) :
  i <> Entity.id e ->
  find (fun x => String.eqb (Entity.id x) i) (mapSet e es)
  = find (fun x => String.eqb (Entity.id x) i) es.
Proof.
  intros Hne. induction es as [|e' rest IH]; simpl.
  - destruct (String.eqb_spec (Entity.id e) i); [congruence|reflexivity].
  - destruct (String.eqb_spec (Entity.id e') (Entity.id e)) as [Heq|Hneq]; simpl.
    + destruct (String.eqb_spec (Entity.id e) i); [congruence|].
      destruct (String.eqb_spec (Entity.id e') i); [congruence|reflexivity].
    + destruct (String.eqb (Entity.id e') i); [reflexivity|exact IH].
Qed.

Lemma find_id_some (i : string) (es : list Entity.t) (e : Entity.t) :
  find (fun x => String.eqb (Entity.id x) i) es = Some e -> Entity.id e = i /\ In e es.
Proof.
  intros H. apply find_some in H. destruct H as [Hin Heq].
  apply String.eqb_eq in Heq. now split.
Qed.

Lemma find_id_none (i : string) (es : list Entity.t) :
  find (fun x => String.eqb (Entity.id x) i) es = None <-> ~ In i (ids es).
Proof.
  induction es as [|e rest IH]; simpl.
  - tauto.
  - destruct (String.eqb_spec (Entity.id e) i) as [Heq|Hne].
    + split; [discriminate|]. intros H. exfalso. apply H. now left.
    + rewrite IH. tauto.
Qed.

Lemma find_id_NoDup (es : list Entity.t) (e : Entity.t) :
  NoDup (ids es) -> In e es ->
  find (fun x => String.eqb (Entity.id x) (Entity.id e)) es = Some e.
Proof.
  induction es as [|e' rest IH]; simpl; intros Hnd Hin; [contradiction|].
  inversion Hnd as [|? ? Hnotin Hnd']; subst.
  destruct Hin as [->|Hin].
  - now rewrite String.eqb_refl.
  - destruct (String.eqb_spec (Entity.id e') (Entity.id e)) as [Heq|Hne].
    + exfalso. apply Hnotin. rewrite Heq. now apply in_map.
    + now apply IH.
Qed.

Lemma ids_mapSet_in (e : Entity.t) (es : list Entity.t) :
  In (Entity.id e) (ids es) -> ids (mapSet e es) = ids es.
Proof.
  induction es as [|e' rest IH]; simpl; intros Hin; [contradiction|].
  destruct (String.eqb_spec (Entity.id e') (Entity.id e)) as [Heq|Hne]; simpl.
  - now rewrite Heq.
  - f_equal. apply IH. destruct Hin; [congruence|assumption].
Qed.

Lemma ids_mapSet_new (e : Entity.t) (es : list Entity.t) :
  ~ In (Entity.id e) (ids es) -> ids (mapSet e es) = ids es ++ [Entity.id e].
Proof.
  induction es as [|e' rest IH]; simpl; intros Hnin; [reflexivity|].
  destruct (String.eqb_spec (Entity.id e') (Entity.id e)) as [Heq|Hne]; simpl.
  - exfalso. apply Hnin. now left.
  - f_equal. apply IH. tauto.
Qed.

Lemma NoDup_ids_mapSet (e : Entity.t) (es : list Entity.t) :
  NoDup (ids es) -> NoDup (ids (mapSet e es)).
Proof.
  intros Hnd. destruct (in_dec string_dec (Entity.id e) (ids es)) as [Hin|Hnin].
  - now rewrite ids_mapSet_in.
  - rewrite ids_mapSet_new by assumption.
    apply NoDup_app; [assumption|repeat constructor; simpl; tauto|].
    intros x Hx [<-|[]]. contradiction.
Qed.

(** The ids and types of the store, position by position. *)
Lemma skeleton_mapSet (new e : Entity.t) (es : list Entity.t) :
  find (fun x => String.eqb (Entity.id x) (Entity.id new)) es = Some e ->
  Entity.type new = Entity.type e ->
  skeleton (mapSet new es) = skeleton es.
Proof.
  induction es as [|e' rest IH]; simpl; [discriminate|].
  destruct (String.eqb_spec (Entity.id e') (Entity.id new)) as [Heq|Hne]; simpl.
  - intros [= ->] Ht. unfold skeleton. simpl. now rewrite Heq, Ht.
  - intros Hf Ht. unfold skeleton in *. simpl. f_equal. now apply IH.
Qed.

Lemma find_skeleton (i : string) (es es' : list Entity.t) (e : Entity.t) :
  skeleton es = skeleton es' ->
  find (fun x => String.eqb (Entity.id x) i) es = Some e ->
  exists e', find (fun x => String.eqb (Entity.id x) i) es' = Some e'
             /\ Entity.type e' = Entity.type e.
Proof.
  revert es'. induction es as [|a rest IH]; intros [|a' rest']; simpl; try discriminate.
  unfold skeleton. simpl. intros [= Hid Ht Hrest]. rewrite <- Hid.
  destruct (String.eqb (Entity.id a) i).
  - intros [= <-]. now exists a'.
  - now apply IH.
Qed.

Lemma skeleton_ids (es es' : list Entity.t) :
  skeleton es = skeleton es' -> ids es = ids es'.
Proof.
  intros H.
  assert (E : forall l, ids l = map fst (skeleton l)).
  { intros l. unfold ids, skeleton. rewrite map_map. reflexivity. }
  now rewrite !E, H.
Qed.
(* ================================================================== *)
(** * Dispatch on the engine's bus *)
(* ================================================================== *)

Lemma listeners_S (k : nat) :
  CanvasEngine.listeners (S k)
  = [ (EVENTS.ENTITY_DELETED,
       [EventBus.mkListener 1 (SelectionModule.onEntityDeleted (CanvasEngine.listeners k));
        EventBus.mkListener 3 CanvasEngine.markDirty]);
      (EVENTS.ENTITY_UPDATED,
       [EventBus.mkListener 2 (ConnectionModule.onEntityUpdated (CanvasEngine.listeners k));
        EventBus.mkListener 3 CanvasEngine.markDirty]);
      (EVENTS.ENTITY_CREATED, [EventBus.mkListener 3 CanvasEngine.markDirty]);
      (EVENTS.SELECTION_CHANGED, [EventBus.mkListener 3 CanvasEngine.markDirty]) ].
Proof. reflexivity. Qed.

Lemma get_deleted (k : nat) :
  EventBus.get EVENTS.ENTITY_DELETED (CanvasEngine.listeners (S k))
  = Some [EventBus.mkListener 1 (SelectionModule.onEntityDeleted (CanvasEngine.listeners k));
          EventBus.mkListener 3 CanvasEngine.markDirty].
Proof. reflexivity. Qed.

Lemma get_updated (k : nat) :
  EventBus.get EVENTS.ENTITY_UPDATED (CanvasEngine.listeners (S k))
  = Some [EventBus.mkListener 2 (ConnectionModule.onEntityUpdated (CanvasEngine.listeners k));
          EventBus.mkListener 3 CanvasEngine.markDirty].
Proof. reflexivity. Qed.

(** Events with [markDirty] as only callback. *)
Lemma emit_created (k : nat) (payload : Payload) (w : Engine.t) :
  SceneManager.emit (CanvasEngine.listeners (S k)) EVENTS.ENTITY_CREATED payload w
  = Engine.set_isDirty true (traced EVENTS.ENTITY_CREATED payload w).
Proof. reflexivity. Qed.

Lemma emit_selection (k : nat) (payload : Payload) (w : Engine.t) :
  SceneManager.emit (CanvasEngine.listeners (S k)) EVENTS.SELECTION_CHANGED payload w
  = Engine.set_isDirty true (traced EVENTS.SELECTION_CHANGED payload w).
Proof. reflexivity. Qed.

(** Events without callback. *)
Lemma emit_tool (k : nat) (payload : Payload) (w : Engine.t) :
  SceneManager.emit (CanvasEngine.listeners k) EVENTS.TOOL_CHANGED payload w
  = traced EVENTS.TOOL_CHANGED payload w.
Proof. destruct k; reflexivity. Qed.

Lemma emit_updated (k : nat) (old new : Entity.t) (w : Engine.t) :
  SceneManager.emit (CanvasEngine.listeners (S k)) EVENTS.ENTITY_UPDATED (OfUpdate old new) w
  = Engine.set_isDirty true
      (if isLineOrArrow (Entity.type new)
       then traced EVENTS.ENTITY_UPDATED (OfUpdate old new) w
       else fold_left
              (fun w line =>
                 ConnectionModule.updateLineConnections (CanvasEngine.listeners k) line w)
              (filter (ConnectionModule.isConnectedTo (Entity.id new)) (Engine.entities w))
              (traced EVENTS.ENTITY_UPDATED (OfUpdate old new) w)).
Proof.
  unfold SceneManager.emit, EventBus.emit. rewrite get_updated.
  cbn [EventBus.forEach EventBus.call].
  unfold EventBus.tryCatch at 1. unfold ConnectionModule.onEntityUpdated.
  destruct (isLineOrArrow (Entity.type new)); reflexivity.
Qed.

Lemma emit_deleted (k : nat) (entity : Entity.t) (w : Engine.t) :
  SceneManager.emit (CanvasEngine.listeners (S (S k))) EVENTS.ENTITY_DELETED (OfEntity entity) w
  = Engine.set_isDirty true
      (if setHas (Entity.id entity) (Engine.selectedIds w)
       then
         let ids' := setDelete (Entity.id entity) (Engine.selectedIds w) in
         Engine.set_isDirty true
           (traced EVENTS.SELECTION_CHANGED (OfIds ids')
              (Engine.set_selectedIds ids' (traced EVENTS.ENTITY_DELETED (OfEntity entity) w)))
       else traced EVENTS.ENTITY_DELETED (OfEntity entity) w).
Proof.
  unfold SceneManager.emit at 1. unfold EventBus.emit. rewrite get_deleted.
  cbn [EventBus.forEach EventBus.call].
  unfold EventBus.tryCatch at 1. unfold SelectionModule.onEntityDeleted.
  change (Engine.selectedIds (Engine.set_emitted _ w)) with (Engine.selectedIds w).
  destruct (setHas (Entity.id entity) (Engine.selectedIds w)); [|reflexivity].
  unfold SelectionModule.broadcastSelection. rewrite emit_selection. reflexivity.
Qed.
(* ================================================================== *)
(** * updateObject on the engine's bus *)
(* ================================================================== *)

Lemma sceneOnly_refl (w : Engine.t) : sceneOnly w w.
Proof. unfold sceneOnly. now destruct w. Qed.

Lemma sceneOnly_trans (a b c : Engine.t) : sceneOnly a b -> sceneOnly b c -> sceneOnly a c.
Proof.
  unfold sceneOnly. intros Hab Hbc. rewrite Hbc at 1. rewrite Hab at 1. reflexivity.
Qed.

Lemma plainUpdate_sceneOnly (id : string) (u : Updates.t) (w : Engine.t) :
  sceneOnly w (plainUpdate id u w).
Proof.
  unfold plainUpdate. destruct (SceneManager.getObject id w); [|apply sceneOnly_refl].
  unfold sceneOnly. reflexivity.
Qed.

Lemma fold_sceneOnly {A : Type} (f : Engine.t -> A -> Engine.t) (l : list A) :
  (forall w a, sceneOnly w (f w a)) -> forall w, sceneOnly w (fold_left f l w).
Proof.
  intros Hf. induction l as [|a l IH]; intros w; simpl; [apply sceneOnly_refl|].
  eapply sceneOnly_trans; [apply Hf|apply IH].
Qed.

Lemma rerouteAll_sceneOnly (id : string) (w : Engine.t) : sceneOnly w (rerouteAll id w).
Proof.
  unfold rerouteAll. apply fold_sceneOnly. intros w' line. apply plainUpdate_sceneOnly.
Qed.

Lemma getObject_merge_id (id : string) (w : Engine.t) (e : Entity.t) :
  SceneManager.getObject id w = Some e -> Entity.id e = id.
Proof. intros H. now apply find_id_some in H. Qed.

Lemma getObject_plainUpdate_same (id : string) (u : Updates.t) (w : Engine.t) (e : Entity.t) :
  SceneManager.getObject id w = Some e ->
  SceneManager.getObject id (plainUpdate id u w) = Some (SceneManager.merge e u).
Proof.
  intros H. unfold plainUpdate. rewrite H.
  pose proof (getObject_merge_id _ _ _ H) as Hid.
  unfold SceneManager.getObject. cbn [Engine.entities Engine.set_isDirty traced Engine.set_emitted
                                      Engine.set_entities].
  subst id. apply (find_mapSet_same (SceneManager.merge e u)).
Qed.

Lemma getObject_plainUpdate_other (id i : string) (u : Updates.t) (w : Engine.t) :
  i <> id ->
  SceneManager.getObject i (plainUpdate id u w) = SceneManager.getObject i w.
Proof.
  intros Hne. unfold plainUpdate. destruct (SceneManager.getObject id w) as [e|] eqn:H;
    [|reflexivity].
  pose proof (getObject_merge_id _ _ _ H) as Hid.
  unfold SceneManager.getObject. cbn [Engine.entities Engine.set_isDirty traced Engine.set_emitted
                                      Engine.set_entities].
  apply find_mapSet_other. cbn [SceneManager.merge Entity.id]. congruence.
Qed.

Lemma plainUpdate_skeleton (id : string) (u : Updates.t) (w : Engine.t) :
  skeleton (Engine.entities (plainUpdate id u w)) = skeleton (Engine.entities w).
Proof.
  unfold plainUpdate. destruct (SceneManager.getObject id w) as [e|] eqn:H; [|reflexivity].
  cbn [Engine.entities Engine.set_isDirty traced Engine.set_emitted Engine.set_entities].
  apply skeleton_mapSet with (e := e); [|reflexivity].
  pose proof (getObject_merge_id _ _ _ H) as Hid.
  cbn [SceneManager.merge Entity.id]. now rewrite Hid.
Qed.

Lemma plainUpdate_objectTypes (id : string) (u : Updates.t) (w : Engine.t) :
  Engine.objectTypes (plainUpdate id u w) = Engine.objectTypes w.
Proof. pose proof (plainUpdate_sceneOnly id u w) as H. rewrite H. reflexivity. Qed.

Lemma lineAt_skeleton (w w' : Engine.t) (i : string) :
  skeleton (Engine.entities w) = skeleton (Engine.entities w') -> lineAt w i -> lineAt w' i.
Proof.
  intros Hs [cur [Hget Hline]].
  destruct (find_skeleton _ _ _ _ Hs Hget) as [e' [Hget' Ht]].
  exists e'. split; [exact Hget'|now rewrite Ht].
Qed.

Lemma updateObject_unknown (ls : EventBus.t Engine.t Payload) (id : string) (u : Updates.t)
      (w : Engine.t) :
  SceneManager.getObject id w = None -> SceneManager.updateObject ls id u w = w.
Proof. intros H. unfold SceneManager.updateObject. now rewrite H. Qed.

(** The update of a connector: the connection module does nothing. *)
Lemma updateObject_line (k : nat) (id : string) (u : Updates.t) (w : Engine.t) :
  lineAt w id ->
  SceneManager.updateObject (CanvasEngine.listeners (S k)) id u w = plainUpdate id u w.
Proof.
  intros [e [H Hline]]. unfold SceneManager.updateObject, plainUpdate. rewrite H.
  rewrite emit_updated. cbn [SceneManager.merge Entity.type]. now rewrite Hline.
Qed.

Lemma fold_updateLine (k : nat) (lines : list Entity.t) :
  forall w,
    Forall (lineAt w) (ids lines) ->
    fold_left (fun w line =>
                 ConnectionModule.updateLineConnections (CanvasEngine.listeners (S k)) line w)
              lines w
    = fold_left reroute lines w.
Proof.
  induction lines as [|line rest IH]; intros w Hall; cbn [fold_left]; [reflexivity|].
  inversion Hall as [|? ? Hline Hrest]; subst.
  unfold ConnectionModule.updateLineConnections at 2.
  rewrite updateObject_line by assumption.
  fold (reroute w line). apply IH.
  eapply Forall_impl; [|exact Hrest].
  intros i Hi. eapply lineAt_skeleton; [|exact Hi].
  symmetry. apply plainUpdate_skeleton.
Qed.

Lemma reroute_dirty (w : Engine.t) (line : Entity.t) :
  Engine.set_isDirty true (reroute w line) = reroute (Engine.set_isDirty true w) line.
Proof.
  unfold reroute, plainUpdate, SceneManager.getObject, ConnectionModule.routed,
    ConnectionModule.resolveEnd, SceneManager.getObject, SceneManager.getObjectType.
  cbn [Engine.entities Engine.objectTypes Engine.set_isDirty].
  destruct (find _ (Engine.entities w)); reflexivity.
Qed.

Lemma fold_reroute_dirty (lines : list Entity.t) :
  forall w,
    Engine.set_isDirty true (fold_left reroute lines w)
    = fold_left reroute lines (Engine.set_isDirty true w).
Proof.
  induction lines as [|line rest IH]; intros w; simpl; [reflexivity|].
  now rewrite IH, reroute_dirty.
Qed.

(** What [updateObject] does on the engine's bus, whatever the nesting depth
    allowed (at least two): the plain update, followed for an entity that is
    no connector by the re-routing of the connectors attached to it. *)
Lemma updateObject_on_bus (k : nat) (id : string) (u : Updates.t) (w : Engine.t) :
  storeOk w ->
  SceneManager.updateObject (CanvasEngine.listeners (S (S k))) id u w
  = match SceneManager.getObject id w with
    | None => w
    | Some e =>
        if isLineOrArrow (Entity.type e)
        then plainUpdate id u w
        else rerouteAll id (plainUpdate id u w)
    end.
Proof.
  intros Hok. destruct (SceneManager.getObject id w) as [e|] eqn:H;
    [|now apply updateObject_unknown].
  destruct (isLineOrArrow (Entity.type e)) eqn:Hline.
  - apply updateObject_line. now exists e.
  - pose proof (getObject_merge_id _ _ _ H) as Hid.
    unfold SceneManager.updateObject. rewrite H, emit_updated.
    cbn [SceneManager.merge Entity.type Entity.id]. rewrite Hline, Hid.
    unfold rerouteAll, plainUpdate. rewrite H.
    cbn [Engine.entities Engine.set_isDirty traced Engine.set_emitted Engine.set_entities].
    rewrite fold_updateLine.
    + apply fold_reroute_dirty.
    + apply Forall_forall. intros i Hi. unfold ids in Hi.
      apply in_map_iff in Hi. destruct Hi as [line [<- Hin]].
      apply filter_In in Hin. destruct Hin as [Hin Hconn].
      exists line. split.
      * unfold SceneManager.getObject.
        cbn [Engine.entities Engine.set_isDirty traced Engine.set_emitted Engine.set_entities].
        apply find_id_NoDup; [|exact Hin]. apply NoDup_ids_mapSet. exact Hok.
      * unfold ConnectionModule.isConnectedTo in Hconn.
        apply andb_prop in Hconn. tauto.
Qed.

(** Nesting deeper than two never happens: more depth changes nothing. *)
Lemma listeners_depth (k : nat) (id : string) (u : Updates.t) (w : Engine.t) :
  storeOk w ->
  SceneManager.updateObject (CanvasEngine.listeners (S (S k))) id u w
  = CanvasEngine.updateObject id u w.
Proof.
  intros Hok. unfold CanvasEngine.updateObject, CanvasEngine.bus.
  now rewrite !updateObject_on_bus.
Qed.
(* ================================================================== *)
(** * Update and delete by id *)
(* ================================================================== *)

Lemma setDelete_absent (id : string) (l : list string) :
  setHas id l = false -> setDelete id l = l.
Proof.
  unfold setHas, setDelete. induction l as [|a l IH]; simpl; [reflexivity|].
  intros H. apply orb_false_iff in H. destruct H as [Ha Hl].
  rewrite String.eqb_sym in Ha. rewrite Ha. simpl. f_equal. now apply IH.
Qed.

Lemma deleteObject_on_bus (k : nat) (id : string) (w : Engine.t) :
  SceneManager.deleteObject (CanvasEngine.listeners (S (S k))) id w
  = match SceneManager.getObject id w with
    | None => w
    | Some entity =>
        let w1 := traced EVENTS.ENTITY_DELETED (OfEntity entity)
                    (Engine.set_entities (mapDelete id (Engine.entities w)) w) in
        Engine.set_isDirty true
          (if setHas id (Engine.selectedIds w)
           then traced EVENTS.SELECTION_CHANGED (OfIds (setDelete id (Engine.selectedIds w)))
                  (Engine.set_selectedIds (setDelete id (Engine.selectedIds w)) w1)
           else w1)
    end.
Proof.
  unfold SceneManager.deleteObject.
  destruct (SceneManager.getObject id w) as [entity|] eqn:H; [|reflexivity].
  rewrite emit_deleted. rewrite (getObject_merge_id _ _ _ H).
  cbn [Engine.selectedIds Engine.set_entities].
  destruct (setHas id (Engine.selectedIds w)); reflexivity.
Qed.

Lemma getObject_mapDelete (id : string) (es : list Entity.t) :
  find (fun x => String.eqb (Entity.id x) id) (mapDelete id es) = None.
Proof.
  apply find_id_none. unfold ids, mapDelete. intros Hin.
  apply in_map_iff in Hin. destruct Hin as [x [Hx Hin]].
  apply filter_In in Hin. destruct Hin as [_ Hne].
  rewrite <- Hx, String.eqb_refl in Hne. discriminate.
Qed.

Lemma NoDup_ids_filter (f : Entity.t -> bool) (es : list Entity.t) :
  NoDup (ids es) -> NoDup (ids (filter f es)).
Proof.
  induction es as [|e rest IH]; simpl; intros Hnd; [constructor|].
  inversion Hnd as [|? ? Hnotin Hnd']; subst.
  destruct (f e); simpl; [|now apply IH].
  constructor; [|now apply IH].
  intros Hin. apply Hnotin. unfold ids in *. apply in_map_iff in Hin.
  destruct Hin as [x [Hx Hin]]. apply filter_In in Hin. rewrite <- Hx. apply in_map. tauto.
Qed.

Lemma In_mapSet_other (new x : Entity.t) (es : list Entity.t) :
  In x es -> Entity.id x <> Entity.id new -> In x (mapSet new es).
Proof.
  induction es as [|e rest IH]; simpl; intros Hin Hne; [contradiction|].
  destruct (String.eqb_spec (Entity.id e) (Entity.id new)) as [Heq|Hneq]; simpl.
  - destruct Hin as [->|Hin]; [congruence|now right].
  - destruct Hin as [->|Hin]; [now left|right; now apply IH].
Qed.

Lemma fold_reroute_other (i : string) (lines : list Entity.t) :
  forall w,
    ~ In i (ids lines) ->
    SceneManager.getObject i (fold_left reroute lines w) = SceneManager.getObject i w.
Proof.
  induction lines as [|line rest IH]; intros w Hnin; simpl; [reflexivity|].
  simpl in Hnin. rewrite IH by tauto.
  unfold reroute. apply getObject_plainUpdate_other. intros ->. tauto.
Qed.

Lemma In_ids_filter (f : Entity.t -> bool) (es : list Entity.t) (i : string) :
  NoDup (ids es) ->
  In i (ids (filter f es)) ->
  exists e, find (fun x => String.eqb (Entity.id x) i) es = Some e /\ f e = true.
Proof.
  intros Hnd Hin. unfold ids in Hin. apply in_map_iff in Hin.
  destruct Hin as [e [<- Hin]]. apply filter_In in Hin. destruct Hin as [Hin Hf].
  exists e. split; [now apply find_id_NoDup|exact Hf].
Qed.

(** Re-routing leaves alone every key that holds no connector attached to
    [id]. *)
Lemma getObject_rerouteAll_other (id i : string) (w : Engine.t) :
  storeOk w ->
  (forall e, SceneManager.getObject i w = Some e -> ConnectionModule.isConnectedTo id e = false) ->
  SceneManager.getObject i (rerouteAll id w) = SceneManager.getObject i w.
Proof.
  intros Hok Hfree. unfold rerouteAll. apply fold_reroute_other.
  intros Hin. destruct (In_ids_filter _ _ _ Hok Hin) as [e [Hget Hconn]].
  rewrite (Hfree e Hget) in Hconn. discriminate.
Qed.

(** Re-routing, seen from one attached connector: the connector is merged
    with the geometry computed in an intermediate state [w1], in which the
    keys that hold no attached connector are as in [w]. *)
Lemma getObject_rerouteAll_line (id : string) (w : Engine.t) (line : Entity.t) :
  storeOk w ->
  In line (Engine.entities w) ->
  ConnectionModule.isConnectedTo id line = true ->
  exists w1,
    sceneOnly w w1
    /\ (forall j, (forall e, SceneManager.getObject j w = Some e ->
                             ConnectionModule.isConnectedTo id e = false) ->
                  SceneManager.getObject j w1 = SceneManager.getObject j w)
    /\ SceneManager.getObject (Entity.id line) (rerouteAll id w)
       = Some (SceneManager.merge line (ConnectionModule.routed line w1)).
Proof.
  intros Hok Hin Hconn. unfold rerouteAll.
  set (lines := filter (ConnectionModule.isConnectedTo id) (Engine.entities w)).
  assert (Hl : In line lines) by (apply filter_In; now split).
  assert (Hnd : NoDup (ids lines)) by (now apply NoDup_ids_filter).
  destruct (in_split _ _ Hl) as [l1 [l2 Hsplit]].
  rewrite Hsplit in Hnd. unfold ids in Hnd. rewrite map_app in Hnd. simpl in Hnd.
  pose proof (NoDup_remove_2 _ _ _ Hnd) as Hnot.
  assert (Hn1 : ~ In (Entity.id line) (ids l1)).
  { intros H. apply Hnot. apply in_or_app. now left. }
  assert (Hn2 : ~ In (Entity.id line) (ids l2)).
  { intros H. apply Hnot. apply in_or_app. now right. }
  exists (fold_left reroute l1 w). split; [|split].
  - apply fold_sceneOnly. intros w' l. apply plainUpdate_sceneOnly.
  - intros j Hfree. apply fold_reroute_other. intros Hj.
    assert (Hj' : In j (ids lines)).
    { rewrite Hsplit. unfold ids. rewrite map_app. apply in_or_app. now left. }
    destruct (In_ids_filter _ _ _ Hok Hj') as [e [Hget Hc]].
    rewrite (Hfree e Hget) in Hc. discriminate.
  - rewrite Hsplit, fold_left_app. simpl.
    rewrite fold_reroute_other by exact Hn2.
    unfold reroute. apply getObject_plainUpdate_same.
    rewrite fold_reroute_other by exact Hn1.
    now apply find_id_NoDup.
Qed.

Lemma storeOk_plainUpdate (id : string) (u : Updates.t) (w : Engine.t) :
  storeOk w -> storeOk (plainUpdate id u w).
Proof.
  unfold storeOk. intros H.
  now rewrite (skeleton_ids _ _ (plainUpdate_skeleton id u w)).
Qed.

Lemma rerouteAll_skeleton (id : string) (w : Engine.t) :
  skeleton (Engine.entities (rerouteAll id w)) = skeleton (Engine.entities w).
Proof.
  unfold rerouteAll. generalize (filter (ConnectionModule.isConnectedTo id) (Engine.entities w)).
  intros lines. revert w. induction lines as [|line rest IH]; intros w; simpl; [reflexivity|].
  rewrite IH. apply plainUpdate_skeleton.
Qed.

(** The trace grows: what an operation emitted. *)
Lemma plainUpdate_emitted (id : string) (u : Updates.t) (w : Engine.t) (e : Entity.t) :
  SceneManager.getObject id w = Some e ->
  Engine.emitted (plainUpdate id u w)
  = Engine.emitted w ++ [(EVENTS.ENTITY_UPDATED, OfUpdate e (SceneManager.merge e u))].
Proof. intros H. unfold plainUpdate. now rewrite H. Qed.

Lemma fold_reroute_emitted (lines : list Entity.t) :
  forall w, exists rest,
    Engine.emitted (fold_left reroute lines w) = Engine.emitted w ++ rest
    /\ Forall (fun ev => fst ev = EVENTS.ENTITY_UPDATED) rest.
Proof.
  induction lines as [|line rest IH]; intros w; simpl.
  - exists []. split; [now rewrite app_nil_r|constructor].
  - destruct (IH (reroute w line)) as [r [Hr Hall]].
    unfold reroute, plainUpdate in *.
    destruct (SceneManager.getObject (Entity.id line) w) as [cur|].
    + eexists. split.
      * rewrite Hr. cbn [Engine.emitted Engine.set_isDirty traced Engine.set_emitted].
        rewrite <- app_assoc. reflexivity.
      * constructor; [reflexivity|exact Hall].
    + exists r. now split.
Qed.

(** What the engine's [updateObject] leaves under the key it was given, and
    on the trace. *)
Lemma updateObject_stores (id : string) (updates : Updates.t) (w : Engine.t) (entity : Entity.t) :
  storeOk w ->
  SceneManager.getObject id w = Some entity ->
  SceneManager.getObject id (CanvasEngine.updateObject id updates w)
  = Some (SceneManager.merge entity updates)
  /\ ids (Engine.entities (CanvasEngine.updateObject id updates w)) = ids (Engine.entities w)
  /\ exists later,
      Engine.emitted (CanvasEngine.updateObject id updates w)
      = Engine.emitted w
        ++ (EVENTS.ENTITY_UPDATED, OfUpdate entity (SceneManager.merge entity updates))
           :: later.
Proof.
  intros Hok Hget.
  unfold CanvasEngine.updateObject, CanvasEngine.bus.
  rewrite updateObject_on_bus by exact Hok. rewrite Hget.
  destruct (isLineOrArrow (Entity.type entity)) eqn:Hline.
  - split; [now apply getObject_plainUpdate_same|split].
    + apply skeleton_ids, plainUpdate_skeleton.
    + exists []. now apply plainUpdate_emitted.
  - split; [|split].
    + rewrite getObject_rerouteAll_other.
      * now apply getObject_plainUpdate_same.
      * now apply storeOk_plainUpdate.
      * intros e He. rewrite (getObject_plainUpdate_same _ _ _ _ Hget) in He.
        injection He as <-. unfold ConnectionModule.isConnectedTo.
        cbn [SceneManager.merge Entity.type]. now rewrite Hline.
    + apply skeleton_ids. rewrite rerouteAll_skeleton. apply plainUpdate_skeleton.
    + unfold rerouteAll.
      destruct (fold_reroute_emitted
                  (filter (ConnectionModule.isConnectedTo id)
                          (Engine.entities (plainUpdate id updates w)))
                  (plainUpdate id updates w)) as [rest [Hrest _]].
      exists rest. rewrite Hrest, (plainUpdate_emitted _ _ _ _ Hget), <- app_assoc.
      reflexivity.
Qed.

Lemma storeOk_boxAndArrow : storeOk Sample.boxAndArrow.
Proof.
  unfold storeOk. simpl. repeat constructor; simpl; intuition discriminate.
Qed.

Lemma orElse_mergedField {A : Type} (old : A) (update : option A) :
  mergedField old update (orElse update old).
Proof. split; [intros v ->; reflexivity|intros ->; reflexivity]. Qed.

Lemma over_mergedKey {A : Type} (old update : option A) :
  mergedKey old update (over old update).
Proof. split; [intros v ->; reflexivity|intros ->; reflexivity]. Qed.

(** C9.  On the engine's scene manager, for a store that is a map:
    [updateObject] and [deleteObject] with an id the store does not hold
    return the state as it was (store unchanged, nothing emitted).  With an id
    the store holds, [updateObject] stores under that id the merged entity:
    id and type are kept; of a field group that the update provides
    ([transform], [props], [metadata]) every key the update has takes the
    update's value and every other key keeps the old one; a group that the
    update does not provide is kept whole; [visible] and [parentId] are taken
    from the update when it has them.  The keys of the store and their order
    are kept, and the first thing emitted is ENTITY_UPDATED with the old and
    the new entity.  [deleteObject] removes the key, and the first thing it
    emits is ENTITY_DELETED with the entity. *)
Theorem update_and_delete_by_id (id : string) (updates : Updates.t) (w : Engine.t) :
  storeOk w ->
  match SceneManager.getObject id w with
  | None =>
      CanvasEngine.updateObject id updates w = w
      /\ CanvasEngine.deleteObject id w = w
  | Some entity =>
      let w' := CanvasEngine.updateObject id updates w in
      let d := CanvasEngine.deleteObject id w in
      exists updatedEntity,
        let t0 := Entity.transform entity in
        let t1 := Entity.transform updatedEntity in
        let p0 := Entity.props entity in
        let p1 := Entity.props updatedEntity in
        SceneManager.getObject id w' = Some updatedEntity
        /\ Entity.id updatedEntity = Entity.id entity
        /\ Entity.type updatedEntity = Entity.type entity
        /\ (forall tr,
               Updates.transform updates = Some tr ->
               mergedField (Transform.x t0) (PartialTransform.x tr) (Transform.x t1)
               /\ mergedField (Transform.y t0) (PartialTransform.y tr) (Transform.y t1)
               /\ mergedField (Transform.scaleX t0) (PartialTransform.scaleX tr)
                              (Transform.scaleX t1)
               /\ mergedField (Transform.scaleY t0) (PartialTransform.scaleY tr)
                              (Transform.scaleY t1)
               /\ mergedField (Transform.rotation t0) (PartialTransform.rotation tr)
                              (Transform.rotation t1))
        /\ (Updates.transform updates = None -> t1 = t0)
        /\ (forall p,
               Updates.props updates = Some p ->
               mergedKey (Props.width p0) (Props.width p) (Props.width p1)
               /\ mergedKey (Props.height p0) (Props.height p) (Props.height p1)
               /\ mergedKey (Props.color p0) (Props.color p) (Props.color p1)
               /\ mergedKey (Props.text p0) (Props.text p) (Props.text p1)
               /\ mergedKey (Props.name p0) (Props.name p) (Props.name p1)
               /\ mergedKey (Props.src p0) (Props.src p) (Props.src p1)
               /\ mergedKey (Props.direction p0) (Props.direction p) (Props.direction p1)
               /\ mergedKey (Props.start p0) (Props.start p) (Props.start p1)
               /\ mergedKey (Props.end_ p0) (Props.end_ p) (Props.end_ p1)
               /\ mergedKey (Props.startConnectedId p0) (Props.startConnectedId p)
                            (Props.startConnectedId p1)
               /\ mergedKey (Props.endConnectedId p0) (Props.endConnectedId p)
                            (Props.endConnectedId p1)
               /\ mergedKey (Props.startAnchor p0) (Props.startAnchor p)
                            (Props.startAnchor p1)
               /\ mergedKey (Props.endAnchor p0) (Props.endAnchor p) (Props.endAnchor p1))
        /\ (Updates.props updates = None -> p1 = p0)
        /\ (forall m,
               Updates.metadata updates = Some m ->
               mergedKey (Metadata.selected (Entity.metadata entity)) (Metadata.selected m)
                         (Metadata.selected (Entity.metadata updatedEntity)))
        /\ (Updates.metadata updates = None ->
            Entity.metadata updatedEntity = Entity.metadata entity)
        /\ mergedField (Entity.visible entity) (Updates.visible updates)
                       (Entity.visible updatedEntity)
        /\ mergedField (Entity.parentId entity) (Updates.parentId updates)
                       (Entity.parentId updatedEntity)
        /\ ids (Engine.entities w') = ids (Engine.entities w)
        /\ (exists later,
               Engine.emitted w'
               = Engine.emitted w
                 ++ (EVENTS.ENTITY_UPDATED, OfUpdate entity updatedEntity) :: later)
        /\ SceneManager.getObject id d = None
        /\ Engine.entities d
           = filter (fun e => negb (String.eqb (Entity.id e) id)) (Engine.entities w)
        /\ (exists later,
               Engine.emitted d
               = Engine.emitted w ++ (EVENTS.ENTITY_DELETED, OfEntity entity) :: later)
  end.
Proof.
  intros Hok. destruct (SceneManager.getObject id w) as [entity|] eqn:Hget.
  - exists (SceneManager.merge entity updates). cbv zeta.
    destruct (updateObject_stores id updates w entity Hok Hget) as [H1 [H2 H3]].
    split; [exact H1|]. split; [reflexivity|]. split; [reflexivity|].
    unfold SceneManager.merge.
    cbn [Entity.transform Entity.props Entity.metadata Entity.visible Entity.parentId].
    split.
    { intros tr Htr. rewrite Htr. unfold PartialTransform.spread.
      cbn [Transform.x Transform.y Transform.scaleX Transform.scaleY Transform.rotation].
      repeat split; apply orElse_mergedField. }
    split; [intros Htr; now rewrite Htr|].
    split.
    { intros p Hp. rewrite Hp. unfold Props.spread.
      cbn [Props.width Props.height Props.color Props.text Props.name Props.src
           Props.direction Props.start Props.end_ Props.startConnectedId
           Props.endConnectedId Props.startAnchor Props.endAnchor].
      repeat split; apply over_mergedKey. }
    split; [intros Hp; now rewrite Hp|].
    split.
    { intros m Hm. rewrite Hm. unfold Metadata.spread. cbn [Metadata.selected].
      apply over_mergedKey. }
    split; [intros Hm; now rewrite Hm|].
    split; [apply orElse_mergedField|]. split; [apply orElse_mergedField|].
    split; [exact H2|]. split; [exact H3|].
    unfold CanvasEngine.deleteObject, CanvasEngine.bus.
    rewrite deleteObject_on_bus, Hget. cbv zeta.
    split; [|split].
    + unfold SceneManager.getObject.
      destruct (setHas id (Engine.selectedIds w));
        cbn [Engine.entities Engine.set_isDirty traced Engine.set_emitted Engine.set_entities
             Engine.set_selectedIds];
        apply getObject_mapDelete.
    + destruct (setHas id (Engine.selectedIds w)); reflexivity.
    + destruct (setHas id (Engine.selectedIds w)).
      * eexists. cbn [Engine.emitted Engine.set_isDirty traced Engine.set_emitted
                      Engine.set_entities Engine.set_selectedIds].
        rewrite <- app_assoc. reflexivity.
      * exists []. reflexivity.
  - split.
    + now apply updateObject_unknown.
    + unfold CanvasEngine.deleteObject, SceneManager.deleteObject. now rewrite Hget.
Qed.

(** The rectangle of [Sample.boxAndArrow] updated in all three groups: the
    keys the update has are taken from it, the others are kept. *)
Lemma update_and_delete_by_id_witness :
  (exists updatedEntity,
      SceneManager.getObject "box" (CanvasEngine.updateObject "box" Sample.restyle
                                                              Sample.boxAndArrow)
      = Some updatedEntity
      /\ xOf updatedEntity = Num 40
      /\ Transform.scaleX (Entity.transform updatedEntity) = Num 1
      /\ Props.width (Entity.props updatedEntity) = Some (Num 50)
      /\ Props.height (Entity.props updatedEntity) = Some (Num 100)
      /\ Props.color (Entity.props updatedEntity) = Some "red"
      /\ Metadata.selected (Entity.metadata updatedEntity) = Some true)
  /\ CanvasEngine.updateObject "nobody" Updates.empty Sample.boxAndArrow = Sample.boxAndArrow.
Proof.
  split.
  - pose proof (update_and_delete_by_id "box" Sample.restyle
                                        Sample.boxAndArrow storeOk_boxAndArrow) as H.
    cbn [SceneManager.getObject Sample.boxAndArrow Engine.entities Engine.set_entities find
         Sample.rectangle Entity.id String.eqb Ascii.eqb Bool.eqb] in H.
    cbv zeta in H.
    destruct H as [updatedEntity [H1 [_ [_ [Htr [_ [Hprops [_ [Hmeta _]]]]]]]]].
    destruct (Htr _ eq_refl) as [[Hx _] [_ [[_ Hsx] _]]].
    destruct (Hprops _ eq_refl) as [[Hw _] [[_ Hh] [[Hc _] _]]].
    destruct (Hmeta _ eq_refl) as [Hsel _].
    exists updatedEntity. split; [exact H1|].
    split; [exact (Hx _ eq_refl)|]. split; [exact (Hsx eq_refl)|].
    split; [exact (Hw _ eq_refl)|]. split; [exact (Hh eq_refl)|].
    split; [exact (Hc _ eq_refl)|exact (Hsel _ eq_refl)].
  - exact (proj1 (update_and_delete_by_id "nobody" Updates.empty
                    Sample.boxAndArrow storeOk_boxAndArrow)).
Defined.
(* ================================================================== *)
(** * Hit testing *)
(* ================================================================== *)

Lemma leb_Num (a b : Q) : (Num a <=? Num b)%num = true <-> a <= b.
Proof. apply Qle_bool_iff. Qed.

Lemma geb_Num (a b : Q) : (Num a >=? Num b)%num = true <-> b <= a.
Proof. apply Qle_bool_iff. Qed.

Lemma ltb_Num_false (a b : Q) : (Num a <? Num b)%num = false <-> b <= a.
Proof.
  unfold Number.ltb. rewrite negb_false_iff. apply Qle_bool_iff.
Qed.

(** The hit test of [ObjectTypes.ts] is the bounding box padded by 10. *)
Lemma ObjectTypes_hitTest_padded (e : Entity.t) (x y w h px py : Q) :
  xOf e = Num x -> yOf e = Num y -> widthOf e = Num w -> heightOf e = Num h ->
  ObjectTypes.RectangleType_hitTest e (Num px) (Num py) = true
  <-> (x - 10 <= px /\ px <= x + w + 10) /\ (y - 10 <= py /\ py <= y + h + 10).
Proof.
  intros Hx Hy Hw Hh. unfold ObjectTypes.RectangleType_hitTest.
  rewrite Hx, Hy, Hw, Hh. cbn [Number.add Number.sub].
  rewrite !andb_true_iff, !geb_Num, !leb_Num. tauto.
Qed.

(** The hit test of the inline copy is the bounding box itself. *)
Lemma Inline_hitTest_exact (e : Entity.t) (x y w h px py : Q) :
  xOf e = Num x -> yOf e = Num y -> widthOf e = Num w -> heightOf e = Num h ->
  Inline.RectangleType_hitTest e (Num px) (Num py) = true
  <-> (x <= px /\ px <= x + w) /\ (y <= py /\ py <= y + h).
Proof.
  intros Hx Hy Hw Hh. unfold Inline.RectangleType_hitTest.
  rewrite Hx, Hy, Hw, Hh. cbn [Number.add Number.sub].
  rewrite !andb_true_iff, !geb_Num, !leb_Num. tauto.
Qed.

(** C4.  A rectangle at the origin of size 100 by 100 and the point
    [(-5, 50)], five units left of its box: the hit test of [ObjectTypes.ts]
    accepts the point, the one of [InfiniteCanvasApp.tsx] rejects it; both
    accept the centre and reject a point 50 units away. *)
Theorem inline_hitTest_has_no_tolerance :
  let e := Sample.rectangle "box" 0 0 100 100 in
  ObjectTypes.RectangleType_hitTest e (Num (-5)) (Num 50) = true
  /\ Inline.RectangleType_hitTest e (Num (-5)) (Num 50) = false
  /\ ObjectTypes.RectangleType_hitTest e (Num 50) (Num 50) = true
  /\ Inline.RectangleType_hitTest e (Num 50) (Num 50) = true
  /\ ObjectTypes.RectangleType_hitTest e (Num (-50)) (Num 50) = false
  /\ Inline.RectangleType_hitTest e (Num (-50)) (Num 50) = false.
Proof. repeat split; vm_compute; reflexivity. Qed.

(* ================================================================== *)
(** * Wheel zoom *)
(* ================================================================== *)

Lemma clamp_bounds (z : Q) : 1 # 10 <= Qmin (Qmax z (1 # 10)) 5 /\ Qmin (Qmax z (1 # 10)) 5 <= 5.
Proof.
  split.
  - apply Q.min_glb; [apply Q.le_max_r|discriminate].
  - apply Q.le_min_r.
Qed.

(** C7.  A wheel event with the zoom modifier, on a camera whose zoom is not
    zero: the new zoom is the old one times [1 + (-deltaY * 0.01)], clamped
    to [0.1, 5], and the world point that was under the cursor is mapped back
    to the cursor by the new camera, in exact arithmetic. *)
Theorem wheel_zoom_keeps_cursor_point (clientX clientY deltaX deltaY : Q) (w : Engine.t) :
  ~ Camera.zoom (Engine.camera w) == 0 ->
  let e := WheelEvent.mk clientX clientY deltaX deltaY true in
  let c := Engine.camera w in
  let c' := Engine.camera (CanvasEngine.onWheel e w) in
  let p := Camera.screenToWorld c clientX clientY in
  Camera.zoom c' = Qmin (Qmax (Camera.zoom c * (1 + - deltaY * (1 # 100))) (1 # 10)) 5
  /\ (1 # 10 <= Camera.zoom c' /\ Camera.zoom c' <= 5)
  /\ QPoint.x (Camera.worldToScreen c' (QPoint.x p) (QPoint.y p)) == clientX
  /\ QPoint.y (Camera.worldToScreen c' (QPoint.x p) (QPoint.y p)) == clientY.
Proof.
  intros Hprior. cbv zeta. unfold CanvasEngine.onWheel.
  cbn [WheelEvent.ctrlKey WheelEvent.clientX WheelEvent.clientY WheelEvent.deltaY
       Engine.camera Engine.set_camera Engine.set_isDirty Camera.zoom Camera.x Camera.y
       Camera.screenToWorld Camera.worldToScreen QPoint.x QPoint.y].
  set (z := Qmin (Qmax (Camera.zoom (Engine.camera w) * (1 + - deltaY * (1 # 100))) (1 # 10)) 5).
  destruct (clamp_bounds (Camera.zoom (Engine.camera w) * (1 + - deltaY * (1 # 100))))
    as [Hlo Hhi].
  fold z in Hlo, Hhi.
  assert (Hz : ~ z == 0).
  { intros H. rewrite H in Hlo. apply Hlo. reflexivity. }
  generalize (clientX / Camera.zoom (Engine.camera w)) (clientY / Camera.zoom (Engine.camera w)).
  intros a b.
  repeat split; try assumption; field; exact Hz.
Qed.

(** The scenario of the spec: the cursor at [(100, 100)] and a wheel delta
    of [-10], a zoom increase of ten percent, on the camera [(30, 40, 2)]. *)
Lemma wheel_zoom_keeps_cursor_point_witness :
  let w := Engine.set_camera (Camera.mk 30 40 2) Sample.fresh in
  let c' := Engine.camera (CanvasEngine.onWheel (WheelEvent.mk 100 100 0 (-10) true) w) in
  Camera.zoom c' == 22 # 10
  /\ QPoint.x (Camera.worldToScreen c' (100 / 2 + 30) (100 / 2 + 40)) == 100
  /\ QPoint.y (Camera.worldToScreen c' (100 / 2 + 30) (100 / 2 + 40)) == 100.
Proof.
  cbv zeta.
  assert (Hz : ~ Camera.zoom (Engine.camera (Engine.set_camera (Camera.mk 30 40 2)
                                                               Sample.fresh)) == 0)
    by discriminate.
  destruct (wheel_zoom_keeps_cursor_point
              100 100 0 (-10) (Engine.set_camera (Camera.mk 30 40 2) Sample.fresh) Hz)
    as [Hzoom [_ [Hx Hy]]].
  split; [rewrite Hzoom; reflexivity|]. split; [exact Hx|exact Hy].
Defined.
(* ================================================================== *)
(** * Resizing *)
(* ================================================================== *)

Lemma ltb_of_geb (a b : number) : (a >=? b)%num = true -> (a <? b)%num = false.
Proof.
  destruct a as [p|], b as [q|]; try discriminate.
  unfold Number.geb, Number.leb, Number.ltb. now intros ->.
Qed.

Lemma ltb_refl_false (q : Q) : (Num q <? Num q)%num = false.
Proof. apply ltb_Num_false. apply Qle_refl. Qed.

(** Every handle leaves a width and a height that are not below 20. *)
Lemma resized_not_below_minimum (handle : HandleType) (original : Rect.t) (p : Point.t) :
  (Rect.w (CanvasEngine.resized handle original p) <? Num 20)%num = false
  /\ (Rect.h (CanvasEngine.resized handle original p) <? Num 20)%num = false.
Proof.
  destruct handle; cbn [CanvasEngine.resized Rect.w Rect.h]; split;
    match goal with
    | |- ((if (?a >=? ?b)%num then _ else _) <? _)%num = false =>
        destruct (a >=? b)%num eqn:E; [now apply ltb_of_geb|apply ltb_refl_false]
    | |- ((if (?a <? ?b)%num then _ else _) <? _)%num = false =>
        destruct (a <? b)%num eqn:E; [apply ltb_refl_false|exact E]
    end.
Qed.

(** With finite inputs the new size is finite and at least 20 by 20. *)
Lemma resized_at_least_minimum (handle : HandleType) (x y w h px py : Q) :
  exists qw qh,
    Rect.w (CanvasEngine.resized handle (Rect.mk (Num x) (Num y) (Num w) (Num h))
                                 (Point.mk (Num px) (Num py))) = Num qw
    /\ Rect.h (CanvasEngine.resized handle (Rect.mk (Num x) (Num y) (Num w) (Num h))
                                    (Point.mk (Num px) (Num py))) = Num qh
    /\ 20 <= qw /\ 20 <= qh.
Proof.
  pose proof (resized_not_below_minimum handle (Rect.mk (Num x) (Num y) (Num w) (Num h))
                                        (Point.mk (Num px) (Num py))) as [Hw Hh].
  destruct handle;
    cbn [CanvasEngine.resized Rect.w Rect.h Rect.x Rect.y Point.x Point.y
         Number.add Number.sub Number.geb Number.leb Number.ltb] in *;
    repeat match goal with
           | H : context [if ?c then _ else _] |- _ => destruct c
           end;
    eexists; eexists; (split; [reflexivity|split; [reflexivity|]]);
    split; apply ltb_Num_false; assumption.
Qed.

(** The bottom-right handle keeps the top-left corner. *)
Lemma resized_br_corner (original : Rect.t) (p : Point.t) :
  Rect.x (CanvasEngine.resized Hbr original p) = Rect.x original
  /\ Rect.y (CanvasEngine.resized Hbr original p) = Rect.y original.
Proof. split; reflexivity. Qed.

(** [onPointerMove] in the Resizing state is the resize block. *)
Lemma onPointerMove_resizing (e : PointerEvent.t) (w : Engine.t) (handle : HandleType)
      (did : string) (original : Rect.t) :
  Engine.isResizing w = true ->
  Engine.resizeHandle w = Some handle ->
  Engine.draggedEntityId w = Some did -> did <> "" ->
  Engine.resizeOriginal w = Some original ->
  Engine.creatingEntityId w = None ->
  CanvasEngine.onPointerMove e w
  = let p := Camera.screenToWorld (Engine.camera w)
                                  (PointerEvent.clientX e) (PointerEvent.clientY e) in
    let r := CanvasEngine.resized handle original (toPoint p) in
    Engine.set_lastMouse (QPoint.mk (PointerEvent.clientX e) (PointerEvent.clientY e))
      (CanvasEngine.updateObject did
         (Updates.ofTransformProps (PartialTransform.xy (Rect.x r) (Rect.y r))
                                   (Props.size (Rect.w r) (Rect.h r)))
         w).
Proof.
  intros Hres Hh Hd Hne Ho Hc. unfold CanvasEngine.onPointerMove.
  rewrite Hres. cbn [negb]. rewrite andb_false_r. cbv zeta.
  rewrite Hres, Hh, Hd, Ho, Hc.
  cbn [truthyString]. apply String.eqb_neq in Hne. rewrite Hne. reflexivity.
Qed.

Lemma storeOk_singleton (e : Entity.t) (base : Engine.t) :
  storeOk (Engine.set_entities [e] base).
Proof. unfold storeOk. simpl. repeat constructor. simpl. tauto. Qed.

(** C5.  In the Resizing state (a handle is active on the dragged entity,
    nothing is being created) and with a zoom that is not zero, after a
    pointer move to any position the
    entity's width and height are not below 20, whichever the handle; they
    are finite and at least 20 when the rectangle recorded at the start of the
    resize is finite; and with the bottom-right handle the entity's position
    is the one recorded at the start of the resize. *)
Theorem resize_keeps_minimum_size
        (e : PointerEvent.t) (w : Engine.t) (handle : HandleType) (did : string)
        (original : Rect.t) (entity : Entity.t) :
  storeOk w ->
  ~ Camera.zoom (Engine.camera w) == 0 ->
  Engine.isResizing w = true ->
  Engine.resizeHandle w = Some handle ->
  Engine.draggedEntityId w = Some did -> did <> "" ->
  Engine.resizeOriginal w = Some original ->
  Engine.creatingEntityId w = None ->
  SceneManager.getObject did w = Some entity ->
  exists entity',
    SceneManager.getObject did (CanvasEngine.onPointerMove e w) = Some entity'
    /\ (widthOf entity' <? Num 20)%num = false
    /\ (heightOf entity' <? Num 20)%num = false
    /\ (forall x y w0 h0,
           original = Rect.mk (Num x) (Num y) (Num w0) (Num h0) ->
           exists qw qh, widthOf entity' = Num qw /\ heightOf entity' = Num qh
                         /\ 20 <= qw /\ 20 <= qh)
    /\ (handle = Hbr -> xOf entity' = Rect.x original /\ yOf entity' = Rect.y original).
Proof.
  intros Hok Hzoom Hres Hh Hd Hne Ho Hc Hget.
  rewrite (onPointerMove_resizing e w handle did original) by assumption. cbv zeta.
  set (p := toPoint (Camera.screenToWorld (Engine.camera w)
                                          (PointerEvent.clientX e) (PointerEvent.clientY e))).
  set (r := CanvasEngine.resized handle original p).
  set (u := Updates.ofTransformProps (PartialTransform.xy (Rect.x r) (Rect.y r))
                                     (Props.size (Rect.w r) (Rect.h r))).
  destruct (updateObject_stores did u w entity Hok Hget) as [Hstored _].
  exists (SceneManager.merge entity u).
  split; [exact Hstored|].
  assert (Hwidth : widthOf (SceneManager.merge entity u) = Rect.w r) by reflexivity.
  assert (Hheight : heightOf (SceneManager.merge entity u) = Rect.h r) by reflexivity.
  assert (Hx : xOf (SceneManager.merge entity u) = Rect.x r) by reflexivity.
  assert (Hy : yOf (SceneManager.merge entity u) = Rect.y r) by reflexivity.
  rewrite Hwidth, Hheight, Hx, Hy.
  destruct (resized_not_below_minimum handle original p) as [Hw Hhh].
  repeat split; try assumption.
  - intros x y w0 h0 ->. unfold r, p, toPoint. apply resized_at_least_minimum.
  - subst handle. reflexivity.
  - subst handle. reflexivity.
Qed.

Lemma resize_keeps_minimum_size_witness :
  exists entity',
    SceneManager.getObject "box"
      (CanvasEngine.onPointerMove (PointerEvent.mk 3 4 0 false) Sample.resizing)
    = Some entity'
    /\ (widthOf entity' <? Num 20)%num = false
    /\ (heightOf entity' <? Num 20)%num = false
    /\ xOf entity' = Num 0 /\ yOf entity' = Num 0.
Proof.
  assert (Hok : storeOk Sample.resizing).
  { unfold storeOk. vm_compute. repeat constructor. simpl. tauto. }
  assert (Hne : "box" <> "") by discriminate.
  assert (Hzoom : ~ Camera.zoom (Engine.camera Sample.resizing) == 0)
    by (vm_compute; discriminate).
  destruct (resize_keeps_minimum_size
              (PointerEvent.mk 3 4 0 false) Sample.resizing Hbr "box"
              (Rect.mk (Num 0) (Num 0) (Num 100) (Num 100))
              (Sample.selected (Sample.rectangle "box" 0 0 100 100))
              Hok Hzoom eq_refl eq_refl eq_refl Hne eq_refl eq_refl eq_refl)
    as [entity' [Hget [Hw [Hh [_ Hcorner]]]]].
  exists entity'. destruct (Hcorner eq_refl) as [Hx Hy].
  repeat split; assumption.
Defined.
(* ================================================================== *)
(** * Live routing of connectors *)
(* ================================================================== *)

(** The two ends [updateLineConnections] resolves for [line] in [w]. *)
Lemma routed_fields (line : Entity.t) (w : Engine.t) :
  let p := Entity.props line in
  let s := ConnectionModule.resolveEnd (Props.startConnectedId p) (Props.startAnchor p)
             (orElse (Props.start p) (Point.mk (xOf line) (yOf line))) w in
  let e := ConnectionModule.resolveEnd (Props.endConnectedId p) (Props.endAnchor p)
             (orElse (Props.end_ p)
                     (Point.mk (xOf line + widthOf line)%num (yOf line + heightOf line)%num)) w in
  let line' := SceneManager.merge line (ConnectionModule.routed line w) in
  Props.start (Entity.props line') = Some s
  /\ Props.end_ (Entity.props line') = Some e
  /\ xOf line' = Number.min (Point.x s) (Point.x e)
  /\ yOf line' = Number.min (Point.y s) (Point.y e)
  /\ widthOf line' = Number.abs (Point.x e - Point.x s)
  /\ heightOf line' = Number.abs (Point.y e - Point.y s)
  /\ Props.startConnectedId (Entity.props line') = Props.startConnectedId p
  /\ Props.endConnectedId (Entity.props line') = Props.endConnectedId p.
Proof.
  cbv zeta. repeat split; try reflexivity.
  - cbn. now destruct (Props.startConnectedId (Entity.props line)).
  - cbn. now destruct (Props.endConnectedId (Entity.props line)).
Qed.

(** An end connected to a non-empty id whose entity exists with a registered
    type resolves to the anchor point on that entity's bounding box. *)
Lemma resolveEnd_connected (connectedId : option (nullable string))
      (anchor : option (nullable AnchorPosition)) (fallback : Point.t) (w : Engine.t)
      (id : string) (obj : Entity.t) (typeDef : ObjectTypeDefinition.t) :
  isString connectedId id = true -> id <> "" ->
  SceneManager.getObject id w = Some obj ->
  SceneManager.getObjectType (Entity.type obj) w = Some typeDef ->
  ConnectionModule.resolveEnd connectedId anchor fallback w
  = getAnchorPoint (ObjectTypeDefinition.getBBox typeDef obj) (anchorOrCenter anchor).
Proof.
  intros Hs Hne Hobj Hdef. unfold ConnectionModule.resolveEnd, isString in *.
  destruct (stringOf connectedId) as [s|]; [|discriminate].
  apply String.eqb_eq in Hs. subst s. cbn [truthyString].
  apply String.eqb_neq in Hne. rewrite Hne, Hobj, Hdef. reflexivity.
Qed.

Lemma getObjectType_sceneOnly (type : string) (w w' : Engine.t) :
  sceneOnly w w' -> SceneManager.getObjectType type w' = SceneManager.getObjectType type w.
Proof. intros H. rewrite H. reflexivity. Qed.

Lemma shape_not_connector (id : string) (e : Entity.t) :
  isLineOrArrow (Entity.type e) = false -> ConnectionModule.isConnectedTo id e = false.
Proof. intros H. unfold ConnectionModule.isConnectedTo. now rewrite H. Qed.

(** The update of an entity that is no connector, seen from one connector
    attached to it. *)
Lemma updateObject_reroutes (id : string) (updates : Updates.t) (w : Engine.t)
      (entity line : Entity.t) :
  storeOk w ->
  SceneManager.getObject id w = Some entity ->
  isLineOrArrow (Entity.type entity) = false ->
  In line (Engine.entities w) ->
  ConnectionModule.isConnectedTo id line = true ->
  let w' := CanvasEngine.updateObject id updates w in
  exists w1,
    SceneManager.getObject id w' = Some (SceneManager.merge entity updates)
    /\ SceneManager.getObject id w1 = Some (SceneManager.merge entity updates)
    /\ Engine.objectTypes w1 = Engine.objectTypes w
    /\ SceneManager.getObject (Entity.id line) w'
       = Some (SceneManager.merge line (ConnectionModule.routed line w1)).
Proof.
  intros Hok Hget Hshape Hin Hconn. cbv zeta.
  unfold CanvasEngine.updateObject, CanvasEngine.bus.
  rewrite updateObject_on_bus by exact Hok. rewrite Hget, Hshape.
  set (wp := plainUpdate id updates w).
  assert (Hokp : storeOk wp) by (now apply storeOk_plainUpdate).
  assert (Hx : SceneManager.getObject id wp = Some (SceneManager.merge entity updates))
    by (now apply getObject_plainUpdate_same).
  assert (Hfree : forall e, SceneManager.getObject id wp = Some e ->
                            ConnectionModule.isConnectedTo id e = false).
  { intros e He. rewrite Hx in He. injection He as <-. now apply shape_not_connector. }
  assert (Hlinetype : isLineOrArrow (Entity.type line) = true).
  { unfold ConnectionModule.isConnectedTo in Hconn. apply andb_prop in Hconn. tauto. }
  assert (Hne : Entity.id line <> id).
  { intros Heq. pose proof (find_id_NoDup _ _ Hok Hin) as Hf.
    rewrite Heq in Hf. unfold SceneManager.getObject in Hget. rewrite Hf in Hget.
    injection Hget as <-. congruence. }
  assert (Hinp : In line (Engine.entities wp)).
  { unfold wp, plainUpdate. rewrite Hget.
    cbn [Engine.entities Engine.set_isDirty traced Engine.set_emitted Engine.set_entities].
    apply In_mapSet_other; [exact Hin|].
    cbn [SceneManager.merge Entity.id]. rewrite (getObject_merge_id _ _ _ Hget). exact Hne. }
  destruct (getObject_rerouteAll_line id wp line Hokp Hinp Hconn) as [w1 [Hso [Hframe Hline]]].
  exists w1. split; [|split; [|split]].
  - rewrite getObject_rerouteAll_other; assumption.
  - rewrite (Hframe id Hfree). exact Hx.
  - rewrite Hso. cbn [Engine.objectTypes Engine.set_isDirty Engine.set_emitted
                      Engine.set_entities]. apply plainUpdate_objectTypes.
  - exact Hline.
Qed.

(** C1 (amended).  When an entity that is no LINE/ARROW, has a non-empty id
    and a registered type is updated through the engine's [updateObject],
    then on return every LINE or ARROW whose [startConnectedId] or
    [endConnectedId] is that id holds both raw endpoints; the endpoint
    connected to the id is the anchor point ([startAnchor]/[endAnchor],
    centre by default) on the bounding box of the entity as it is stored now;
    the connector's transform is the minimum of the endpoints coordinate by
    coordinate, and its width and height are the absolute differences. *)
Theorem connectors_follow_updated_entity
        (id : string) (updates : Updates.t) (w : Engine.t)
        (entity line : Entity.t) (typeDef : ObjectTypeDefinition.t) :
  storeOk w ->
  id <> "" ->
  SceneManager.getObject id w = Some entity ->
  isLineOrArrow (Entity.type entity) = false ->
  SceneManager.getObjectType (Entity.type entity) w = Some typeDef ->
  In line (SceneManager.getAllObjects w) ->
  isLineOrArrow (Entity.type line) = true ->
  isString (Props.startConnectedId (Entity.props line)) id = true
  \/ isString (Props.endConnectedId (Entity.props line)) id = true ->
  let w' := CanvasEngine.updateObject id updates w in
  exists entity' line' s e,
    SceneManager.getObject id w' = Some entity'
    /\ SceneManager.getObject (Entity.id line) w' = Some line'
    /\ Props.start (Entity.props line') = Some s
    /\ Props.end_ (Entity.props line') = Some e
    /\ (isString (Props.startConnectedId (Entity.props line)) id = true ->
        s = getAnchorPoint (ObjectTypeDefinition.getBBox typeDef entity')
                           (anchorOrCenter (Props.startAnchor (Entity.props line))))
    /\ (isString (Props.endConnectedId (Entity.props line)) id = true ->
        e = getAnchorPoint (ObjectTypeDefinition.getBBox typeDef entity')
                           (anchorOrCenter (Props.endAnchor (Entity.props line))))
    /\ xOf line' = Number.min (Point.x s) (Point.x e)
    /\ yOf line' = Number.min (Point.y s) (Point.y e)
    /\ widthOf line' = Number.abs (Point.x e - Point.x s)
    /\ heightOf line' = Number.abs (Point.y e - Point.y s).
Proof.
  intros Hok Hne Hget Hshape Hdef Hin Hline Hconn. cbv zeta.
  assert (Hc : ConnectionModule.isConnectedTo id line = true).
  { unfold ConnectionModule.isConnectedTo. rewrite Hline. cbn [andb].
    apply orb_true_iff. exact Hconn. }
  destruct (updateObject_reroutes id updates w entity line Hok Hget Hshape Hin Hc)
    as [w1 [Hx' [Hx1 [Htypes Hl']]]].
  assert (Hdef1 : SceneManager.getObjectType
                    (Entity.type (SceneManager.merge entity updates)) w1 = Some typeDef).
  { unfold SceneManager.getObjectType. rewrite Htypes. exact Hdef. }
  destruct (routed_fields line w1) as [Hs [He [Hmx [Hmy [Hw [Hh _]]]]]].
  eexists. eexists. eexists. eexists.
  split; [exact Hx'|]. split; [exact Hl'|].
  split; [exact Hs|]. split; [exact He|].
  split; [|split; [|repeat split; assumption]].
  - intros Hstart. now apply resolveEnd_connected with (id := id).
  - intros Hend. now apply resolveEnd_connected with (id := id).
Qed.

Lemma connectors_follow_updated_entity_witness :
  exists line' s,
    SceneManager.getObject "arrow"
      (CanvasEngine.updateObject "box" (Sample.moveTo 40 0) Sample.boxAndArrow) = Some line'
    /\ Props.start (Entity.props line') = Some s
    /\ Point.x s = Num 140
    /\ xOf line' = Number.min (Point.x s) (Num 200).
Proof.
  assert (Hne : "box" <> "") by discriminate.
  destruct (connectors_follow_updated_entity
              "box" (Sample.moveTo 40 0) Sample.boxAndArrow
              (Sample.rectangle "box" 0 0 100 100)
              (Sample.arrowFrom "arrow" "box" Ar 100 50 200 50)
              Inline.RectangleType
              storeOk_boxAndArrow Hne eq_refl eq_refl eq_refl
              (or_intror (or_introl eq_refl)) eq_refl (or_introl eq_refl))
    as [entity' [line' [s [e [Hbox [Hline [Hs [He [Hstart [_ [Hx _]]]]]]]]]]].
  exists line', s. split; [exact Hline|]. split; [exact Hs|].
  assert (Hentity : entity' = SceneManager.merge (Sample.rectangle "box" 0 0 100 100)
                                                 (Sample.moveTo 40 0)).
  { vm_compute in Hbox. injection Hbox as <-. vm_compute. reflexivity. }
  assert (Hend : e = Point.mk (Num 200) (Num 50)).
  { vm_compute in Hline. injection Hline as <-. vm_compute in He. now injection He as <-. }
  split.
  - rewrite (Hstart eq_refl), Hentity. reflexivity.
  - rewrite Hx, Hend. reflexivity.
Defined.

(** C1, as stated, fails when the updated entity's id is the empty string:
    the filter of [onEntityUpdated] finds the arrow ([startConnectedId ===
    entity.id]), but [updateLineConnections] reads the empty id as "not
    connected" and keeps the stored start point [(100, 50)], while the right
    anchor of the moved rectangle is at [x = 150]. *)
Lemma connectors_ignore_empty_id :
  let w := Sample.emptyIdScene in
  let w' := CanvasEngine.updateObject "" (Sample.moveTo 50 0) w in
  storeOk w
  /\ (exists entity,
         SceneManager.getObject "" w = Some entity
         /\ isLineOrArrow (Entity.type entity) = false
         /\ SceneManager.getObjectType (Entity.type entity) w = Some Inline.RectangleType)
  /\ exists entity' line' s,
      SceneManager.getObject "" w' = Some entity'
      /\ SceneManager.getObject "arrow" w' = Some line'
      /\ isLineOrArrow (Entity.type line') = true
      /\ isString (Props.startConnectedId (Entity.props line')) "" = true
      /\ Props.startAnchor (Entity.props line') = Some (Val Ar)
      /\ Props.start (Entity.props line') = Some s
      /\ Point.x s = Num 100
      /\ Point.x (getAnchorPoint (Inline.RectangleType_getBBox entity') Ar) = Num 150.
Proof.
  cbv zeta. split; [|split].
  - unfold storeOk. simpl. repeat constructor; simpl; intuition discriminate.
  - eexists. repeat split; vm_compute; reflexivity.
  - let v := eval vm_compute in
         (SceneManager.getObject
            "" (CanvasEngine.updateObject "" (Sample.moveTo 50 0) Sample.emptyIdScene)) in
    match v with Some ?e => exists e end.
    let v := eval vm_compute in
         (SceneManager.getObject
            "arrow" (CanvasEngine.updateObject "" (Sample.moveTo 50 0) Sample.emptyIdScene)) in
    match v with Some ?e => exists e end.
    exists (Point.mk (Num 100) (Num 50)).
    repeat split; vm_compute; reflexivity.
Qed.
(* ================================================================== *)
(** * What an update leaves alone *)
(* ================================================================== *)

Lemma updateObject_sceneOnly (id : string) (u : Updates.t) (w : Engine.t) :
  storeOk w -> sceneOnly w (CanvasEngine.updateObject id u w).
Proof.
  intros Hok. unfold CanvasEngine.updateObject, CanvasEngine.bus.
  rewrite updateObject_on_bus by exact Hok.
  destruct (SceneManager.getObject id w) as [e|]; [|apply sceneOnly_refl].
  destruct (isLineOrArrow (Entity.type e)).
  - apply plainUpdate_sceneOnly.
  - eapply sceneOnly_trans; [apply plainUpdate_sceneOnly|apply rerouteAll_sceneOnly].
Qed.

Lemma updateObject_skeleton (id : string) (u : Updates.t) (w : Engine.t) :
  storeOk w ->
  skeleton (Engine.entities (CanvasEngine.updateObject id u w)) = skeleton (Engine.entities w).
Proof.
  intros Hok. unfold CanvasEngine.updateObject, CanvasEngine.bus.
  rewrite updateObject_on_bus by exact Hok.
  destruct (SceneManager.getObject id w) as [e|]; [|reflexivity].
  destruct (isLineOrArrow (Entity.type e)).
  - apply plainUpdate_skeleton.
  - rewrite rerouteAll_skeleton. apply plainUpdate_skeleton.
Qed.

Lemma updateObject_storeOk (id : string) (u : Updates.t) (w : Engine.t) :
  storeOk w -> storeOk (CanvasEngine.updateObject id u w).
Proof.
  intros Hok. unfold storeOk.
  now rewrite (skeleton_ids _ _ (updateObject_skeleton id u w Hok)).
Qed.

Lemma updateObject_selectedIds (id : string) (u : Updates.t) (w : Engine.t) :
  storeOk w -> Engine.selectedIds (CanvasEngine.updateObject id u w) = Engine.selectedIds w.
Proof. intros Hok. rewrite (updateObject_sceneOnly id u w Hok). reflexivity. Qed.

(** Another key is untouched unless it holds a connector attached to the
    updated entity. *)
Lemma updateObject_other (id i : string) (u : Updates.t) (w : Engine.t) :
  storeOk w -> i <> id ->
  (forall e, SceneManager.getObject i w = Some e -> ConnectionModule.isConnectedTo id e = false) ->
  SceneManager.getObject i (CanvasEngine.updateObject id u w) = SceneManager.getObject i w.
Proof.
  intros Hok Hne Hfree. unfold CanvasEngine.updateObject, CanvasEngine.bus.
  rewrite updateObject_on_bus by exact Hok.
  destruct (SceneManager.getObject id w) as [e|] eqn:Hget; [|reflexivity].
  destruct (isLineOrArrow (Entity.type e)).
  - now apply getObject_plainUpdate_other.
  - rewrite getObject_rerouteAll_other.
    + now apply getObject_plainUpdate_other.
    + now apply storeOk_plainUpdate.
    + intros e' He'. rewrite getObject_plainUpdate_other in He' by exact Hne. now apply Hfree.
Qed.

Lemma getObject_In (i : string) (w : Engine.t) (e : Entity.t) :
  SceneManager.getObject i w = Some e -> In e (Engine.entities w).
Proof. intros H. now apply find_id_some in H. Qed.

(** An update writes the metadata of the entity it is given and of no other:
    the re-routing of a connector changes its transform and props only. *)
Lemma updateObject_metadata (id i : string) (u : Updates.t) (w : Engine.t) (e : Entity.t) :
  storeOk w -> i <> id ->
  SceneManager.getObject i w = Some e ->
  exists e',
    SceneManager.getObject i (CanvasEngine.updateObject id u w) = Some e'
    /\ Entity.metadata e' = Entity.metadata e.
Proof.
  intros Hok Hne Hget.
  destruct (ConnectionModule.isConnectedTo id e) eqn:Hconn.
  - destruct (SceneManager.getObject id w) as [x|] eqn:Hx.
    + destruct (isLineOrArrow (Entity.type x)) eqn:Hline.
      * exists e. split; [|reflexivity].
        unfold CanvasEngine.updateObject, CanvasEngine.bus.
        rewrite updateObject_on_bus by exact Hok. rewrite Hx, Hline.
        rewrite getObject_plainUpdate_other by exact Hne. exact Hget.
      * pose proof (getObject_merge_id _ _ _ Hget) as Hid. subst i.
        destruct (updateObject_reroutes id u w x e Hok Hx Hline (getObject_In _ _ _ Hget) Hconn)
          as [w1 [_ [_ [_ Hl]]]].
        eexists. split; [exact Hl|reflexivity].
    + exists e. split; [|reflexivity].
      unfold CanvasEngine.updateObject. now rewrite updateObject_unknown.
  - exists e. split; [|reflexivity].
    rewrite updateObject_other; try assumption.
    intros e' He'. rewrite Hget in He'. now injection He' as <-.
Qed.

Lemma updateObject_absent (id i : string) (u : Updates.t) (w : Engine.t) :
  storeOk w ->
  SceneManager.getObject i w = None ->
  SceneManager.getObject i (CanvasEngine.updateObject id u w) = None.
Proof.
  intros Hok Hnone. apply find_id_none.
  rewrite (skeleton_ids _ _ (updateObject_skeleton id u w Hok)).
  now apply find_id_none.
Qed.
(* ================================================================== *)
(** * The selection module *)
(* ================================================================== *)

Lemma broadcastSelection_on_bus (w : Engine.t) :
  SelectionModule.broadcastSelection CanvasEngine.bus w
  = Engine.set_isDirty true
      (traced EVENTS.SELECTION_CHANGED (OfIds (Engine.selectedIds w)) w).
Proof. reflexivity. Qed.

(** The loop over the selected ids, as a loop of engine updates. *)
Lemma deselectAll_fold (w : Engine.t) :
  SelectionModule.deselectAll CanvasEngine.bus w
  = fold_left (fun w sid =>
                 CanvasEngine.updateObject sid (Updates.ofMetadata (Metadata.mk (Some false))) w)
              (Engine.selectedIds w) w.
Proof. reflexivity. Qed.

Section UpdateLoop.

Variable u : Updates.t.

Lemma updateEach_cons (sid : string) (rest : list string) (w : Engine.t) :
  updateEach u (sid :: rest) w = updateEach u rest (CanvasEngine.updateObject sid u w).
Proof. reflexivity. Qed.

Lemma updateEach_storeOk (l : list string) :
  forall w, storeOk w -> storeOk (updateEach u l w).
Proof.
  induction l as [|sid rest IH]; intros w Hok; [exact Hok|].
  rewrite updateEach_cons. apply IH. now apply updateObject_storeOk.
Qed.

Lemma updateEach_sceneOnly (l : list string) :
  forall w, storeOk w -> sceneOnly w (updateEach u l w).
Proof.
  induction l as [|sid rest IH]; intros w Hok; [apply sceneOnly_refl|].
  rewrite updateEach_cons.
  eapply sceneOnly_trans; [now apply updateObject_sceneOnly|].
  apply IH. now apply updateObject_storeOk.
Qed.

Lemma updateEach_skeleton (l : list string) :
  forall w, storeOk w ->
            skeleton (Engine.entities (updateEach u l w)) = skeleton (Engine.entities w).
Proof.
  induction l as [|sid rest IH]; intros w Hok; [reflexivity|].
  rewrite updateEach_cons, IH by (now apply updateObject_storeOk).
  now apply updateObject_skeleton.
Qed.

Lemma updateEach_absent (l : list string) (i : string) (w : Engine.t) :
  storeOk w ->
  SceneManager.getObject i w = None -> SceneManager.getObject i (updateEach u l w) = None.
Proof.
  intros Hok Hnone. apply find_id_none.
  rewrite (skeleton_ids _ _ (updateEach_skeleton l w Hok)). now apply find_id_none.
Qed.

(** A property of the entity under one key that every update of the loop
    keeps is kept by the loop. *)
Lemma updateEach_keeps (P : Entity.t -> Prop) (i : string) (l : list string) :
  (forall w sid e, In sid l -> storeOk w -> SceneManager.getObject i w = Some e -> P e ->
                   exists e', SceneManager.getObject i (CanvasEngine.updateObject sid u w) = Some e'
                              /\ P e') ->
  forall w e, storeOk w -> SceneManager.getObject i w = Some e -> P e ->
              exists e', SceneManager.getObject i (updateEach u l w) = Some e' /\ P e'.
Proof.
  induction l as [|sid rest IH]; intros Hstep w e Hok Hget HP.
  - now exists e.
  - rewrite updateEach_cons.
    destruct (Hstep w sid e (or_introl eq_refl) Hok Hget HP) as [e1 [Hget1 HP1]].
    apply (IH (fun w sid e Hin => Hstep w sid e (or_intror Hin))
              (CanvasEngine.updateObject sid u w) e1);
      [now apply updateObject_storeOk|exact Hget1|exact HP1].
Qed.

End UpdateLoop.

(** After the loop that writes [selected: b], the entity under a key of the
    loop has [selected = b], and the metadata under every other key is as
    before. *)
Lemma updateEach_selected (b : bool) (i : string) (l : list string) :
  forall w e,
    storeOk w -> SceneManager.getObject i w = Some e ->
    exists e',
      SceneManager.getObject i (updateEach (Updates.ofMetadata (Metadata.mk (Some b))) l w)
      = Some e'
      /\ (In i l -> Metadata.selected (Entity.metadata e') = Some b)
      /\ (~ In i l -> Entity.metadata e' = Entity.metadata e).
Proof.
  set (u := Updates.ofMetadata (Metadata.mk (Some b))).
  induction l as [|sid rest IH]; intros w e Hok Hget.
  - exists e. split; [exact Hget|]. split; [contradiction|reflexivity].
  - rewrite updateEach_cons.
    assert (Hok1 : storeOk (CanvasEngine.updateObject sid u w))
      by (now apply updateObject_storeOk).
    destruct (string_dec i sid) as [->|Hne].
    + destruct (updateObject_stores sid u w e Hok Hget) as [Hget1 _].
      destruct (IH _ _ Hok1 Hget1) as [e' [Hget' [Hin Hnin]]].
      exists e'. split; [exact Hget'|]. split.
      * intros _. destruct (in_dec string_dec sid rest) as [Hr|Hr]; [now apply Hin|].
        rewrite (Hnin Hr). reflexivity.
      * intros Hcontra. exfalso. apply Hcontra. now left.
    + destruct (updateObject_metadata sid i u w e Hok Hne Hget) as [e1 [Hget1 Hm1]].
      destruct (IH _ _ Hok1 Hget1) as [e' [Hget' [Hin Hnin]]].
      exists e'. split; [exact Hget'|]. split.
      * intros [Heq|Hr]; [congruence|now apply Hin].
      * intros Hcontra. rewrite Hnin by (intros Hr; apply Hcontra; now right). exact Hm1.
Qed.

Lemma In_setAdd (x id : string) (l : list string) :
  In x (setAdd id l) <-> x = id \/ In x l.
Proof.
  unfold setAdd. destruct (existsb (String.eqb id) l) eqn:E.
  - split; [tauto|]. intros [->|H]; [|exact H].
    apply existsb_exists in E. destruct E as [y [Hy Heq]].
    apply String.eqb_eq in Heq. now subst y.
  - rewrite in_app_iff. simpl. intuition congruence.
Qed.

Lemma In_setDelete (x id : string) (l : list string) :
  In x (setDelete id l) <-> In x l /\ x <> id.
Proof.
  unfold setDelete. rewrite filter_In, negb_true_iff, String.eqb_neq. tauto.
Qed.

Lemma getObject_present (i : string) (l : list string) (u : Updates.t) (w : Engine.t)
      (e : Entity.t) :
  storeOk w ->
  SceneManager.getObject i (updateEach u l w) = Some e ->
  exists e0, SceneManager.getObject i w = Some e0.
Proof.
  intros Hok Hget. destruct (SceneManager.getObject i w) as [e0|] eqn:H0; [now exists e0|].
  rewrite (updateEach_absent u l i w Hok H0) in Hget. discriminate.
Qed.

(** The loop of [select] and [clearSelection] leaves no entity selected. *)
Lemma deselectAll_clears (w : Engine.t) :
  storeOk w -> mirrors w ->
  let wd := SelectionModule.deselectAll CanvasEngine.bus w in
  storeOk wd
  /\ Engine.selectedIds wd = Engine.selectedIds w
  /\ forall i e, SceneManager.getObject i wd = Some e ->
                 Metadata.isSelected (Entity.metadata e) = false.
Proof.
  intros Hok Hm. cbv zeta. rewrite deselectAll_fold.
  fold (updateEach (Updates.ofMetadata (Metadata.mk (Some false))) (Engine.selectedIds w) w).
  split; [now apply updateEach_storeOk|]. split.
  - rewrite (updateEach_sceneOnly _ _ w Hok). reflexivity.
  - intros i e Hget.
    destruct (getObject_present _ _ _ _ _ Hok Hget) as [e0 H0].
    destruct (updateEach_selected false i (Engine.selectedIds w) w e0 Hok H0)
      as [e' [Hget' [Hin Hnin]]].
    rewrite Hget in Hget'. injection Hget' as <-.
    destruct (in_dec string_dec i (Engine.selectedIds w)) as [Hi|Hi].
    + unfold Metadata.isSelected. now rewrite (Hin Hi).
    + rewrite (Hnin Hi). destruct (Metadata.isSelected (Entity.metadata e0)) eqn:E;
        [|reflexivity].
      exfalso. apply Hi. now apply (Hm i e0 H0).
Qed.

Lemma select_keeps_mirror (id : string) (multi : bool) (w : Engine.t) :
  storeOk w -> mirrors w ->
  storeOk (CanvasEngine.select id multi w) /\ mirrors (CanvasEngine.select id multi w).
Proof.
  intros Hok Hm. unfold CanvasEngine.select, SelectionModule.select.
  rewrite broadcastSelection_on_bus.
  set (uTrue := Updates.ofMetadata (Metadata.mk (Some true))).
  set (w1 := if negb multi
             then Engine.set_selectedIds [] (SelectionModule.deselectAll CanvasEngine.bus w)
             else w).
  set (w2 := Engine.set_selectedIds (setAdd id (Engine.selectedIds w1)) w1).
  fold (CanvasEngine.updateObject id uTrue w2).
  assert (H1 : storeOk w1 /\ mirrors w1).
  { unfold w1. destruct multi; cbn [negb]; [now split|].
    destruct (deselectAll_clears w Hok Hm) as [Hokd [_ Hclear]]. split; [exact Hokd|].
    intros i e Hget. cbn [Engine.selectedIds Engine.set_selectedIds].
    change (SceneManager.getObject i (Engine.set_selectedIds [] ?x))
      with (SceneManager.getObject i x) in Hget.
    rewrite (Hclear i e Hget). simpl. intuition discriminate. }
  destruct H1 as [Hok1 Hm1].
  assert (Hok2 : storeOk w2) by exact Hok1.
  assert (Hsel : Engine.selectedIds (CanvasEngine.updateObject id uTrue w2)
                 = setAdd id (Engine.selectedIds w1))
    by (now rewrite updateObject_selectedIds).
  split; [exact (updateObject_storeOk id uTrue w2 Hok2)|].
  intros i e Hget.
  change (SceneManager.getObject i (Engine.set_isDirty true (traced ?a ?b ?x)))
    with (SceneManager.getObject i x) in Hget.
  change (Engine.selectedIds (Engine.set_isDirty true (traced ?a ?b ?x)))
    with (Engine.selectedIds x).
  rewrite Hsel, In_setAdd.
  destruct (SceneManager.getObject i w2) as [e2|] eqn:Hget2;
    [|rewrite (updateObject_absent id i uTrue w2 Hok2 Hget2) in Hget; discriminate].
  destruct (string_dec i id) as [->|Hne].
  - destruct (updateObject_stores id uTrue w2 e2 Hok2 Hget2) as [Hst _].
    rewrite Hst in Hget. injection Hget as <-. split; [now left|reflexivity].
  - destruct (updateObject_metadata id i uTrue w2 e2 Hok2 Hne Hget2) as [e' [Hget' Hmeta]].
    rewrite Hget in Hget'. injection Hget' as <-. rewrite Hmeta.
    rewrite (Hm1 i e2 Hget2). tauto.
Qed.

Lemma clearSelection_keeps_mirror (w : Engine.t) :
  storeOk w -> mirrors w ->
  storeOk (CanvasEngine.clearSelection w) /\ mirrors (CanvasEngine.clearSelection w).
Proof.
  intros Hok Hm. unfold CanvasEngine.clearSelection, SelectionModule.clearSelection.
  rewrite broadcastSelection_on_bus.
  destruct (deselectAll_clears w Hok Hm) as [Hokd [_ Hclear]]. split; [exact Hokd|].
  intros i e Hget.
  change (SceneManager.getObject i (Engine.set_isDirty true (traced ?a ?b
            (Engine.set_selectedIds [] ?x))))
    with (SceneManager.getObject i x) in Hget.
  rewrite (Hclear i e Hget). simpl. intuition discriminate.
Qed.

Lemma getObject_mapDelete_other (id i : string) (es : list Entity.t) :
  i <> id ->
  find (fun x => String.eqb (Entity.id x) i) (mapDelete id es)
  = find (fun x => String.eqb (Entity.id x) i) es.
Proof.
  intros Hne. unfold mapDelete. induction es as [|e rest IH]; simpl; [reflexivity|].
  destruct (String.eqb_spec (Entity.id e) id) as [Heq|Hneq]; simpl.
  - destruct (String.eqb_spec (Entity.id e) i); [congruence|exact IH].
  - destruct (String.eqb (Entity.id e) i); [reflexivity|exact IH].
Qed.

Lemma deleteObject_keeps_mirror (id : string) (w : Engine.t) :
  storeOk w -> mirrors w ->
  storeOk (CanvasEngine.deleteObject id w) /\ mirrors (CanvasEngine.deleteObject id w).
Proof.
  intros Hok Hm. unfold CanvasEngine.deleteObject, CanvasEngine.bus.
  rewrite deleteObject_on_bus.
  destruct (SceneManager.getObject id w) as [entity|] eqn:Hget; [|now split].
  cbv zeta.
  assert (Hokd : NoDup (ids (mapDelete id (Engine.entities w))))
    by (now apply NoDup_ids_filter).
  assert (Hsel : forall x, In x (setDelete id (Engine.selectedIds w))
                           <-> In x (Engine.selectedIds w) /\ x <> id)
    by (intros x; apply In_setDelete).
  assert (Hkey : forall i e,
             find (fun x => String.eqb (Entity.id x) i) (mapDelete id (Engine.entities w))
             = Some e ->
             i <> id /\ SceneManager.getObject i w = Some e).
  { intros i e Hf. destruct (string_dec i id) as [->|Hne].
    - rewrite getObject_mapDelete in Hf. discriminate.
    - split; [exact Hne|]. now rewrite getObject_mapDelete_other in Hf. }
  destruct (setHas id (Engine.selectedIds w)) eqn:Hhas.
  - split; [exact Hokd|]. intros i e Hf. apply Hkey in Hf. destruct Hf as [Hne Hf].
    cbn [Engine.selectedIds Engine.set_isDirty traced Engine.set_emitted
         Engine.set_selectedIds Engine.set_entities].
    rewrite Hsel, (Hm i e Hf). tauto.
  - split; [exact Hokd|]. intros i e Hf. apply Hkey in Hf. destruct Hf as [Hne Hf].
    cbn [Engine.selectedIds Engine.set_isDirty traced Engine.set_emitted
         Engine.set_selectedIds Engine.set_entities].
    exact (Hm i e Hf).
Qed.

Lemma deleteEach_keeps_mirror (l : list string) :
  forall w, storeOk w -> mirrors w ->
            storeOk (fold_left (fun w id => CanvasEngine.deleteObject id w) l w)
            /\ mirrors (fold_left (fun w id => CanvasEngine.deleteObject id w) l w).
Proof.
  induction l as [|id rest IH]; intros w Hok Hm; simpl; [now split|].
  destruct (deleteObject_keeps_mirror id w Hok Hm) as [Hok' Hm']. now apply IH.
Qed.

Lemma deleteSelected_keeps_mirror (w : Engine.t) :
  storeOk w -> mirrors w ->
  storeOk (CanvasEngine.deleteSelected w) /\ mirrors (CanvasEngine.deleteSelected w).
Proof.
  intros Hok Hm. unfold CanvasEngine.deleteSelected, SelectionModule.deleteSelected.
  fold (CanvasEngine.clearSelection
          (fold_left (fun w id => SceneManager.deleteObject CanvasEngine.bus id w)
                     (Engine.selectedIds w) w)).
  destruct (deleteEach_keeps_mirror (Engine.selectedIds w) w Hok Hm) as [Hok' Hm'].
  now apply clearSelection_keeps_mirror.
Qed.

Lemma perform_keeps_mirror (op : operation) (w : Engine.t) :
  storeOk w -> mirrors w -> storeOk (perform w op) /\ mirrors (perform w op).
Proof.
  intros Hok Hm. destruct op; cbn [perform].
  - now apply select_keeps_mirror.
  - now apply clearSelection_keeps_mirror.
  - now apply deleteSelected_keeps_mirror.
  - now apply deleteObject_keeps_mirror.
Qed.

(** A store filled by [createObject] alone: nothing is selected. *)
Lemma populate_unselected (creations : list Creation.t) :
  forall w,
    storeOk w -> Engine.selectedIds w = [] ->
    (forall i e, SceneManager.getObject i w = Some e ->
                 Metadata.isSelected (Entity.metadata e) = false) ->
    storeOk (populate creations w)
    /\ Engine.selectedIds (populate creations w) = []
    /\ (forall i e, SceneManager.getObject i (populate creations w) = Some e ->
                    Metadata.isSelected (Entity.metadata e) = false).
Proof.
  induction creations as [|c rest IH]; intros w Hok Hsel Hnone; simpl; [now repeat split|].
  apply IH.
  - unfold storeOk. apply NoDup_ids_mapSet. exact Hok.
  - exact Hsel.
  - intros i e Hget.
    unfold CanvasEngine.createObject, SceneManager.createObject in Hget.
    unfold CanvasEngine.bus in Hget. rewrite emit_created in Hget.
    unfold SceneManager.getObject in Hget.
    cbn [Engine.entities Engine.set_isDirty traced Engine.set_emitted Engine.set_entities
         Engine.set_uuidsUsed] in Hget.
    destruct (string_dec i (SceneManager.randomUUID w)) as [->|Hne].
    + match type of Hget with
      | find _ (mapSet ?new _) = _ =>
          pose proof (find_mapSet_same new (Engine.entities w)) as Hnew
      end.
      cbn [Entity.id] in Hnew. rewrite Hnew in Hget. injection Hget as <-. reflexivity.
    + rewrite find_mapSet_other in Hget by exact Hne. exact (Hnone i e Hget).
Qed.

(** C10.  Start from the engine after its constructor, fill the store by any
    calls of [createObject] with the default metadata, then run any sequence
    of [select], [clearSelection], [deleteSelected] and [deleteObject]: every
    entity in the store has a truthy [metadata.selected] exactly when its id
    is in the selection set. *)
Theorem selection_mirrors_metadata
        (types : list ObjectTypeDefinition.t) (uuids : nat -> string) (randoms : nat -> nat)
        (creations : list Creation.t) (operations : list operation) :
  let w := fold_left perform operations
                     (populate creations (CanvasEngine.initial types uuids randoms)) in
  Forall (fun e => Metadata.isSelected (Entity.metadata e) = true
                   <-> In (Entity.id e) (Engine.selectedIds w))
         (SceneManager.getAllObjects w).
Proof.
  cbv zeta.
  assert (Hstart : storeOk (populate creations (CanvasEngine.initial types uuids randoms))
                   /\ mirrors (populate creations (CanvasEngine.initial types uuids randoms))).
  { destruct (populate_unselected creations (CanvasEngine.initial types uuids randoms))
      as [Hok [Hsel Hnone]].
    - unfold storeOk. simpl. constructor.
    - reflexivity.
    - intros i e H. discriminate H.
    - split; [exact Hok|]. intros i e Hget. rewrite Hsel, (Hnone i e Hget).
      simpl. intuition discriminate. }
  revert Hstart.
  generalize (populate creations (CanvasEngine.initial types uuids randoms)).
  induction operations as [|op rest IH]; intros w [Hok Hm]; simpl.
  - apply Forall_forall. intros e Hin. apply Hm.
    unfold SceneManager.getObject. now apply find_id_NoDup.
  - apply IH. now apply perform_keeps_mirror.
Qed.
(* ================================================================== *)
(** * Pointer-up from the Creating state *)
(* ================================================================== *)

(** An update of [sid] that carries no transform and no props leaves the type
    and the geometry under every key, unless the key holds a connector
    attached to [sid]. *)
Lemma updateObject_keeps_geometry (sid i : string) (u : Updates.t) (w : Engine.t)
      (e : Entity.t) :
  storeOk w ->
  Updates.transform u = None -> Updates.props u = None ->
  SceneManager.getObject i w = Some e ->
  ConnectionModule.isConnectedTo sid e = false ->
  exists e',
    SceneManager.getObject i (CanvasEngine.updateObject sid u w) = Some e'
    /\ Entity.type e' = Entity.type e
    /\ Entity.transform e' = Entity.transform e
    /\ Entity.props e' = Entity.props e.
Proof.
  intros Hok Htr Hpr Hget Hfree.
  destruct (string_dec i sid) as [->|Hne].
  - destruct (updateObject_stores sid u w e Hok Hget) as [Hst _].
    exists (SceneManager.merge e u). split; [exact Hst|].
    unfold SceneManager.merge. cbn [Entity.type Entity.transform Entity.props].
    rewrite Htr, Hpr. repeat split.
  - exists e. split; [|repeat split].
    rewrite updateObject_other; [exact Hget|exact Hok|exact Hne|].
    intros e0 H0. rewrite Hget in H0. injection H0 as <-. exact Hfree.
Qed.

Lemma isConnectedTo_geometry (sid : string) (e e' : Entity.t) :
  Entity.type e' = Entity.type e -> Entity.props e' = Entity.props e ->
  ConnectionModule.isConnectedTo sid e' = ConnectionModule.isConnectedTo sid e.
Proof. intros Ht Hp. unfold ConnectionModule.isConnectedTo. now rewrite Ht, Hp. Qed.

Lemma deselectAll_keeps_geometry (i : string) (w : Engine.t) (e : Entity.t) :
  storeOk w ->
  SceneManager.getObject i w = Some e ->
  Forall (fun sid => ConnectionModule.isConnectedTo sid e = false) (Engine.selectedIds w) ->
  exists e',
    SceneManager.getObject i (SelectionModule.deselectAll CanvasEngine.bus w) = Some e'
    /\ Entity.type e' = Entity.type e
    /\ Entity.transform e' = Entity.transform e
    /\ Entity.props e' = Entity.props e.
Proof.
  intros Hok Hget Hfree. rewrite deselectAll_fold.
  fold (updateEach (Updates.ofMetadata (Metadata.mk (Some false))) (Engine.selectedIds w) w).
  apply (updateEach_keeps
           (Updates.ofMetadata (Metadata.mk (Some false)))
           (fun e' => Entity.type e' = Entity.type e
                      /\ Entity.transform e' = Entity.transform e
                      /\ Entity.props e' = Entity.props e)
           i (Engine.selectedIds w)) with (e := e);
    [|exact Hok|exact Hget|repeat split].
  intros w0 sid e0 Hin Hok0 Hget0 [Ht [Htr Hp]].
  destruct (updateObject_keeps_geometry
              sid i (Updates.ofMetadata (Metadata.mk (Some false))) w0 e0 Hok0
              eq_refl eq_refl Hget0)
    as [e1 [Hget1 [Ht1 [Htr1 Hp1]]]].
  - rewrite (isConnectedTo_geometry sid e e0 Ht Hp).
    exact (proj1 (Forall_forall _ _) Hfree sid Hin).
  - exists e1. split; [exact Hget1|]. repeat split; congruence.
Qed.

(** [select(id)] on an entity that is no connector attached to a selected
    entity: the entity is the selection, is marked, and keeps its geometry. *)
Lemma select_single (cid : string) (w : Engine.t) (e : Entity.t) :
  storeOk w ->
  SceneManager.getObject cid w = Some e ->
  Forall (fun sid => ConnectionModule.isConnectedTo sid e = false) (Engine.selectedIds w) ->
  Engine.selectedIds (CanvasEngine.select cid false w) = [cid]
  /\ exists e',
      SceneManager.getObject cid (CanvasEngine.select cid false w) = Some e'
      /\ Metadata.selected (Entity.metadata e') = Some true
      /\ Entity.type e' = Entity.type e
      /\ Entity.transform e' = Entity.transform e
      /\ Entity.props e' = Entity.props e.
Proof.
  intros Hok Hget Hfree.
  destruct (deselectAll_keeps_geometry cid w e Hok Hget Hfree) as [e1 [Hget1 [Ht [Htr Hp]]]].
  assert (Hokd : storeOk (SelectionModule.deselectAll CanvasEngine.bus w)).
  { rewrite deselectAll_fold.
    exact (updateEach_storeOk _ (Engine.selectedIds w) w Hok). }
  unfold CanvasEngine.select, SelectionModule.select. cbn [negb].
  rewrite broadcastSelection_on_bus.
  set (uTrue := Updates.ofMetadata (Metadata.mk (Some true))).
  set (w2 := Engine.set_selectedIds
               (setAdd cid (Engine.selectedIds
                              (Engine.set_selectedIds []
                                 (SelectionModule.deselectAll CanvasEngine.bus w))))
               (Engine.set_selectedIds [] (SelectionModule.deselectAll CanvasEngine.bus w))).
  fold (CanvasEngine.updateObject cid uTrue w2).
  assert (Hok2 : storeOk w2) by exact Hokd.
  assert (Hget2 : SceneManager.getObject cid w2 = Some e1) by exact Hget1.
  destruct (updateObject_stores cid uTrue w2 e1 Hok2 Hget2) as [Hst _].
  split.
  - change (Engine.selectedIds (Engine.set_isDirty true (traced ?a ?b ?x)))
      with (Engine.selectedIds x).
    rewrite updateObject_selectedIds by exact Hok2. reflexivity.
  - exists (SceneManager.merge e1 uTrue). split; [exact Hst|].
    split; [reflexivity|]. split; [exact Ht|]. split; [exact Htr|exact Hp].
Qed.

Lemma switchTool_select (w : Engine.t) :
  CanvasEngine.switchTool SELECT None w
  = traced EVENTS.TOOL_CHANGED (OfTool SELECT)
           (Engine.set_framePreset None (Engine.set_activeTool SELECT w)).
Proof.
  unfold CanvasEngine.switchTool, CanvasEngine.setTool, CanvasEngine.emit, CanvasEngine.bus.
  cbn iota. apply emit_tool.
Qed.

Lemma pointerUp_tail (x : Engine.t) :
  let w' :=
    Engine.set_draggedChildrenIds []
      (Engine.set_draggedEntityId None
         (Engine.set_resizeOriginal None
            (Engine.set_resizeHandle None
               (Engine.set_isResizing false
                  (Engine.set_isPanning false
                     (traced EVENTS.TOOL_CHANGED (OfTool SELECT)
                        (Engine.set_framePreset None
                           (Engine.set_activeTool SELECT
                              (Engine.set_createStartPoint None
                                 (Engine.set_creatingEntityId None x)))))))))) in
  Engine.entities w' = Engine.entities x
  /\ Engine.selectedIds w' = Engine.selectedIds x
  /\ Engine.activeTool w' = SELECT
  /\ Engine.creatingEntityId w' = None.
Proof. repeat split. Qed.

(** The state that [onPointerUp] leaves when an entity is being created. *)
Lemma onPointerUp_creating (cid : string) (w : Engine.t) :
  truthyString (Engine.creatingEntityId w) = Some cid ->
  let wa := match SceneManager.getObject cid w with
            | Some entity =>
                if CanvasEngine.needsFallback entity
                then CanvasEngine.snapToFallback cid entity w
                else w
            | None => w
            end in
  Engine.entities (CanvasEngine.onPointerUp w) = Engine.entities (CanvasEngine.select cid false wa)
  /\ Engine.selectedIds (CanvasEngine.onPointerUp w)
     = Engine.selectedIds (CanvasEngine.select cid false wa)
  /\ Engine.activeTool (CanvasEngine.onPointerUp w) = SELECT
  /\ Engine.creatingEntityId (CanvasEngine.onPointerUp w) = None.
Proof.
  intros H. cbv zeta. unfold CanvasEngine.onPointerUp. rewrite H.
  rewrite switchTool_select. apply pointerUp_tail.
Qed.

Lemma snapToFallback_stores (cid : string) (entity : Entity.t) (w : Engine.t) :
  storeOk w ->
  SceneManager.getObject cid w = Some entity ->
  let w' := CanvasEngine.snapToFallback cid entity w in
  let fb := CanvasEngine.fallbackSize (Entity.type entity) w in
  storeOk w'
  /\ Engine.selectedIds w' = Engine.selectedIds w
  /\ exists e',
      SceneManager.getObject cid w' = Some e'
      /\ Entity.type e' = Entity.type entity
      /\ Entity.transform e' = Entity.transform entity
      /\ widthOf e' = Num (fst fb)
      /\ heightOf e' = Num (snd fb)
      /\ Props.startConnectedId (Entity.props e') = Props.startConnectedId (Entity.props entity)
      /\ Props.endConnectedId (Entity.props e') = Props.endConnectedId (Entity.props entity).
Proof.
  intros Hok Hget. cbv zeta. unfold CanvasEngine.snapToFallback.
  match goal with
  | |- context [CanvasEngine.updateObject cid ?u w] => set (upd := u)
  end.
  destruct (updateObject_stores cid upd w entity Hok Hget) as [Hst _].
  split; [now apply updateObject_storeOk|].
  split; [now apply updateObject_selectedIds|].
  exists (SceneManager.merge entity upd). split; [exact Hst|].
  unfold upd. destruct (isLineOrArrow (Entity.type entity));
    repeat split; cbn;
    try (destruct (Props.startConnectedId (Entity.props entity)); reflexivity);
    try (destruct (Props.endConnectedId (Entity.props entity)); reflexivity).
Qed.

Lemma isConnectedTo_ends (sid : string) (e e' : Entity.t) :
  Entity.type e' = Entity.type e ->
  Props.startConnectedId (Entity.props e') = Props.startConnectedId (Entity.props e) ->
  Props.endConnectedId (Entity.props e') = Props.endConnectedId (Entity.props e) ->
  ConnectionModule.isConnectedTo sid e' = ConnectionModule.isConnectedTo sid e.
Proof. intros Ht Hs He. unfold ConnectionModule.isConnectedTo. now rewrite Ht, Hs, He. Qed.

Lemma preset_is_truthy {A : Type} (preset : string) (table : list (string * A)) (v : A) :
  lookup "" table = None -> lookup preset table = Some v ->
  truthyString (Some preset) = Some preset.
Proof.
  intros Hnone Hsome. unfold truthyString.
  destruct (String.eqb_spec preset "") as [->|Hne]; [congruence|reflexivity].
Qed.

(** [select(id)] on a stored entity: it is the selection and is marked. *)
Lemma select_marks (cid : string) (w : Engine.t) (e : Entity.t) :
  storeOk w ->
  SceneManager.getObject cid w = Some e ->
  Engine.selectedIds (CanvasEngine.select cid false w) = [cid]
  /\ exists e',
      SceneManager.getObject cid (CanvasEngine.select cid false w) = Some e'
      /\ Metadata.selected (Entity.metadata e') = Some true.
Proof.
  intros Hok Hget.
  assert (Hokd : storeOk (SelectionModule.deselectAll CanvasEngine.bus w)).
  { rewrite deselectAll_fold. exact (updateEach_storeOk _ (Engine.selectedIds w) w Hok). }
  assert (Hgetd : exists e1,
             SceneManager.getObject cid (SelectionModule.deselectAll CanvasEngine.bus w)
             = Some e1).
  { rewrite deselectAll_fold.
    destruct (updateEach_selected false cid (Engine.selectedIds w) w e Hok Hget)
      as [e1 [H1 _]].
    now exists e1. }
  destruct Hgetd as [e1 Hget1].
  unfold CanvasEngine.select, SelectionModule.select. cbn [negb].
  rewrite broadcastSelection_on_bus.
  set (uTrue := Updates.ofMetadata (Metadata.mk (Some true))).
  set (w2 := Engine.set_selectedIds
               (setAdd cid (Engine.selectedIds
                              (Engine.set_selectedIds []
                                 (SelectionModule.deselectAll CanvasEngine.bus w))))
               (Engine.set_selectedIds [] (SelectionModule.deselectAll CanvasEngine.bus w))).
  fold (CanvasEngine.updateObject cid uTrue w2).
  assert (Hok2 : storeOk w2) by exact Hokd.
  assert (Hget2 : SceneManager.getObject cid w2 = Some e1) by exact Hget1.
  destruct (updateObject_stores cid uTrue w2 e1 Hok2 Hget2) as [Hst _].
  split.
  - change (Engine.selectedIds (Engine.set_isDirty true (traced ?a ?b ?x)))
      with (Engine.selectedIds x).
    rewrite updateObject_selectedIds by exact Hok2. reflexivity.
  - exists (SceneManager.merge e1 uTrue). split; [exact Hst|reflexivity].
Qed.

Lemma needsFallback_spec (entity : Entity.t) :
  CanvasEngine.needsFallback entity = true
  <-> ((widthOf entity <? Num 10)%num = true \/ (heightOf entity <? Num 10)%num = true)
      /\ ~ (isLineOrArrow (Entity.type entity) = true
            /\ isTruthy (stringOf (Props.endConnectedId (Entity.props entity))) = true).
Proof.
  unfold CanvasEngine.needsFallback.
  rewrite andb_true_iff, orb_true_iff, negb_true_iff, andb_false_iff.
  destruct (isLineOrArrow (Entity.type entity));
    destruct (isTruthy (stringOf (Props.endConnectedId (Entity.props entity))));
    intuition congruence.
Qed.

(** Pointer-up while an entity is being created: the entity becomes the one
    selected entity and is marked so, the tool is SELECT and the Creating
    state is left.  If the entity is no connector attached to an entity of
    the selection being replaced, it also stays where it is, and: when its
    width or its height is below 10 and it is no LINE or ARROW with a truthy
    [endConnectedId], width and height become the fallback of its type (200
    by 200 for STICKY_NOTE, 250 by 50 for TEXT, 100 by 100 for RECTANGLE,
    ELLIPSE, TRIANGLE, DIAMOND, LINE and ARROW; for FRAME the size that
    [FRAME_PRESETS] has for the active preset, and 400 by 300 without a
    preset); otherwise its props are untouched. *)
Theorem pointer_up_finishes_creation (cid : string) (entity : Entity.t) (w : Engine.t) :
  storeOk w ->
  truthyString (Engine.creatingEntityId w) = Some cid ->
  SceneManager.getObject cid w = Some entity ->
  let w' := CanvasEngine.onPointerUp w in
  let type := Entity.type entity in
  let small :=
    (widthOf entity <? Num 10)%num = true \/ (heightOf entity <? Num 10)%num = true in
  let endConnected :=
    isLineOrArrow type = true
    /\ isTruthy (stringOf (Props.endConnectedId (Entity.props entity))) = true in
  Engine.selectedIds w' = [cid]
  /\ Engine.activeTool w' = SELECT
  /\ Engine.creatingEntityId w' = None
  /\ (exists entity',
         SceneManager.getObject cid w' = Some entity'
         /\ Metadata.selected (Entity.metadata entity') = Some true)
  /\ (Forall (fun sid => ConnectionModule.isConnectedTo sid entity = false)
             (Engine.selectedIds w) ->
      exists entity',
        SceneManager.getObject cid w' = Some entity'
        /\ Entity.transform entity' = Entity.transform entity
        /\ (~ small \/ endConnected -> Entity.props entity' = Entity.props entity)
        /\ (small -> ~ endConnected ->
            let sized fw fh := widthOf entity' = Num fw /\ heightOf entity' = Num fh in
            (type = "STICKY_NOTE" -> sized 200 200)
            /\ (type = "TEXT" -> sized 250 50)
            /\ (In type ["RECTANGLE"; "ELLIPSE"; "TRIANGLE"; "DIAMOND"; "LINE"; "ARROW"] ->
                sized 100 100)
            /\ (type = "FRAME" ->
                truthyString (Engine.framePreset w) = None -> sized 400 300)
            /\ (type = "FRAME" ->
                forall preset pw ph,
                  Engine.framePreset w = Some preset ->
                  lookup preset FRAME_PRESETS = Some (pw, ph) ->
                  sized pw ph))).
Proof.
  intros Hok Hc Hget. cbv zeta.
  destruct (onPointerUp_creating cid w Hc) as [Hent [Hsel [Htool Hcre]]].
  rewrite Hget in Hent, Hsel.
  unfold SceneManager.getObject. rewrite Hent, Hsel.
  pose proof (needsFallback_spec entity) as Hspec.
  split; [|split; [exact Htool|split; [exact Hcre|split]]].
  - destruct (CanvasEngine.needsFallback entity).
    + destruct (snapToFallback_stores cid entity w Hok Hget) as [Hoka [_ [ea [Hgeta _]]]].
      exact (proj1 (select_marks cid _ ea Hoka Hgeta)).
    + exact (proj1 (select_marks cid w entity Hok Hget)).
  - destruct (CanvasEngine.needsFallback entity).
    + destruct (snapToFallback_stores cid entity w Hok Hget) as [Hoka [_ [ea [Hgeta _]]]].
      exact (proj2 (select_marks cid _ ea Hoka Hgeta)).
    + exact (proj2 (select_marks cid w entity Hok Hget)).
  - intros Hfree. destruct (CanvasEngine.needsFallback entity) eqn:Hneeds.
    + destruct (snapToFallback_stores cid entity w Hok Hget)
        as [Hoka [Hsela [ea [Hgeta [Hta [Htra [Hwa [Hha [Hs He]]]]]]]]].
      assert (Hfreea : Forall (fun sid => ConnectionModule.isConnectedTo sid ea = false)
                              (Engine.selectedIds (CanvasEngine.snapToFallback cid entity w))).
      { rewrite Hsela. apply Forall_forall. intros sid Hin.
        rewrite (isConnectedTo_ends sid entity ea Hta Hs He).
        exact (proj1 (Forall_forall _ _) Hfree sid Hin). }
      destruct (select_single cid _ ea Hoka Hgeta Hfreea)
        as [_ [e' [Hget' [_ [_ [Htr' Hp']]]]]].
      exists e'. split; [exact Hget'|]. split; [congruence|].
      destruct (proj1 Hspec eq_refl) as [Hsmall Hfree_end].
      split; [intros [Hns|Hec]; contradiction|].
      intros _ _.
      assert (Hw' : widthOf e' = Num (fst (CanvasEngine.fallbackSize (Entity.type entity) w)))
        by (unfold widthOf in *; now rewrite Hp').
      assert (Hh' : heightOf e' = Num (snd (CanvasEngine.fallbackSize (Entity.type entity) w)))
        by (unfold heightOf in *; now rewrite Hp').
      rewrite Hw', Hh'. unfold CanvasEngine.fallbackSize.
      split; [intros ->; split; reflexivity|].
      split; [intros ->; split; reflexivity|].
      split.
      { intros Hin. simpl in Hin.
        destruct Hin as [<-|[<-|[<-|[<-|[<-|[<-|[]]]]]]]; split; reflexivity. }
      split.
      { intros -> Hnone. unfold CanvasEngine.presetSize. rewrite Hnone. split; reflexivity. }
      intros -> preset pw ph Hpreset Hlookup.
      unfold CanvasEngine.presetSize. rewrite Hpreset.
      rewrite (preset_is_truthy preset FRAME_PRESETS (pw, ph) eq_refl Hlookup), Hlookup.
      split; reflexivity.
    + destruct (select_single cid w entity Hok Hget Hfree)
        as [_ [e' [Hget' [_ [_ [Htr' Hp']]]]]].
      exists e'. split; [exact Hget'|]. split; [exact Htr'|].
      split; [intros _; exact Hp'|].
      intros Hsmall Hfree_end. exfalso.
      assert (Htrue : false = true) by (apply Hspec; now split).
      discriminate Htrue.
Qed.

(** The rectangle tool pressed at [(0, 0)], dragged to [(5, 5)] and released:
    a rectangle at [(0, 0)] of 100 by 100, selected; the tool is SELECT. *)
Lemma pointer_up_finishes_creation_witness :
  let w' := CanvasEngine.onPointerUp Sample.creatingRectangle in
  Engine.selectedIds w' = ["id-0"]
  /\ Engine.activeTool w' = SELECT
  /\ (exists entity',
         SceneManager.getObject "id-0" w' = Some entity'
         /\ Metadata.selected (Entity.metadata entity') = Some true)
  /\ exists entity',
      SceneManager.getObject "id-0" w' = Some entity'
      /\ xOf entity' = Num 0 /\ yOf entity' = Num 0
      /\ widthOf entity' = Num 100 /\ heightOf entity' = Num 100.
Proof.
  cbv zeta.
  assert (Hok : storeOk Sample.creatingRectangle).
  { unfold storeOk. vm_compute. repeat constructor; simpl; intuition discriminate. }
  assert (Hfree : Forall (fun sid : string => True) (Engine.selectedIds Sample.creatingRectangle))
    by (vm_compute; constructor).
  let v := eval vm_compute in (SceneManager.getObject "id-0" Sample.creatingRectangle) in
  match v with
  | Some ?e =>
      assert (Hget : SceneManager.getObject "id-0" Sample.creatingRectangle = Some e)
        by (vm_compute; reflexivity);
      assert (Hfree' : Forall (fun sid => ConnectionModule.isConnectedTo sid e = false)
                              (Engine.selectedIds Sample.creatingRectangle))
        by (apply (Forall_impl _ (fun sid _ => eq_refl) Hfree));
      destruct (pointer_up_finishes_creation "id-0" e Sample.creatingRectangle
                  Hok eq_refl Hget)
        as [Hsel [Htool [_ [Hmarked Hgeometry]]]];
      destruct (Hgeometry Hfree') as [e' [Hget' [Htr [_ Hsnap]]]];
      assert (Hsmall : (widthOf e <? Num 10)%num = true \/ (heightOf e <? Num 10)%num = true)
        by (left; reflexivity);
      assert (Hnoend : ~ (isLineOrArrow (Entity.type e) = true
                          /\ isTruthy (stringOf (Props.endConnectedId (Entity.props e)))
                             = true))
        by (intros [Hline _]; discriminate Hline);
      destruct (Hsnap Hsmall Hnoend) as [_ [_ [Hsized _]]]
  end.
  split; [exact Hsel|]. split; [exact Htool|]. split; [exact Hmarked|].
  exists e'. split; [exact Hget'|].
  destruct (Hsized (or_introl eq_refl)) as [Hw Hh].
  unfold xOf, yOf. rewrite Htr. repeat split; assumption.
Defined.

(** Pointer-up always ends panning, resizing and dragging; when no entity
    is being created it changes nothing else: store, selection, tool, camera
    and emitted events are as before. *)
Theorem pointer_up_ends_interaction (w : Engine.t) :
  let w' := CanvasEngine.onPointerUp w in
  Engine.isPanning w' = false
  /\ Engine.isResizing w' = false
  /\ Engine.resizeHandle w' = None
  /\ Engine.resizeOriginal w' = None
  /\ Engine.draggedEntityId w' = None
  /\ Engine.draggedChildrenIds w' = []
  /\ (truthyString (Engine.creatingEntityId w) = None ->
      Engine.entities w' = Engine.entities w
      /\ Engine.selectedIds w' = Engine.selectedIds w
      /\ Engine.activeTool w' = Engine.activeTool w
      /\ Engine.camera w' = Engine.camera w
      /\ Engine.emitted w' = Engine.emitted w).
Proof.
  cbv zeta. unfold CanvasEngine.onPointerUp.
  repeat (split; [reflexivity|]).
  intros H. rewrite H. repeat split.
Qed.
(* ================================================================== *)
(** * Subscribing and unsubscribing *)
(* ================================================================== *)

Section BusTable.

Context {S P : Type}.

Implicit Types (ls : EventBus.t S P) (cb : EventBus.listener S P).

Lemma get_alter_same (event : string) f ls :
  EventBus.get event (EventBus.alter S P event f ls) = option_map f (EventBus.get event ls).
Proof.
  unfold EventBus.get. induction ls as [|[k cbs] rest IH]; simpl; [reflexivity|].
  destruct (String.eqb k event) eqn:E; simpl; rewrite E; [reflexivity|exact IH].
Qed.

Lemma get_alter_other (event e' : string) f ls :
  e' <> event ->
  EventBus.get e' (EventBus.alter S P event f ls) = EventBus.get e' ls.
Proof.
  intros Hne. unfold EventBus.get. induction ls as [|[k cbs] rest IH]; simpl; [reflexivity|].
  destruct (String.eqb_spec k event) as [->|Hk]; simpl.
  - destruct (String.eqb_spec event e'); [congruence|reflexivity].
  - destruct (String.eqb k e'); [reflexivity|exact IH].
Qed.

Lemma get_app_new (event e' : string) ls :
  EventBus.get event ls = None ->
  EventBus.get e' (ls ++ [(event, [])])
  = if String.eqb e' event then Some [] else EventBus.get e' ls.
Proof.
  unfold EventBus.get. induction ls as [|[k cbs] rest IH]; simpl; intros Hnone.
  - rewrite String.eqb_sym. now destruct (String.eqb e' event).
  - destruct (String.eqb_spec k event) as [->|Hk]; [discriminate|].
    destruct (String.eqb_spec k e') as [->|Hk'].
    + destruct (String.eqb_spec e' event); [congruence|reflexivity].
    + now apply IH.
Qed.

Lemma subscribers_on (event e' : string) cb ls :
  EventBus.subscribers e' (EventBus.on event cb ls)
  = if String.eqb e' event
    then EventBus.setAdd S P cb (EventBus.subscribers event ls)
    else EventBus.subscribers e' ls.
Proof.
  unfold EventBus.subscribers, EventBus.on.
  destruct (EventBus.get event ls) as [cbs|] eqn:Hget.
  - destruct (String.eqb_spec e' event) as [->|Hne].
    + now rewrite get_alter_same, Hget.
    + now rewrite get_alter_other.
  - destruct (String.eqb_spec e' event) as [->|Hne].
    + rewrite get_alter_same, get_app_new by exact Hget. now rewrite String.eqb_refl.
    + rewrite get_alter_other, get_app_new by assumption.
      destruct (String.eqb_spec e' event); [congruence|reflexivity].
Qed.

Lemma subscribers_off (event e' : string) cb ls :
  EventBus.subscribers e' (EventBus.off event cb ls)
  = if String.eqb e' event
    then EventBus.setDelete S P cb (EventBus.subscribers event ls)
    else EventBus.subscribers e' ls.
Proof.
  unfold EventBus.subscribers, EventBus.off.
  destruct (String.eqb_spec e' event) as [->|Hne].
  - rewrite get_alter_same. now destruct (EventBus.get event ls).
  - now rewrite get_alter_other.
Qed.

Lemma has_setAdd cb (l : list (EventBus.listener S P)) :
  EventBus.has S P cb (EventBus.setAdd S P cb l) = true.
Proof.
  unfold EventBus.setAdd. destruct (EventBus.has S P cb l) eqn:E; [exact E|].
  unfold EventBus.has. rewrite existsb_app. simpl.
  now rewrite Nat.eqb_refl, orb_true_r.
Qed.

Lemma has_setDelete cb (l : list (EventBus.listener S P)) :
  EventBus.has S P cb (EventBus.setDelete S P cb l) = false.
Proof.
  unfold EventBus.has, EventBus.setDelete. induction l as [|x rest IH]; simpl; [reflexivity|].
  destruct (Nat.eqb (EventBus.handle x) (EventBus.handle cb)) eqn:E; simpl; [exact IH|].
  now rewrite E, IH.
Qed.

Lemma setDelete_absent_handle cb (l : list (EventBus.listener S P)) :
  EventBus.has S P cb l = false -> EventBus.setDelete S P cb l = l.
Proof.
  unfold EventBus.has, EventBus.setDelete. induction l as [|x rest IH]; simpl; [reflexivity|].
  intros H. apply orb_false_iff in H. destruct H as [Hx Hrest].
  rewrite Hx. simpl. f_equal. now apply IH.
Qed.

(** Subscribing: the callback is delivered to, after the earlier
    subscribers of the event; subscribing it again changes nothing (a [Set]),
    and the subscribers of every other event are as before. *)
Theorem on_subscribes_once (event : string) cb ls :
  (forall e',
      EventBus.subscribers e' (EventBus.on event cb ls)
      = if String.eqb e' event
        then (if EventBus.has S P cb (EventBus.subscribers event ls)
              then EventBus.subscribers event ls
              else EventBus.subscribers event ls ++ [cb])
        else EventBus.subscribers e' ls)
  /\ EventBus.has S P cb (EventBus.subscribers event (EventBus.on event cb ls)) = true
  /\ (forall e',
         EventBus.subscribers e' (EventBus.on event cb (EventBus.on event cb ls))
         = EventBus.subscribers e' (EventBus.on event cb ls)).
Proof.
  split; [|split].
  - intros e'. now rewrite subscribers_on.
  - rewrite subscribers_on, String.eqb_refl. apply has_setAdd.
  - intros e'. rewrite (subscribers_on event e' cb (EventBus.on event cb ls)).
    destruct (String.eqb e' event) eqn:E; [|reflexivity].
    apply String.eqb_eq in E. subst e'.
    rewrite subscribers_on, String.eqb_refl.
    unfold EventBus.setAdd at 1. now rewrite has_setAdd.
Qed.

(** Unsubscribing: the callback is no longer among the subscribers of the
    event, the others keep their order, other events are untouched, and
    unsubscribing a callback that was not subscribed changes no
    subscription. *)
Theorem off_unsubscribes (event : string) cb ls :
  (forall e',
      EventBus.subscribers e' (EventBus.off event cb ls)
      = if String.eqb e' event
        then filter (fun l => negb (Nat.eqb (EventBus.handle l) (EventBus.handle cb)))
                    (EventBus.subscribers event ls)
        else EventBus.subscribers e' ls)
  /\ EventBus.has S P cb (EventBus.subscribers event (EventBus.off event cb ls)) = false
  /\ (EventBus.has S P cb (EventBus.subscribers event ls) = false ->
      forall e', EventBus.subscribers e' (EventBus.off event cb ls)
                 = EventBus.subscribers e' ls).
Proof.
  split; [|split].
  - intros e'. now rewrite subscribers_off.
  - rewrite subscribers_off, String.eqb_refl. apply has_setDelete.
  - intros Hnot e'. rewrite subscribers_off.
    destruct (String.eqb e' event) eqn:E; [|reflexivity].
    apply String.eqb_eq in E. subst e'. now apply setDelete_absent_handle.
Qed.

(** [on] followed by [off] of a callback that was not subscribed before
    restores the subscribers of every event. *)
Theorem on_then_off_restores (event : string) cb ls :
  EventBus.has S P cb (EventBus.subscribers event ls) = false ->
  forall e',
    EventBus.subscribers e' (EventBus.off event cb (EventBus.on event cb ls))
    = EventBus.subscribers e' ls.
Proof.
  intros Hnot e'. rewrite subscribers_off.
  destruct (String.eqb e' event) eqn:E.
  - apply String.eqb_eq in E. subst e'.
    rewrite subscribers_on, String.eqb_refl.
    unfold EventBus.setAdd. rewrite Hnot.
    unfold EventBus.setDelete. rewrite filter_app. simpl.
    rewrite Nat.eqb_refl. simpl. rewrite app_nil_r.
    now apply setDelete_absent_handle.
  - rewrite subscribers_on, E. reflexivity.
Qed.

End BusTable.

(** A callback subscribed to ENTITY_DELETED and unsubscribed again, next to
    a subscription to ENTITY_UPDATED. *)
Lemma on_then_off_restores_witness :
  EventBus.subscribers
    EVENTS.ENTITY_DELETED
    (EventBus.off EVENTS.ENTITY_DELETED (EventBus.mkListener 3 CanvasEngine.markDirty)
       (EventBus.on EVENTS.ENTITY_DELETED (EventBus.mkListener 3 CanvasEngine.markDirty)
          (EventBus.on EVENTS.ENTITY_UPDATED (EventBus.mkListener 2 CanvasEngine.markDirty) [])))
  = [].
Proof.
  exact (on_then_off_restores
           EVENTS.ENTITY_DELETED (EventBus.mkListener 3 CanvasEngine.markDirty)
           (EventBus.on EVENTS.ENTITY_UPDATED (EventBus.mkListener 2 CanvasEngine.markDirty) [])
           eq_refl EVENTS.ENTITY_DELETED).
Defined.
(* ================================================================== *)
(** * The scene manager: registration, creation, loading *)
(* ================================================================== *)

Lemma find_registerObjectType (def : ObjectTypeDefinition.t) (t : string)
      (types : list ObjectTypeDefinition.t) :
  find (fun d => String.eqb (ObjectTypeDefinition.type d) t)
       (SceneManager.registerObjectType def types)
  = if String.eqb (ObjectTypeDefinition.type def) t
    then Some def
    else find (fun d => String.eqb (ObjectTypeDefinition.type d) t) types.
Proof.
  induction types as [|d rest IH]; simpl.
  - now destruct (String.eqb (ObjectTypeDefinition.type def) t).
  - destruct (String.eqb_spec (ObjectTypeDefinition.type d) (ObjectTypeDefinition.type def))
      as [Heq|Hne]; simpl.
    + rewrite Heq. now destruct (String.eqb (ObjectTypeDefinition.type def) t).
    + destruct (String.eqb_spec (ObjectTypeDefinition.type d) t) as [Hd|Hd].
      * destruct (String.eqb_spec (ObjectTypeDefinition.type def) t); [congruence|reflexivity].
      * exact IH.
Qed.

(** [registerObjectType] and [getObjectType]: the definition registered last
    under a type name is the one looked up, and the other type names keep
    their definitions. *)
Theorem registered_type_is_looked_up (def : ObjectTypeDefinition.t) (t : string)
        (w : Engine.t) :
  SceneManager.getObjectType
    t (Engine.set_objectTypes (SceneManager.registerObjectType def (Engine.objectTypes w)) w)
  = if String.eqb (ObjectTypeDefinition.type def) t
    then Some def
    else SceneManager.getObjectType t w.
Proof. unfold SceneManager.getObjectType. apply find_registerObjectType. Qed.

Lemma mapSet_new (e : Entity.t) (es : list Entity.t) :
  ~ In (Entity.id e) (ids es) -> mapSet e es = es ++ [e].
Proof.
  induction es as [|e' rest IH]; simpl; intros Hnin; [reflexivity|].
  destruct (String.eqb_spec (Entity.id e') (Entity.id e)) as [Heq|Hne].
  - exfalso. apply Hnin. now left.
  - f_equal. apply IH. tauto.
Qed.

Lemma createObject_on_bus (type : string) (props : Props.t)
      (transform : option PartialTransform.t) (metadata : Metadata.t)
      (parentId : option string) (w : Engine.t) :
  CanvasEngine.createObject type props transform metadata parentId w
  = let entity :=
      Entity.mk (SceneManager.randomUUID w) type
        (PartialTransform.spread (Transform.mk (Num 0) (Num 0) (Num 1) (Num 1) (Num 0))
                                 (orElse transform PartialTransform.empty))
        props metadata true parentId in
    Engine.set_isDirty true
      (traced EVENTS.ENTITY_CREATED (OfEntity entity)
         (Engine.set_entities (mapSet entity (Engine.entities w))
            (Engine.set_uuidsUsed (Datatypes.S (Engine.uuidsUsed w)) w))).
Proof. reflexivity. Qed.

(** [createObject]: the entity is stored under the id that is returned, with
    the given props, metadata and parent, visible, and with the transform
    [(0, 0, 1, 1, 0)] overridden by the fields that were given; ENTITY_CREATED
    is emitted once with it; no other key of the store and no selection
    changes; a new id goes last in the iteration order. *)
Theorem createObject_stores_entity (type : string) (props : Props.t)
        (transform : option PartialTransform.t) (metadata : Metadata.t)
        (parentId : option string) (w : Engine.t) :
  let id := SceneManager.randomUUID w in
  let given := orElse transform PartialTransform.empty in
  let entity :=
    Entity.mk id type
      (Transform.mk (orElse (PartialTransform.x given) (Num 0))
                    (orElse (PartialTransform.y given) (Num 0))
                    (orElse (PartialTransform.scaleX given) (Num 1))
                    (orElse (PartialTransform.scaleY given) (Num 1))
                    (orElse (PartialTransform.rotation given) (Num 0)))
      props metadata true parentId in
  let w' := CanvasEngine.createObject type props transform metadata parentId w in
  SceneManager.getObject id w' = Some entity
  /\ (forall i, i <> id -> SceneManager.getObject i w' = SceneManager.getObject i w)
  /\ Engine.emitted w' = Engine.emitted w ++ [(EVENTS.ENTITY_CREATED, OfEntity entity)]
  /\ Engine.selectedIds w' = Engine.selectedIds w
  /\ Engine.isDirty w' = true
  /\ (SceneManager.getObject id w = None ->
      SceneManager.getAllObjects w' = SceneManager.getAllObjects w ++ [entity]).
Proof.
  cbv zeta. rewrite createObject_on_bus. cbv zeta.
  unfold SceneManager.getObject, SceneManager.getAllObjects, PartialTransform.spread.
  cbn [Engine.entities Engine.emitted Engine.selectedIds Engine.isDirty Engine.set_isDirty
       traced Engine.set_emitted Engine.set_entities Engine.set_uuidsUsed
       Transform.x Transform.y Transform.scaleX Transform.scaleY Transform.rotation].
  split; [|split; [|split; [|split; [|split]]]]; try reflexivity.
  - match goal with
    | |- find _ (mapSet ?new _) = _ => exact (find_mapSet_same new (Engine.entities w))
    end.
  - intros i Hne. now apply find_mapSet_other.
  - intros Hnone. apply mapSet_new. now apply find_id_none.
Qed.

Lemma mapDelete_app_new (e : Entity.t) (es : list Entity.t) :
  ~ In (Entity.id e) (ids es) -> mapDelete (Entity.id e) (es ++ [e]) = es.
Proof.
  intros Hnin. unfold mapDelete. rewrite filter_app. simpl.
  rewrite String.eqb_refl. simpl. rewrite app_nil_r.
  induction es as [|e' rest IH]; simpl; [reflexivity|].
  destruct (String.eqb_spec (Entity.id e') (Entity.id e)) as [Heq|Hne]; simpl.
  - exfalso. apply Hnin. now left.
  - f_equal. apply IH. intros Hin. apply Hnin. now right.
Qed.

(** Deleting the entity that [createObject] just stored under a new id
    gives back the store as it was, in the same order; the selection is
    untouched when the id was not in it. *)
Theorem delete_undoes_create (type : string) (props : Props.t)
        (transform : option PartialTransform.t) (metadata : Metadata.t)
        (parentId : option string) (w : Engine.t) :
  SceneManager.getObject (SceneManager.randomUUID w) w = None ->
  setHas (SceneManager.randomUUID w) (Engine.selectedIds w) = false ->
  let w' := CanvasEngine.deleteObject
              (SceneManager.randomUUID w)
              (CanvasEngine.createObject type props transform metadata parentId w) in
  SceneManager.getAllObjects w' = SceneManager.getAllObjects w
  /\ Engine.selectedIds w' = Engine.selectedIds w
  /\ exists entity,
      Engine.emitted w'
      = Engine.emitted w ++ [(EVENTS.ENTITY_CREATED, OfEntity entity);
                             (EVENTS.ENTITY_DELETED, OfEntity entity)].
Proof.
  intros Hnone Hsel. cbv zeta.
  unfold CanvasEngine.deleteObject, CanvasEngine.bus. rewrite deleteObject_on_bus.
  rewrite createObject_on_bus. cbv zeta.
  set (entity := Entity.mk (SceneManager.randomUUID w) type _ props metadata true parentId).
  assert (Hnin : ~ In (Entity.id entity) (ids (Engine.entities w)))
    by (now apply find_id_none).
  match goal with
  | |- context [SceneManager.getObject _ ?x] => set (wc := x)
  end.
  assert (Hg : SceneManager.getObject (SceneManager.randomUUID w) wc = Some entity)
    by exact (find_mapSet_same entity (Engine.entities w)).
  assert (Hs : setHas (SceneManager.randomUUID w) (Engine.selectedIds wc) = false)
    by exact Hsel.
  rewrite Hg, Hs. cbv zeta. unfold wc, SceneManager.getAllObjects.
  cbn [Engine.entities Engine.set_isDirty traced Engine.set_emitted Engine.set_entities
       Engine.set_uuidsUsed Engine.selectedIds Engine.emitted].
  rewrite mapSet_new by exact Hnin.
  split; [exact (mapDelete_app_new entity (Engine.entities w) Hnin)|].
  split; [reflexivity|].
  exists entity. now rewrite <- app_assoc.
Qed.

Lemma delete_undoes_create_witness :
  SceneManager.getAllObjects
    (CanvasEngine.deleteObject
       "id-0" (CanvasEngine.createObject "RECTANGLE" (Props.size (Num 10) (Num 10)) None
                                         Metadata.empty None Sample.boxAndArrow))
  = SceneManager.getAllObjects Sample.boxAndArrow.
Proof.
  exact (proj1 (delete_undoes_create "RECTANGLE" (Props.size (Num 10) (Num 10)) None
                                     Metadata.empty None Sample.boxAndArrow
                                     eq_refl eq_refl)).
Defined.

(** ** loadData *)

Lemma setAll_records (records : list Entity.t) :
  forall w,
    SceneManager.setAll (map SceneManager.Record_ records) w
    = EventBus.Return (Engine.set_entities (storeAll records (Engine.entities w)) w).
Proof.
  induction records as [|r rest IH]; intros w; simpl.
  - now destruct w.
  - rewrite IH. reflexivity.
Qed.

Lemma setAll_null (before : list Entity.t) (rest : list SceneManager.item) :
  forall w,
    SceneManager.setAll (map SceneManager.Record_ before ++ SceneManager.Null_ :: rest) w
    = EventBus.Throw "TypeError: Cannot read properties of null (reading 'id')"
                     (Engine.set_entities (storeAll before (Engine.entities w)) w).
Proof.
  induction before as [|r more IH]; intros w; simpl.
  - now destruct w.
  - rewrite IH. reflexivity.
Qed.

Lemma find_app_or {A : Type} (f : A -> bool) (l1 l2 : list A) :
  find f (l1 ++ l2) = match find f l1 with
                      | Some x => Some x
                      | None => find f l2
                      end.
Proof.
  induction l1 as [|a rest IH]; simpl; [reflexivity|].
  destruct (f a); [reflexivity|exact IH].
Qed.

(** A key of the store after the loop holds the last record of the list
    with that id, or what it held before. *)
Lemma find_storeAll (i : string) (records : list Entity.t) :
  forall es,
    find (fun x => String.eqb (Entity.id x) i) (storeAll records es)
    = match find (fun x => String.eqb (Entity.id x) i) (rev records) with
      | Some e => Some e
      | None => find (fun x => String.eqb (Entity.id x) i) es
      end.
Proof.
  induction records as [|r rest IH]; intros es; simpl; [reflexivity|].
  unfold storeAll in *. rewrite IH, find_app_or.
  destruct (find (fun x => String.eqb (Entity.id x) i) (rev rest)); [reflexivity|].
  simpl. destruct (String.eqb_spec (Entity.id r) i) as [Heq|Hne].
  - subst i. apply find_mapSet_same.
  - apply find_mapSet_other. congruence.
Qed.

Lemma storeAll_distinct (records : list Entity.t) :
  forall es, NoDup (ids (es ++ records)) -> storeAll records es = es ++ records.
Proof.
  induction records as [|r rest IH]; intros es Hnd; simpl.
  - now rewrite app_nil_r.
  - assert (Hnin : ~ In (Entity.id r) (ids es)).
    { unfold ids in *. rewrite map_app in Hnd. simpl in Hnd.
      apply NoDup_remove_2 in Hnd. intros Hin. apply Hnd.
      apply in_or_app. now left. }
    unfold storeAll in *. rewrite mapSet_new by exact Hnin.
    rewrite IH; rewrite <- app_assoc; [reflexivity|exact Hnd].
Qed.

Lemma NoDup_ids_storeAll (records : list Entity.t) :
  forall es, NoDup (ids es) -> NoDup (ids (storeAll records es)).
Proof.
  induction records as [|r rest IH]; intros es Hnd; simpl; [exact Hnd|].
  apply IH. now apply NoDup_ids_mapSet.
Qed.

(** [loadData] on an array of entity records returns normally; whatever the
    store held before is gone; each id holds the last record of the array
    with that id; records with distinct ids are stored as the array has them,
    in its order; nothing is emitted and the selection set is not touched. *)
Theorem loadData_replaces_the_store (records : list Entity.t) (w : Engine.t) :
  exists w',
    SceneManager.loadData (map SceneManager.Record_ records) w = EventBus.Return w'
    /\ (forall i,
           SceneManager.getObject i w'
           = find (fun x => String.eqb (Entity.id x) i) (rev records))
    /\ storeOk w'
    /\ (NoDup (ids records) -> SceneManager.getAllObjects w' = records)
    /\ Engine.emitted w' = Engine.emitted w
    /\ Engine.selectedIds w' = Engine.selectedIds w.
Proof.
  exists (Engine.set_entities (storeAll records []) w).
  split; [|split; [|split; [|split; [|split]]]]; try reflexivity.
  - unfold SceneManager.loadData. rewrite setAll_records. reflexivity.
  - intros i. unfold SceneManager.getObject. cbn [Engine.entities Engine.set_entities].
    rewrite find_storeAll. now destruct (find _ (rev records)).
  - unfold storeOk. cbn [Engine.entities Engine.set_entities].
    apply NoDup_ids_storeAll. constructor.
  - intros Hnd. unfold SceneManager.getAllObjects. cbn [Engine.entities Engine.set_entities].
    now apply (storeAll_distinct records []).
Qed.

(** [loadData] on an array with a [null] element throws at that element; by
    then the previous store has been emptied and the records in front of the
    [null] have been stored, and this is the store the exception leaves. *)
Theorem loadData_stops_at_null (before : list Entity.t) (rest : list SceneManager.item)
        (w : Engine.t) :
  exists error w',
    SceneManager.loadData (map SceneManager.Record_ before ++ SceneManager.Null_ :: rest) w
    = EventBus.Throw error w'
    /\ (forall i,
           SceneManager.getObject i w'
           = find (fun x => String.eqb (Entity.id x) i) (rev before))
    /\ Engine.selectedIds w' = Engine.selectedIds w.
Proof.
  exists "TypeError: Cannot read properties of null (reading 'id')".
  exists (Engine.set_entities (storeAll before []) w).
  split; [|split]; try reflexivity.
  - unfold SceneManager.loadData. rewrite setAll_null. reflexivity.
  - intros i. unfold SceneManager.getObject. cbn [Engine.entities Engine.set_entities].
    rewrite find_storeAll. now destruct (find _ (rev before)).
Qed.
(* ================================================================== *)
(** * The selection module, operation by operation *)
(* ================================================================== *)

(** [select]: without [multi] the selection becomes the one id; with
    [multi] the id is added to the selection unless it is in it already.
    Either way no entity is created or deleted, and the last event emitted is
    SELECTION_CHANGED with the new selection. *)
Theorem select_sets_the_selection (id : string) (multi : bool) (w : Engine.t) :
  storeOk w ->
  let w' := CanvasEngine.select id multi w in
  Engine.selectedIds w'
  = (if multi
     then (if setHas id (Engine.selectedIds w)
           then Engine.selectedIds w
           else Engine.selectedIds w ++ [id])
     else [id])
  /\ skeleton (Engine.entities w') = skeleton (Engine.entities w)
  /\ exists earlier,
      Engine.emitted w'
      = earlier ++ [(EVENTS.SELECTION_CHANGED, OfIds (Engine.selectedIds w'))].
Proof.
  intros Hok. cbv zeta. unfold CanvasEngine.select, SelectionModule.select.
  rewrite broadcastSelection_on_bus.
  set (uTrue := Updates.ofMetadata (Metadata.mk (Some true))).
  set (w1 := if negb multi
             then Engine.set_selectedIds [] (SelectionModule.deselectAll CanvasEngine.bus w)
             else w).
  set (w2 := Engine.set_selectedIds (setAdd id (Engine.selectedIds w1)) w1).
  fold (CanvasEngine.updateObject id uTrue w2).
  assert (Hokd : storeOk (SelectionModule.deselectAll CanvasEngine.bus w)).
  { rewrite deselectAll_fold. exact (updateEach_storeOk _ (Engine.selectedIds w) w Hok). }
  assert (Hskd : skeleton (Engine.entities (SelectionModule.deselectAll CanvasEngine.bus w))
                 = skeleton (Engine.entities w)).
  { rewrite deselectAll_fold. exact (updateEach_skeleton _ (Engine.selectedIds w) w Hok). }
  assert (H1 : storeOk w1 /\ skeleton (Engine.entities w1) = skeleton (Engine.entities w)).
  { unfold w1. destruct multi; cbn [negb]; [now split|]. split; [exact Hokd|exact Hskd]. }
  destruct H1 as [Hok1 Hsk1].
  assert (Hok2 : storeOk w2) by exact Hok1.
  change (Engine.selectedIds (Engine.set_isDirty true (traced ?a ?b ?x)))
    with (Engine.selectedIds x).
  change (Engine.entities (Engine.set_isDirty true (traced ?a ?b ?x)))
    with (Engine.entities x).
  change (Engine.emitted (Engine.set_isDirty true (traced ?a ?b ?x)))
    with (Engine.emitted x ++ [(a, b)]).
  split; [|split].
  - rewrite updateObject_selectedIds by exact Hok2.
    unfold w2, w1. cbn [Engine.selectedIds Engine.set_selectedIds].
    destruct multi; cbn [negb]; [|reflexivity].
    unfold setAdd, setHas. reflexivity.
  - rewrite updateObject_skeleton by exact Hok2. exact Hsk1.
  - eexists. reflexivity.
Qed.

Lemma select_sets_the_selection_witness :
  Engine.selectedIds (CanvasEngine.select "arrow" true
                        (CanvasEngine.select "box" false Sample.boxAndArrow))
  = ["box"; "arrow"].
Proof.
  assert (Hok : storeOk (CanvasEngine.select "box" false Sample.boxAndArrow)).
  { unfold storeOk. vm_compute. repeat constructor; simpl; intuition discriminate. }
  rewrite (proj1 (select_sets_the_selection "arrow" true _ Hok)).
  vm_compute. reflexivity.
Defined.

(** [clearSelection]: the selection is empty, every entity that was in it
    has [selected: false], the metadata under every other key is as before,
    no entity is created or deleted, and the last event emitted is
    SELECTION_CHANGED with the empty selection. *)
Theorem clearSelection_deselects_all (w : Engine.t) :
  storeOk w ->
  let w' := CanvasEngine.clearSelection w in
  Engine.selectedIds w' = []
  /\ skeleton (Engine.entities w') = skeleton (Engine.entities w)
  /\ (forall i e,
         SceneManager.getObject i w = Some e ->
         exists e',
           SceneManager.getObject i w' = Some e'
           /\ (In i (Engine.selectedIds w) ->
               Metadata.selected (Entity.metadata e') = Some false)
           /\ (~ In i (Engine.selectedIds w) -> Entity.metadata e' = Entity.metadata e))
  /\ exists earlier,
      Engine.emitted w' = earlier ++ [(EVENTS.SELECTION_CHANGED, OfIds [])].
Proof.
  intros Hok. cbv zeta. unfold CanvasEngine.clearSelection, SelectionModule.clearSelection.
  rewrite broadcastSelection_on_bus, deselectAll_fold.
  fold (updateEach (Updates.ofMetadata (Metadata.mk (Some false))) (Engine.selectedIds w) w).
  split; [reflexivity|]. split; [|split].
  - exact (updateEach_skeleton _ (Engine.selectedIds w) w Hok).
  - intros i e Hget.
    exact (updateEach_selected false i (Engine.selectedIds w) w e Hok Hget).
  - eexists. reflexivity.
Qed.

Lemma clearSelection_deselects_all_witness :
  Engine.selectedIds
    (CanvasEngine.clearSelection (CanvasEngine.select "box" false Sample.boxAndArrow))
  = [].
Proof.
  assert (Hok : storeOk (CanvasEngine.select "box" false Sample.boxAndArrow)).
  { unfold storeOk. vm_compute. repeat constructor; simpl; intuition discriminate. }
  exact (proj1 (clearSelection_deselects_all _ Hok)).
Defined.

(** ** Deletion and the selection *)

Lemma mapDelete_absent (id : string) (es : list Entity.t) :
  find (fun x => String.eqb (Entity.id x) id) es = None -> mapDelete id es = es.
Proof.
  unfold mapDelete. induction es as [|e rest IH]; simpl; [reflexivity|].
  destruct (String.eqb (Entity.id e) id); [discriminate|].
  intros H. simpl. f_equal. now apply IH.
Qed.

Lemma deleteObject_entities (id : string) (w : Engine.t) :
  Engine.entities (CanvasEngine.deleteObject id w) = mapDelete id (Engine.entities w).
Proof.
  unfold CanvasEngine.deleteObject, CanvasEngine.bus. rewrite deleteObject_on_bus.
  destruct (SceneManager.getObject id w) as [e|] eqn:Hget.
  - cbv zeta. now destruct (setHas id (Engine.selectedIds w)).
  - symmetry. now apply mapDelete_absent.
Qed.

Lemma deleteObject_selection_incl (id : string) (w : Engine.t) :
  incl (Engine.selectedIds (CanvasEngine.deleteObject id w)) (Engine.selectedIds w).
Proof.
  unfold CanvasEngine.deleteObject, CanvasEngine.bus. rewrite deleteObject_on_bus.
  destruct (SceneManager.getObject id w) as [e|]; [|apply incl_refl].
  cbv zeta. destruct (setHas id (Engine.selectedIds w)); [|apply incl_refl].
  intros x Hx. cbn [Engine.selectedIds Engine.set_isDirty traced Engine.set_emitted
                    Engine.set_selectedIds] in Hx.
  now apply In_setDelete in Hx.
Qed.

Lemma deleteEach_entities (l : list string) :
  forall w,
    Engine.entities (fold_left (fun w id => CanvasEngine.deleteObject id w) l w)
    = filter (fun e => negb (setHas (Entity.id e) l)) (Engine.entities w)
    /\ incl (Engine.selectedIds (fold_left (fun w id => CanvasEngine.deleteObject id w) l w))
            (Engine.selectedIds w).
Proof.
  induction l as [|id rest IH]; intros w; simpl.
  - split; [|apply incl_refl]. induction (Engine.entities w) as [|e es IHes]; simpl;
      [reflexivity|now f_equal].
  - destruct (IH (CanvasEngine.deleteObject id w)) as [Hent Hsel]. split.
    + rewrite Hent, deleteObject_entities. unfold mapDelete.
      induction (Engine.entities w) as [|e es IHes]; simpl; [reflexivity|].
      unfold setHas at 2. simpl.
      destruct (String.eqb (Entity.id e) id); simpl; [exact IHes|].
      fold (setHas (Entity.id e) rest).
      destruct (setHas (Entity.id e) rest); simpl; [exact IHes|now f_equal].
    + intros x Hx. apply (deleteObject_selection_incl id w). now apply Hsel.
Qed.

Lemma updateEach_unknown (u : Updates.t) (l : list string) (w : Engine.t) :
  (forall sid, In sid l -> SceneManager.getObject sid w = None) ->
  updateEach u l w = w.
Proof.
  induction l as [|sid rest IH]; intros Hnone; [reflexivity|].
  rewrite updateEach_cons.
  unfold CanvasEngine.updateObject.
  rewrite updateObject_unknown by (apply Hnone; now left).
  apply IH. intros s Hs. apply Hnone. now right.
Qed.

Lemma find_filter_unselected (sid : string) (l : list string) (es : list Entity.t) :
  In sid l ->
  find (fun x => String.eqb (Entity.id x) sid)
       (filter (fun e => negb (setHas (Entity.id e) l)) es) = None.
Proof.
  intros Hin. induction es as [|e rest IH]; simpl; [reflexivity|].
  destruct (setHas (Entity.id e) l) eqn:Hhas; simpl; [exact IH|].
  destruct (String.eqb_spec (Entity.id e) sid) as [Heq|Hne]; [|exact IH].
  exfalso. subst sid. unfold setHas in Hhas.
  assert (Ht : existsb (String.eqb (Entity.id e)) l = true).
  { apply existsb_exists. exists (Entity.id e). split; [exact Hin|apply String.eqb_refl]. }
  congruence.
Qed.

(** [deleteSelected]: the entities whose id is in the selection are removed,
    every other entity stays as it is and where it is, and the selection is
    empty afterwards. *)
Theorem deleteSelected_removes_the_selection (w : Engine.t) :
  let w' := CanvasEngine.deleteSelected w in
  SceneManager.getAllObjects w'
  = filter (fun e => negb (setHas (Entity.id e) (Engine.selectedIds w)))
           (SceneManager.getAllObjects w)
  /\ Engine.selectedIds w' = []
  /\ exists earlier,
      Engine.emitted w' = earlier ++ [(EVENTS.SELECTION_CHANGED, OfIds [])].
Proof.
  cbv zeta. unfold CanvasEngine.deleteSelected, SelectionModule.deleteSelected.
  fold CanvasEngine.deleteObject.
  set (wd := fold_left (fun w id => CanvasEngine.deleteObject id w) (Engine.selectedIds w) w).
  destruct (deleteEach_entities (Engine.selectedIds w) w) as [Hent Hsel].
  fold wd in Hent, Hsel.
  unfold SelectionModule.clearSelection.
  rewrite broadcastSelection_on_bus, deselectAll_fold.
  fold (updateEach (Updates.ofMetadata (Metadata.mk (Some false))) (Engine.selectedIds wd) wd).
  rewrite updateEach_unknown.
  - split; [exact Hent|]. split; [reflexivity|]. eexists. reflexivity.
  - intros sid Hsid. unfold SceneManager.getObject. rewrite Hent.
    apply find_filter_unselected. now apply Hsel.
Qed.

(** Deleting an entity takes its id out of the selection: SELECTION_CHANGED
    follows ENTITY_DELETED when the entity was selected, and only then; the
    rest of the selection keeps its order.  No other entity is touched: a
    connector attached to the deleted entity keeps its connection id. *)
Theorem deleteObject_deselects (id : string) (entity : Entity.t) (w : Engine.t) :
  SceneManager.getObject id w = Some entity ->
  let w' := CanvasEngine.deleteObject id w in
  let remaining := filter (fun i => negb (String.eqb i id)) (Engine.selectedIds w) in
  SceneManager.getObject id w' = None
  /\ (forall i, i <> id -> SceneManager.getObject i w' = SceneManager.getObject i w)
  /\ Engine.selectedIds w' = remaining
  /\ Engine.emitted w'
     = Engine.emitted w
       ++ (EVENTS.ENTITY_DELETED, OfEntity entity)
          :: (if setHas id (Engine.selectedIds w)
              then [(EVENTS.SELECTION_CHANGED, OfIds remaining)]
              else []).
Proof.
  intros Hget. cbv zeta. split; [|split].
  - unfold SceneManager.getObject. rewrite deleteObject_entities. apply getObject_mapDelete.
  - intros i Hne. unfold SceneManager.getObject. rewrite deleteObject_entities.
    now apply getObject_mapDelete_other.
  - unfold CanvasEngine.deleteObject, CanvasEngine.bus.
    rewrite deleteObject_on_bus, Hget. cbv zeta.
    destruct (setHas id (Engine.selectedIds w)) eqn:Hhas.
    + split; [reflexivity|].
      cbn [Engine.emitted Engine.set_isDirty traced Engine.set_emitted Engine.set_selectedIds
           Engine.set_entities]. now rewrite <- app_assoc.
    + split; [|reflexivity].
      cbn [Engine.selectedIds Engine.set_isDirty traced Engine.set_emitted Engine.set_entities].
      symmetry. exact (setDelete_absent id (Engine.selectedIds w) Hhas).
Qed.

Lemma deleteObject_deselects_witness :
  Engine.selectedIds
    (CanvasEngine.deleteObject "box" (CanvasEngine.select "box" false Sample.boxAndArrow))
  = [].
Proof.
  exact (proj1 (proj2 (proj2 (deleteObject_deselects
                                "box" (Sample.selected (Sample.rectangle "box" 0 0 100 100))
                                (CanvasEngine.select "box" false Sample.boxAndArrow)
                                eq_refl)))).
Defined.
(* ================================================================== *)
(** * Updates and the connection module *)
(* ================================================================== *)

(** The update of a LINE or ARROW re-routes nothing: the connector is merged
    and stored, every other key of the store is as before, and exactly one
    event is emitted. *)
Theorem connector_update_is_local (id : string) (u : Updates.t) (w : Engine.t)
        (e : Entity.t) :
  storeOk w ->
  SceneManager.getObject id w = Some e ->
  isLineOrArrow (Entity.type e) = true ->
  let w' := CanvasEngine.updateObject id u w in
  SceneManager.getObject id w' = Some (SceneManager.merge e u)
  /\ (forall i, i <> id -> SceneManager.getObject i w' = SceneManager.getObject i w)
  /\ Engine.emitted w'
     = Engine.emitted w ++ [(EVENTS.ENTITY_UPDATED, OfUpdate e (SceneManager.merge e u))].
Proof.
  intros Hok Hget Hline. cbv zeta. unfold CanvasEngine.updateObject, CanvasEngine.bus.
  rewrite updateObject_on_bus by exact Hok. rewrite Hget, Hline.
  split; [now apply getObject_plainUpdate_same|]. split.
  - intros i Hne. now apply getObject_plainUpdate_other.
  - now apply plainUpdate_emitted.
Qed.

Lemma connector_update_is_local_witness :
  SceneManager.getObject
    "box" (CanvasEngine.updateObject "arrow" (Sample.moveTo 5 5) Sample.boxAndArrow)
  = Some (Sample.rectangle "box" 0 0 100 100).
Proof.
  assert (Hne : "box" <> "arrow") by discriminate.
  rewrite (proj1 (proj2 (connector_update_is_local
                           "arrow" (Sample.moveTo 5 5) Sample.boxAndArrow
                           (Sample.arrowFrom "arrow" "box" Ar 100 50 200 50)
                           storeOk_boxAndArrow eq_refl eq_refl)) "box" Hne).
  reflexivity.
Defined.

(** What no update does: it creates and deletes no entity and changes no id,
    type or order of the store; it leaves selection, camera and tool alone; it
    emits ENTITY_UPDATED only; and an entity that is neither the updated one
    nor a connector attached to it stays as it is. *)
Theorem update_keeps_the_rest (id : string) (u : Updates.t) (w : Engine.t) :
  storeOk w ->
  let w' := CanvasEngine.updateObject id u w in
  storeOk w'
  /\ skeleton (Engine.entities w') = skeleton (Engine.entities w)
  /\ Engine.selectedIds w' = Engine.selectedIds w
  /\ Engine.camera w' = Engine.camera w
  /\ Engine.activeTool w' = Engine.activeTool w
  /\ (forall i e,
         i <> id -> SceneManager.getObject i w = Some e ->
         ConnectionModule.isConnectedTo id e = false ->
         SceneManager.getObject i w' = Some e)
  /\ exists later,
      Engine.emitted w' = Engine.emitted w ++ later
      /\ Forall (fun ev => fst ev = EVENTS.ENTITY_UPDATED) later.
Proof.
  intros Hok. cbv zeta.
  split; [now apply updateObject_storeOk|].
  split; [now apply updateObject_skeleton|].
  split; [now apply updateObject_selectedIds|].
  split; [rewrite (updateObject_sceneOnly id u w Hok); reflexivity|].
  split; [rewrite (updateObject_sceneOnly id u w Hok); reflexivity|].
  split.
  - intros i e Hne Hget Hfree. rewrite updateObject_other; [exact Hget|exact Hok|exact Hne|].
    intros e0 H0. rewrite Hget in H0. now injection H0 as <-.
  - unfold CanvasEngine.updateObject, CanvasEngine.bus.
    rewrite updateObject_on_bus by exact Hok.
    destruct (SceneManager.getObject id w) as [e|] eqn:Hget.
    + destruct (isLineOrArrow (Entity.type e)).
      * exists [(EVENTS.ENTITY_UPDATED, OfUpdate e (SceneManager.merge e u))].
        split; [exact (plainUpdate_emitted id u w e Hget)|].
        constructor; [reflexivity|constructor].
      * unfold rerouteAll.
        destruct (fold_reroute_emitted
                    (filter (ConnectionModule.isConnectedTo id)
                            (Engine.entities (plainUpdate id u w)))
                    (plainUpdate id u w)) as [rest [Hrest Hall]].
        rewrite Hrest, (plainUpdate_emitted id u w e Hget), <- app_assoc.
        eexists. split; [reflexivity|]. constructor; [reflexivity|exact Hall].
    + exists []. split; [now rewrite app_nil_r|constructor].
Qed.

Lemma update_keeps_the_rest_witness :
  skeleton (Engine.entities
              (CanvasEngine.updateObject "box" (Sample.moveTo 40 0) Sample.boxAndArrow))
  = [("box", "RECTANGLE"); ("arrow", "ARROW")].
Proof.
  rewrite (proj1 (proj2 (update_keeps_the_rest "box" (Sample.moveTo 40 0) Sample.boxAndArrow
                                               storeOk_boxAndArrow))).
  reflexivity.
Defined.

(** Re-routing a connector whose end is not connected, or is connected to an
    id that is not in the store: the stored end point is kept (the same for
    the start), and the connection id stays. *)
Theorem unresolved_end_keeps_its_point (line : Entity.t) (pe : Point.t) (w : Engine.t) :
  storeOk w ->
  SceneManager.getObject (Entity.id line) w = Some line ->
  Props.end_ (Entity.props line) = Some pe ->
  (forall cid,
      truthyString (stringOf (Props.endConnectedId (Entity.props line))) = Some cid ->
      SceneManager.getObject cid w = None) ->
  exists line',
    SceneManager.getObject
      (Entity.id line) (ConnectionModule.updateLineConnections CanvasEngine.bus line w)
    = Some line'
    /\ Props.end_ (Entity.props line') = Some pe
    /\ Props.endConnectedId (Entity.props line') = Props.endConnectedId (Entity.props line).
Proof.
  intros Hok Hget Hend Hmissing.
  unfold ConnectionModule.updateLineConnections.
  fold (CanvasEngine.updateObject (Entity.id line) (ConnectionModule.routed line w) w).
  destruct (updateObject_stores (Entity.id line) (ConnectionModule.routed line w) w line
                                Hok Hget) as [Hst _].
  exists (SceneManager.merge line (ConnectionModule.routed line w)).
  split; [exact Hst|].
  destruct (routed_fields line w) as [_ [He [_ [_ [_ [_ [_ Hid]]]]]]].
  split; [|exact Hid].
  rewrite He, Hend. f_equal. unfold ConnectionModule.resolveEnd.
  destruct (truthyString (stringOf (Props.endConnectedId (Entity.props line)))) as [cid|] eqn:E;
    [|reflexivity].
  now rewrite (Hmissing cid eq_refl).
Qed.

Lemma unresolved_end_keeps_its_point_witness :
  exists line',
    SceneManager.getObject
      "arrow" (ConnectionModule.updateLineConnections
                 CanvasEngine.bus (Sample.arrowFrom "arrow" "box" Ar 100 50 200 50)
                 Sample.boxAndArrow)
    = Some line'
    /\ Props.end_ (Entity.props line') = Some (Point.mk (Num 200) (Num 50)).
Proof.
  destruct (unresolved_end_keeps_its_point
              (Sample.arrowFrom "arrow" "box" Ar 100 50 200 50)
              (Point.mk (Num 200) (Num 50)) Sample.boxAndArrow
              storeOk_boxAndArrow eq_refl eq_refl)
    as [line' [Hget [Hend _]]].
  - intros cid H. discriminate H.
  - exists line'. now split.
Defined.
(* ================================================================== *)
(** * Camera, hit tests, handles and anchors *)
(* ================================================================== *)

(** [screenToWorld] and [worldToScreen] of one camera are inverse to each
    other, for a zoom that is not zero. *)
Theorem camera_maps_are_inverse (c : Camera.t) (sx sy wx wy : Q) :
  ~ Camera.zoom c == 0 ->
  let p := Camera.screenToWorld c sx sy in
  let s := Camera.worldToScreen c wx wy in
  QPoint.x (Camera.worldToScreen c (QPoint.x p) (QPoint.y p)) == sx
  /\ QPoint.y (Camera.worldToScreen c (QPoint.x p) (QPoint.y p)) == sy
  /\ QPoint.x (Camera.screenToWorld c (QPoint.x s) (QPoint.y s)) == wx
  /\ QPoint.y (Camera.screenToWorld c (QPoint.x s) (QPoint.y s)) == wy.
Proof.
  intros Hz. cbv zeta. unfold Camera.screenToWorld, Camera.worldToScreen.
  cbn [QPoint.x QPoint.y]. repeat split; field; exact Hz.
Qed.

Lemma camera_maps_are_inverse_witness :
  QPoint.x (Camera.worldToScreen
              (Camera.mk 10 20 2)
              (QPoint.x (Camera.screenToWorld (Camera.mk 10 20 2) 100 100))
              (QPoint.y (Camera.screenToWorld (Camera.mk 10 20 2) 100 100)))
  == 100.
Proof.
  assert (Hz : ~ Camera.zoom (Camera.mk 10 20 2) == 0) by discriminate.
  exact (proj1 (camera_maps_are_inverse (Camera.mk 10 20 2) 100 100 0 0 Hz)).
Defined.

(** ** Hit tests *)

(** The hit tests of [ObjectTypes.ts] (shapes and connectors) and the
    connector hit test of [InfiniteCanvasApp.tsx], on an entity with a finite
    position and size: true exactly on the bounding box padded by 10 on every
    side. *)
Theorem padded_hit_tests (e : Entity.t) (x y w h px py : Q) :
  xOf e = Num x -> yOf e = Num y -> widthOf e = Num w -> heightOf e = Num h ->
  let inside := (x - 10 <= px /\ px <= x + w + 10) /\ (y - 10 <= py /\ py <= y + h + 10) in
  (ObjectTypes.RectangleType_hitTest e (Num px) (Num py) = true <-> inside)
  /\ (ObjectTypes.LineType_hitTest e (Num px) (Num py) = true <-> inside)
  /\ (Inline.LineType_hitTest e (Num px) (Num py) = true <-> inside).
Proof.
  intros Hx Hy Hw Hh. cbv zeta.
  split; [now apply ObjectTypes_hitTest_padded|].
  unfold ObjectTypes.LineType_hitTest, Inline.LineType_hitTest.
  rewrite Hx, Hy, Hw, Hh. cbn [Number.add Number.sub].
  rewrite !andb_true_iff, !geb_Num, !leb_Num. tauto.
Qed.

Lemma padded_hit_tests_witness :
  Inline.LineType_hitTest (Sample.arrowFrom "arrow" "box" Ar 100 50 200 50) (Num 95) (Num 45)
  = true.
Proof.
  apply (proj2 (proj2 (padded_hit_tests
                         (Sample.arrowFrom "arrow" "box" Ar 100 50 200 50)
                         100 50 100 0 95 45 eq_refl eq_refl eq_refl eq_refl))).
  repeat split; discriminate.
Defined.

(** An entity without [props.width] or without [props.height] is hit
    nowhere, by each of the hit tests: the comparisons with [NaN] are false. *)
Theorem sizeless_entity_is_never_hit (e : Entity.t) (wx wy : number) :
  Props.width (Entity.props e) = None \/ Props.height (Entity.props e) = None ->
  ObjectTypes.RectangleType_hitTest e wx wy = false
  /\ ObjectTypes.LineType_hitTest e wx wy = false
  /\ Inline.RectangleType_hitTest e wx wy = false
  /\ Inline.LineType_hitTest e wx wy = false.
Proof.
  intros H.
  unfold ObjectTypes.RectangleType_hitTest, ObjectTypes.LineType_hitTest,
    Inline.RectangleType_hitTest, Inline.LineType_hitTest, widthOf, heightOf.
  destruct H as [H|H]; rewrite H; cbn [Number.ofProp];
    destruct (xOf e), (yOf e), wx, wy;
    destruct (Props.width (Entity.props e)) as [[?|]|];
    destruct (Props.height (Entity.props e)) as [[?|]|];
    cbn; rewrite ?andb_false_r; repeat split; reflexivity.
Qed.

Lemma sizeless_entity_is_never_hit_witness :
  Inline.LineType_hitTest Sample.sizeless (Num 100) (Num 50) = false.
Proof.
  exact (proj2 (proj2 (proj2 (sizeless_entity_is_never_hit
                                Sample.sizeless (Num 100) (Num 50) (or_introl eq_refl))))).
Defined.

(** ** The entity under the pointer *)

Lemma find_rev_last {A : Type} (f : A -> bool) (l : list A) :
  match find f (rev l) with
  | Some x => exists below above,
                l = below ++ x :: above /\ f x = true /\ Forall (fun y => f y = false) above
  | None => Forall (fun y => f y = false) l
  end.
Proof.
  induction l as [|a rest IH]; simpl; [constructor|].
  rewrite find_app_or. destruct (find f (rev rest)) as [x|].
  - destruct IH as [below [above [Heq [Hx Hall]]]].
    exists (a :: below), above. subst rest. now repeat split.
  - simpl. destruct (f a) eqn:Ha.
    + exists [], rest. now repeat split.
    + now constructor.
Qed.

(** [hitTestGlobal] returns the entity that is last in the iteration order
    of the store among those whose registered hit test accepts the point,
    and nothing exactly when no entity is hit; [hitTestShapes] never returns
    a LINE, an ARROW or a FRAME. *)
Theorem hitTestGlobal_is_topmost (wx wy : Q) (w : Engine.t) :
  (forall e,
      CanvasEngine.hitTestGlobal wx wy w = Some e ->
      exists below above,
        SceneManager.getAllObjects w = below ++ e :: above
        /\ CanvasEngine.hits w wx wy e = true
        /\ Forall (fun o => CanvasEngine.hits w wx wy o = false) above)
  /\ (CanvasEngine.hitTestGlobal wx wy w = None <->
      Forall (fun o => CanvasEngine.hits w wx wy o = false) (SceneManager.getAllObjects w))
  /\ (forall e,
         CanvasEngine.hitTestShapes wx wy w = Some e ->
         In e (SceneManager.getAllObjects w)
         /\ CanvasEngine.hits w wx wy e = true
         /\ isLineOrArrow (Entity.type e) = false
         /\ Entity.type e <> "FRAME").
Proof.
  unfold CanvasEngine.hitTestGlobal, CanvasEngine.hitTestShapes.
  pose proof (find_rev_last (CanvasEngine.hits w wx wy) (SceneManager.getAllObjects w)) as H.
  split; [|split].
  - intros e He. rewrite He in H. exact H.
  - split.
    + intros Hnone. now rewrite Hnone in H.
    + intros Hall.
      destruct (find (CanvasEngine.hits w wx wy) (rev (SceneManager.getAllObjects w)))
        as [x|] eqn:E; [|reflexivity].
      apply find_some in E. destruct E as [Hin Hx].
      apply in_rev in Hin.
      rewrite (proj1 (Forall_forall _ _) Hall x Hin) in Hx. discriminate.
  - intros e He. apply find_some in He. destruct He as [Hin Hx].
    apply in_rev in Hin. apply andb_true_iff in Hx. destruct Hx as [Hkind Hhit].
    apply negb_true_iff, orb_false_iff in Hkind. destruct Hkind as [Hline Hframe].
    repeat split; try assumption. now apply String.eqb_neq.
Qed.

(** ** Resize handles and anchors *)

Lemma hitSquare_Num (hs wx wy hx hy : Q) :
  CanvasEngine.hitSquare hs wx wy (Num hx) (Num hy) = true
  <-> (hx - hs <= wx /\ wx <= hx + hs) /\ (hy - hs <= wy /\ wy <= hy + hs).
Proof.
  unfold CanvasEngine.hitSquare. cbn [Number.add Number.sub].
  rewrite !andb_true_iff, !geb_Num, !leb_Num. tauto.
Qed.

(** [getResizeHandleAt], for a zoom that is not zero: the handle returned
    sits on a corner whose square of side [16 / zoom] holds the pointer; of
    several such corners the first of top-left, top-right, bottom-left,
    bottom-right is taken; nothing is returned exactly when the pointer is in
    no corner's square. *)
Theorem resize_handle_is_under_pointer (bbox : BBox.t) (wx wy zoom : Q) :
  ~ zoom == 0 ->
  let hs := ((16 / zoom) / 2)%Q in
  let under h :=
    CanvasEngine.hitSquare hs wx wy (Point.x (cornerOf bbox h)) (Point.y (cornerOf bbox h)) in
  (forall h, CanvasEngine.getResizeHandleAt bbox wx wy zoom = Some h -> under h = true)
  /\ (CanvasEngine.getResizeHandleAt bbox wx wy zoom = None <-> forall h, under h = false)
  /\ (under Htl = true -> CanvasEngine.getResizeHandleAt bbox wx wy zoom = Some Htl)
  /\ (forall hx hy,
         CanvasEngine.hitSquare hs wx wy (Num hx) (Num hy) = true
         <-> (hx - hs <= wx /\ wx <= hx + hs) /\ (hy - hs <= wy /\ wy <= hy + hs)).
Proof.
  intros _. cbv zeta. unfold CanvasEngine.getResizeHandleAt. cbn [cornerOf Point.x Point.y].
  set (hs := ((16 / zoom) / 2)%Q).
  destruct (CanvasEngine.hitSquare hs wx wy (BBox.minX bbox) (BBox.minY bbox)) eqn:Etl;
    [|destruct (CanvasEngine.hitSquare hs wx wy (BBox.maxX bbox) (BBox.minY bbox)) eqn:Etr;
      [|destruct (CanvasEngine.hitSquare hs wx wy (BBox.minX bbox) (BBox.maxY bbox)) eqn:Ebl;
        [|destruct (CanvasEngine.hitSquare hs wx wy (BBox.maxX bbox) (BBox.maxY bbox))
            eqn:Ebr]]].
  all: split; [intros h Hh; injection Hh as <- || discriminate Hh; assumption|].
  all: split; [split; [try discriminate|intros Hall]|].
  all: try (split; [intros; reflexivity || discriminate|intros hx hy; apply hitSquare_Num]).
  - specialize (Hall Htl). cbn in Hall. congruence.
  - specialize (Hall Htr). cbn in Hall. congruence.
  - specialize (Hall Hbl). cbn in Hall. congruence.
  - specialize (Hall Hbr). cbn in Hall. congruence.
  - intros _ h. destruct h; assumption.
  - reflexivity.
Qed.

(** At zoom 2 the squares have side 8: the point [(3, -2)] is on the
    top-left handle of the box from [(0, 0)] to [(100, 100)]. *)
Lemma resize_handle_is_under_pointer_witness :
  CanvasEngine.getResizeHandleAt (BBox.mk (Num 0) (Num 0) (Num 100) (Num 100)) 3 (-2) 2
  = Some Htl.
Proof.
  assert (Hz : ~ 2 == 0) by discriminate.
  exact (proj1 (proj2 (proj2 (resize_handle_is_under_pointer
                                (BBox.mk (Num 0) (Num 0) (Num 100) (Num 100)) 3 (-2) 2 Hz)))
               eq_refl).
Defined.

(** [getAnchorAt], for a zoom that is not zero: the anchor returned is a
    point of the box's edges whose square of side [16 / zoom] holds the
    pointer, never the centre; nothing is returned exactly when the pointer
    is in none of the four squares. *)
Theorem anchor_is_under_pointer (bbox : BBox.t) (wx wy zoom : Q) :
  ~ zoom == 0 ->
  let hs := ((16 / zoom) / 2)%Q in
  let under a :=
    CanvasEngine.hitSquare hs wx wy (Point.x (getAnchorPoint bbox a))
                           (Point.y (getAnchorPoint bbox a)) in
  (forall a, CanvasEngine.getAnchorAt bbox wx wy zoom = Some a -> under a = true /\ a <> Ac)
  /\ (CanvasEngine.getAnchorAt bbox wx wy zoom = None <->
      under At = false /\ under Ar = false /\ under Ab = false /\ under Al = false).
Proof.
  intros _. cbv zeta. unfold CanvasEngine.getAnchorAt.
  set (hs := ((16 / zoom) / 2)%Q).
  destruct (CanvasEngine.hitSquare hs wx wy (Point.x (getAnchorPoint bbox At))
                                   (Point.y (getAnchorPoint bbox At))) eqn:Et;
    [|destruct (CanvasEngine.hitSquare hs wx wy (Point.x (getAnchorPoint bbox Ar))
                                       (Point.y (getAnchorPoint bbox Ar))) eqn:Er;
      [|destruct (CanvasEngine.hitSquare hs wx wy (Point.x (getAnchorPoint bbox Ab))
                                         (Point.y (getAnchorPoint bbox Ab))) eqn:Eb;
        [|destruct (CanvasEngine.hitSquare hs wx wy (Point.x (getAnchorPoint bbox Al))
                                           (Point.y (getAnchorPoint bbox Al))) eqn:El]]].
  all: split; [intros a Ha;
               first [discriminate Ha
                     |injection Ha as <-; split; [assumption|discriminate]]|].
  all: split; [try discriminate|intros [H1 [H2 [H3 H4]]]; congruence || reflexivity].
  intros _. now repeat split.
Qed.

(** At zoom 2 the point [(103, 48)] is away from every anchor of the box
    from [(0, 0)] to [(100, 100)] but the right one, four units off. *)
Lemma anchor_is_under_pointer_witness :
  CanvasEngine.hitSquare 4 103 48 (Num 100) (Num 50) = true
  /\ CanvasEngine.getAnchorAt (BBox.mk (Num 0) (Num 0) (Num 100) (Num 100)) 200 200 2 = None.
Proof.
  assert (Hz : ~ 2 == 0) by discriminate.
  split.
  - exact (proj1 (proj1 (anchor_is_under_pointer
                           (BBox.mk (Num 0) (Num 0) (Num 100) (Num 100)) 103 48 2 Hz)
                        Ar eq_refl)).
  - apply (proj2 (anchor_is_under_pointer
                    (BBox.mk (Num 0) (Num 0) (Num 100) (Num 100)) 200 200 2 Hz)).
    repeat split.
Defined.
(* ================================================================== *)
(** * The engine: zoom, pan, tools, dragging *)
(* ================================================================== *)

(** [zoomTo], from a zoom that is not zero to one that is not zero: the zoom
    becomes the argument, without clamping, and the world point at the centre
    of the viewport stays at the centre, in exact arithmetic; the scene and
    the selection are not touched. *)
Theorem zoomTo_keeps_the_centre (zoom : Q) (w : Engine.t) :
  ~ Camera.zoom (Engine.camera w) == 0 ->
  ~ zoom == 0 ->
  let w' := CanvasEngine.zoomTo zoom w in
  let cx := Engine.width w / 2 in
  let cy := Engine.height w / 2 in
  let centre := Camera.screenToWorld (Engine.camera w) cx cy in
  Camera.zoom (Engine.camera w') = zoom
  /\ QPoint.x (Camera.worldToScreen (Engine.camera w') (QPoint.x centre) (QPoint.y centre))
     == cx
  /\ QPoint.y (Camera.worldToScreen (Engine.camera w') (QPoint.x centre) (QPoint.y centre))
     == cy
  /\ Engine.entities w' = Engine.entities w
  /\ Engine.selectedIds w' = Engine.selectedIds w.
Proof.
  intros _ Hz. cbv zeta.
  unfold CanvasEngine.zoomTo, Camera.screenToWorld, Camera.worldToScreen.
  cbn [Engine.camera Engine.set_isDirty Engine.set_camera Camera.x Camera.y Camera.zoom
       QPoint.x QPoint.y Engine.entities Engine.selectedIds Engine.width Engine.height].
  split; [reflexivity|].
  generalize (Engine.width w / 2 / Camera.zoom (Engine.camera w)).
  generalize (Engine.height w / 2 / Camera.zoom (Engine.camera w)).
  intros a b. repeat split; field; exact Hz.
Qed.

Lemma zoomTo_keeps_the_centre_witness :
  Camera.zoom (Engine.camera (CanvasEngine.zoomTo 8 Sample.viewport)) = 8
  /\ QPoint.x (Camera.worldToScreen
                 (Engine.camera (CanvasEngine.zoomTo 8 Sample.viewport))
                 (QPoint.x (Camera.screenToWorld (Engine.camera Sample.viewport)
                                                 (Engine.width Sample.viewport / 2)
                                                 (Engine.height Sample.viewport / 2)))
                 (QPoint.y (Camera.screenToWorld (Engine.camera Sample.viewport)
                                                 (Engine.width Sample.viewport / 2)
                                                 (Engine.height Sample.viewport / 2))))
     == Engine.width Sample.viewport / 2.
Proof.
  assert (Hz : ~ 8 == 0) by discriminate.
  assert (Hprior : ~ Camera.zoom (Engine.camera Sample.viewport) == 0) by discriminate.
  destruct (zoomTo_keeps_the_centre 8 Sample.viewport Hprior Hz) as [H1 [H2 _]].
  split; [exact H1|exact H2].
Defined.

(** A wheel event without the zoom modifier, on a zoom that is not zero,
    pans: the zoom is kept and the world point under every screen point moves
    by the wheel deltas divided by the zoom, in exact arithmetic; scene,
    selection and tool are not touched. *)
Theorem wheel_without_modifier_pans (e : WheelEvent.t) (w : Engine.t) :
  ~ Camera.zoom (Engine.camera w) == 0 ->
  WheelEvent.ctrlKey e = false ->
  let w' := CanvasEngine.onWheel e w in
  let zoom := Camera.zoom (Engine.camera w) in
  Camera.zoom (Engine.camera w') = zoom
  /\ (forall sx sy,
         QPoint.x (Camera.screenToWorld (Engine.camera w') sx sy)
         == QPoint.x (Camera.screenToWorld (Engine.camera w) sx sy) + WheelEvent.deltaX e / zoom
         /\ QPoint.y (Camera.screenToWorld (Engine.camera w') sx sy)
            == QPoint.y (Camera.screenToWorld (Engine.camera w) sx sy)
               + WheelEvent.deltaY e / zoom)
  /\ Engine.entities w' = Engine.entities w
  /\ Engine.selectedIds w' = Engine.selectedIds w
  /\ Engine.activeTool w' = Engine.activeTool w.
Proof.
  intros _ Hctrl. cbv zeta. unfold CanvasEngine.onWheel. rewrite Hctrl.
  cbn [Engine.camera Engine.set_isDirty Engine.set_camera Camera.x Camera.y Camera.zoom
       Engine.entities Engine.selectedIds Engine.activeTool].
  split; [reflexivity|]. split; [|repeat split].
  intros sx sy. unfold Camera.screenToWorld.
  cbn [Camera.x Camera.y Camera.zoom QPoint.x QPoint.y]. split; ring.
Qed.

Lemma wheel_without_modifier_pans_witness :
  Camera.zoom (Engine.camera (CanvasEngine.onWheel (WheelEvent.mk 10 10 30 40 false)
                                                   Sample.viewport))
  = 1.
Proof.
  assert (Hprior : ~ Camera.zoom (Engine.camera Sample.viewport) == 0) by discriminate.
  exact (proj1 (wheel_without_modifier_pans (WheelEvent.mk 10 10 30 40 false)
                                            Sample.viewport Hprior eq_refl)).
Defined.

(** Whatever the wheel event, a zoom between 0.1 and 5 stays between 0.1
    and 5. *)
Theorem wheel_keeps_zoom_in_range (e : WheelEvent.t) (w : Engine.t) :
  1 # 10 <= Camera.zoom (Engine.camera w) <= 5 ->
  1 # 10 <= Camera.zoom (Engine.camera (CanvasEngine.onWheel e w)) <= 5.
Proof.
  intros Hrange. unfold CanvasEngine.onWheel.
  destruct (WheelEvent.ctrlKey e);
    cbn [Engine.camera Engine.set_isDirty Engine.set_camera Camera.zoom].
  - apply clamp_bounds.
  - exact Hrange.
Qed.

Lemma wheel_keeps_zoom_in_range_witness :
  1 # 10 <= Camera.zoom (Engine.camera (CanvasEngine.onWheel (WheelEvent.mk 10 10 0 (-1000) true)
                                                             Sample.viewport)) <= 5.
Proof.
  apply wheel_keeps_zoom_in_range. split; discriminate.
Defined.

(** ** switchTool *)

Lemma setTool_on_bus (tool : ToolType) (preset : option string) (w : Engine.t) :
  CanvasEngine.setTool tool preset w
  = traced EVENTS.TOOL_CHANGED (OfTool tool)
           (Engine.set_framePreset preset (Engine.set_activeTool tool w)).
Proof. unfold CanvasEngine.setTool, CanvasEngine.emit, CanvasEngine.bus. apply emit_tool. Qed.

Lemma switchTool_tail (x : Engine.t) :
  let w' := traced EVENTS.TOOL_CHANGED (OfTool SELECT)
                   (Engine.set_framePreset None
                      (Engine.set_activeTool SELECT (Engine.set_isDirty true x))) in
  Engine.activeTool w' = SELECT
  /\ Engine.framePreset w' = None
  /\ Engine.selectedIds w' = Engine.selectedIds x
  /\ Engine.entities w' = Engine.entities x.
Proof. repeat split. Qed.

(** [switchTool('FRAME', preset)] with a preset of [FRAME_PRESETS]: a FRAME
    of the preset's size, named after it, is created centred on the world
    point at the centre of the viewport and becomes the selection; the tool
    is SELECT and no preset stays active. *)
Theorem switchTool_creates_preset_frame (preset : string) (pw ph : Q) (w : Engine.t) :
  storeOk w ->
  lookup preset FRAME_PRESETS = Some (pw, ph) ->
  let w' := CanvasEngine.switchTool FRAME (Some preset) w in
  let id := SceneManager.randomUUID w in
  let centre := Camera.screenToWorld (Engine.camera w)
                                     (Engine.width w / 2) (Engine.height w / 2) in
  Engine.activeTool w' = SELECT
  /\ Engine.framePreset w' = None
  /\ Engine.selectedIds w' = [id]
  /\ exists frame,
      SceneManager.getObject id w' = Some frame
      /\ Entity.type frame = "FRAME"
      /\ Props.name (Entity.props frame) = Some preset
      /\ widthOf frame = Num pw /\ heightOf frame = Num ph
      /\ xOf frame = Num (QPoint.x centre - pw / 2)
      /\ yOf frame = Num (QPoint.y centre - ph / 2)
      /\ Metadata.selected (Entity.metadata frame) = Some true.
Proof.
  intros Hok Hpreset. cbv zeta.
  assert (Htruthy : truthyString (Some preset) = Some preset)
    by (apply (preset_is_truthy preset FRAME_PRESETS (pw, ph)); [reflexivity|exact Hpreset]).
  unfold CanvasEngine.switchTool, CanvasEngine.presetSize.
  rewrite Htruthy, Hpreset. cbv zeta. rewrite setTool_on_bus.
  match goal with
  | |- context [CanvasEngine.select _ false ?x] => set (w1 := x)
  end.
  set (id := SceneManager.randomUUID w).
  assert (Hw1 : w1 = CanvasEngine.createObject
                       "FRAME"
                       (Props.object [Props.Width (Num pw); Props.Height (Num ph);
                                      Props.Name preset])
                       (Some (PartialTransform.xy
                                (Num (Engine.width w / 2 / Camera.zoom (Engine.camera w)
                                      + Camera.x (Engine.camera w) - pw / 2))
                                (Num (Engine.height w / 2 / Camera.zoom (Engine.camera w)
                                      + Camera.y (Engine.camera w) - ph / 2))))
                       Metadata.empty None w) by reflexivity.
  rewrite createObject_on_bus in Hw1. cbv zeta in Hw1.
  match type of Hw1 with
  | _ = Engine.set_isDirty true (traced _ (OfEntity ?e) _) => set (frame0 := e) in Hw1
  end.
  assert (Hok1 : storeOk w1).
  { rewrite Hw1. unfold storeOk.
    cbn [Engine.entities Engine.set_isDirty traced Engine.set_emitted Engine.set_entities].
    now apply NoDup_ids_mapSet. }
  assert (Hget1 : SceneManager.getObject id w1 = Some frame0).
  { rewrite Hw1. unfold SceneManager.getObject.
    cbn [Engine.entities Engine.set_isDirty traced Engine.set_emitted Engine.set_entities].
    exact (find_mapSet_same frame0 (Engine.entities w)). }
  assert (Hfree : Forall (fun sid => ConnectionModule.isConnectedTo sid frame0 = false)
                         (Engine.selectedIds w1)).
  { apply Forall_forall. intros sid _. reflexivity. }
  destruct (select_single id w1 frame0 Hok1 Hget1 Hfree)
    as [Hsel [frame [Hget [Hm [Ht [Htr Hp]]]]]].
  destruct (switchTool_tail (CanvasEngine.select id false w1)) as [Ha [Hf [Hs He]]].
  cbv zeta in Ha, Hf, Hs, He. unfold SceneManager.getObject.
  rewrite Ha, Hf, Hs, He.
  split; [reflexivity|]. split; [reflexivity|].
  split; [exact Hsel|].
  exists frame. split; [exact Hget|].
  unfold widthOf, heightOf, xOf, yOf. rewrite Ht, Htr, Hp.
  repeat split; try assumption.
Qed.

Lemma switchTool_creates_preset_frame_witness :
  Engine.activeTool (CanvasEngine.switchTool FRAME (Some "Mobile") Sample.viewport) = SELECT
  /\ Engine.selectedIds (CanvasEngine.switchTool FRAME (Some "Mobile") Sample.viewport)
     = ["id-0"].
Proof.
  assert (Hok : storeOk Sample.viewport) by constructor.
  destruct (switchTool_creates_preset_frame "Mobile" 390 844 Sample.viewport Hok eq_refl)
    as [H1 [_ [H2 _]]].
  split; [exact H1|exact H2].
Defined.

(** [switchTool] with any other tool, or with FRAME and no preset of
    [FRAME_PRESETS]: the tool and the preset are recorded, TOOL_CHANGED is
    emitted, and the scene and the selection are not touched. *)
Theorem switchTool_sets_the_tool (tool : ToolType) (preset : option string) (w : Engine.t) :
  tool <> FRAME \/ CanvasEngine.presetSize preset = None ->
  let w' := CanvasEngine.switchTool tool preset w in
  Engine.activeTool w' = tool
  /\ Engine.framePreset w' = preset
  /\ Engine.entities w' = Engine.entities w
  /\ Engine.selectedIds w' = Engine.selectedIds w
  /\ Engine.emitted w' = Engine.emitted w ++ [(EVENTS.TOOL_CHANGED, OfTool tool)].
Proof.
  intros H. cbv zeta.
  assert (Heq : CanvasEngine.switchTool tool preset w = CanvasEngine.setTool tool preset w).
  { unfold CanvasEngine.switchTool. destruct H as [H|H].
    - destruct tool; try reflexivity. now contradiction H.
    - rewrite H. destruct tool; try reflexivity.
      now destruct (truthyString preset). }
  rewrite Heq, setTool_on_bus. repeat split.
Qed.

Lemma switchTool_sets_the_tool_witness :
  Engine.activeTool (CanvasEngine.switchTool FRAME (Some "A5") Sample.viewport) = FRAME
  /\ Engine.framePreset (CanvasEngine.switchTool FRAME (Some "A5") Sample.viewport)
     = Some "A5".
Proof.
  destruct (switchTool_sets_the_tool FRAME (Some "A5") Sample.viewport (or_intror eq_refl))
    as [H1 [H2 _]].
  split; [exact H1|exact H2].
Defined.

(** ** onPointerMove: panning and dragging *)

(** While panning with a zoom that is not zero, a pointer move shifts the
    camera so that the world point that was under the previous pointer
    position is under the new one, in exact arithmetic; the zoom, the scene
    and the selection are not touched. *)
Theorem panning_drags_the_canvas (e : PointerEvent.t) (w : Engine.t) :
  ~ Camera.zoom (Engine.camera w) == 0 ->
  Engine.isPanning w = true ->
  Engine.isResizing w = false ->
  truthyString (Engine.creatingEntityId w) = None ->
  let w' := CanvasEngine.onPointerMove e w in
  let before := Camera.screenToWorld (Engine.camera w) (QPoint.x (Engine.lastMouse w))
                                     (QPoint.y (Engine.lastMouse w)) in
  let after := Camera.screenToWorld (Engine.camera w') (PointerEvent.clientX e)
                                    (PointerEvent.clientY e) in
  QPoint.x after == QPoint.x before
  /\ QPoint.y after == QPoint.y before
  /\ Camera.zoom (Engine.camera w') = Camera.zoom (Engine.camera w)
  /\ Engine.lastMouse w' = QPoint.mk (PointerEvent.clientX e) (PointerEvent.clientY e)
  /\ Engine.entities w' = Engine.entities w
  /\ Engine.selectedIds w' = Engine.selectedIds w.
Proof.
  intros _ Hpan Hres Hcre. cbv zeta. unfold CanvasEngine.onPointerMove.
  rewrite Hpan. cbn [negb andb]. cbv zeta. rewrite Hcre, Hres, Hpan. cbn [negb andb].
  unfold Camera.screenToWorld.
  cbn [Engine.camera Engine.set_lastMouse Engine.set_isDirty Engine.set_camera
       Camera.x Camera.y Camera.zoom QPoint.x QPoint.y Engine.lastMouse
       Engine.entities Engine.selectedIds].
  split; [unfold Qdiv; ring|]. split; [unfold Qdiv; ring|]. repeat split.
Qed.

Lemma panning_drags_the_canvas_witness :
  QPoint.x (Camera.screenToWorld
              (Engine.camera (CanvasEngine.onPointerMove (Sample.pointer 80 10) Sample.panning))
              80 10)
  == 30.
Proof.
  assert (Hprior : ~ Camera.zoom (Engine.camera Sample.panning) == 0)
    by (vm_compute; discriminate).
  exact (proj1 (panning_drags_the_canvas (Sample.pointer 80 10) Sample.panning
                                         Hprior eq_refl eq_refl eq_refl)).
Defined.

(** While an entity without dragged children is being dragged, a pointer
    move puts it at the world point under the pointer minus the drag offset
    and changes nothing else of it; camera and selection are not touched. *)
Theorem dragging_moves_the_entity (e : PointerEvent.t) (did : string) (entity : Entity.t)
        (w : Engine.t) :
  storeOk w ->
  Engine.isPanning w = false ->
  Engine.isResizing w = false ->
  truthyString (Engine.creatingEntityId w) = None ->
  truthyString (Engine.draggedEntityId w) = Some did ->
  Engine.draggedChildrenIds w = [] ->
  SceneManager.getObject did w = Some entity ->
  let w' := CanvasEngine.onPointerMove e w in
  let p := Camera.screenToWorld (Engine.camera w) (PointerEvent.clientX e)
                                (PointerEvent.clientY e) in
  SceneManager.getObject did w'
  = Some (Entity.mk (Entity.id entity) (Entity.type entity)
                    (Transform.mk (Num (QPoint.x p) - Point.x (Engine.dragOffset w))%num
                                  (Num (QPoint.y p) - Point.y (Engine.dragOffset w))%num
                                  (Transform.scaleX (Entity.transform entity))
                                  (Transform.scaleY (Entity.transform entity))
                                  (Transform.rotation (Entity.transform entity)))
                    (Entity.props entity) (Entity.metadata entity)
                    (Entity.visible entity) (Entity.parentId entity))
  /\ Engine.camera w' = Engine.camera w
  /\ Engine.selectedIds w' = Engine.selectedIds w
  /\ skeleton (Engine.entities w') = skeleton (Engine.entities w).
Proof.
  intros Hok Hpan Hres Hcre Hdrag Hkids Hget. cbv zeta.
  assert (Htruthy : isTruthy (Engine.draggedEntityId w) = true)
    by (unfold isTruthy; now rewrite Hdrag).
  unfold CanvasEngine.onPointerMove.
  rewrite Hpan, Htruthy. cbn [negb andb]. cbv zeta.
  rewrite Hcre, Hres, Hpan, Htruthy, Hdrag. cbn [negb andb].
  unfold CanvasEngine.moveDragged. rewrite Hget. cbv zeta.
  set (u := Updates.ofTransform _).
  assert (Hkids' : Engine.draggedChildrenIds (CanvasEngine.updateObject did u w) = [])
    by (rewrite (updateObject_sceneOnly did u w Hok); exact Hkids).
  rewrite Hkids'. cbn [fold_left].
  change (SceneManager.getObject did (Engine.set_lastMouse ?m ?x))
    with (SceneManager.getObject did x).
  change (Engine.camera (Engine.set_lastMouse ?m ?x)) with (Engine.camera x).
  change (Engine.selectedIds (Engine.set_lastMouse ?m ?x)) with (Engine.selectedIds x).
  change (Engine.entities (Engine.set_lastMouse ?m ?x)) with (Engine.entities x).
  destruct (updateObject_stores did u w entity Hok Hget) as [Hst _].
  split; [rewrite Hst; reflexivity|].
  split; [rewrite (updateObject_sceneOnly did u w Hok); reflexivity|].
  split; [now apply updateObject_selectedIds|now apply updateObject_skeleton].
Qed.

Lemma dragging_moves_the_entity_witness :
  exists entity',
    SceneManager.getObject "box" (CanvasEngine.onPointerMove (Sample.pointer 50 45)
                                                             Sample.dragging)
    = Some entity'
    /\ xOf entity' = (Num 50 - Num 30)%num /\ yOf entity' = (Num 45 - Num 40)%num.
Proof.
  assert (Hok : storeOk Sample.dragging).
  { unfold storeOk. vm_compute. repeat constructor; simpl; intuition discriminate. }
  let v := eval vm_compute in (SceneManager.getObject "box" Sample.dragging) in
  match v with
  | Some ?x =>
      assert (Hget : SceneManager.getObject "box" Sample.dragging = Some x)
        by (vm_compute; reflexivity);
      destruct (dragging_moves_the_entity (Sample.pointer 50 45) "box" x Sample.dragging
                                          Hok eq_refl eq_refl eq_refl eq_refl eq_refl Hget)
        as [Hmoved _]
  end.
  eexists. split; [exact Hmoved|]. split; vm_compute; reflexivity.
Defined.
(* ================================================================== *)
(** * Import and export *)
(* ================================================================== *)

Lemma set_entities_same (w : Engine.t) : Engine.set_entities (Engine.entities w) w = w.
Proof. now destruct w. Qed.

Section ImportExport.

Variable JSON_stringify : list Entity.t -> string.
Variable JSON_parse : string -> parsed.

Lemma importData_records (data : string) (records : list Entity.t) (w : Engine.t) :
  JSON_parse data = AnArray (map SceneManager.Record_ records) ->
  CanvasEngine.importData JSON_parse data w
  = Engine.set_isDirty true
      (Engine.set_isDirty true
         (CanvasEngine.clearSelection (Engine.set_entities (storeAll records []) w))).
Proof.
  intros Hparse. unfold CanvasEngine.importData. rewrite Hparse.
  unfold SceneManager.loadData. rewrite setAll_records. reflexivity.
Qed.

Lemma clearSelection_unknown (w : Engine.t) :
  (forall sid, In sid (Engine.selectedIds w) -> SceneManager.getObject sid w = None) ->
  CanvasEngine.clearSelection w
  = Engine.set_isDirty true
      (traced EVENTS.SELECTION_CHANGED (OfIds []) (Engine.set_selectedIds [] w)).
Proof.
  intros Hnone. unfold CanvasEngine.clearSelection, SelectionModule.clearSelection.
  rewrite broadcastSelection_on_bus, deselectAll_fold.
  fold (updateEach (Updates.ofMetadata (Metadata.mk (Some false))) (Engine.selectedIds w) w).
  now rewrite updateEach_unknown.
Qed.

(** [importData] on a payload that parses to an array of entity records with
    distinct ids, none of which is the id of a selected entity: the store
    holds exactly the records, in the array's order; the selection is empty;
    the one event emitted is SELECTION_CHANGED with the empty selection. *)
Theorem import_replaces_the_scene (data : string) (records : list Entity.t) (w : Engine.t) :
  JSON_parse data = AnArray (map SceneManager.Record_ records) ->
  NoDup (ids records) ->
  (forall sid, In sid (Engine.selectedIds w) -> ~ In sid (ids records)) ->
  let w' := CanvasEngine.importData JSON_parse data w in
  SceneManager.getAllObjects w' = records
  /\ Engine.selectedIds w' = []
  /\ Engine.emitted w' = Engine.emitted w ++ [(EVENTS.SELECTION_CHANGED, OfIds [])]
  /\ Engine.isDirty w' = true.
Proof.
  intros Hparse Hnd Hfresh. cbv zeta. rewrite (importData_records data records w Hparse).
  rewrite (storeAll_distinct records []) by exact Hnd. rewrite app_nil_l.
  rewrite clearSelection_unknown.
  - repeat split.
  - intros sid Hsid. apply find_id_none. now apply Hfresh.
Qed.

(** Export followed by import, for a scene that the JSON codec reproduces:
    the store afterwards is the store after [clearSelection]; in particular
    the same ids and types in the same order, and with nothing selected the
    very same entities. *)
Theorem export_then_import (w : Engine.t) :
  storeOk w ->
  JSON_parse (JSON_stringify (SceneManager.getAllObjects w))
  = AnArray (map SceneManager.Record_ (SceneManager.getAllObjects w)) ->
  let w' := CanvasEngine.importData JSON_parse (CanvasEngine.exportData JSON_stringify w) w in
  SceneManager.getAllObjects w' = SceneManager.getAllObjects (CanvasEngine.clearSelection w)
  /\ skeleton (SceneManager.getAllObjects w') = skeleton (SceneManager.getAllObjects w)
  /\ Engine.selectedIds w' = []
  /\ (Engine.selectedIds w = [] -> SceneManager.getAllObjects w' = SceneManager.getAllObjects w).
Proof.
  intros Hok Hcodec. cbv zeta. unfold CanvasEngine.exportData.
  rewrite (importData_records _ _ w Hcodec).
  unfold SceneManager.getAllObjects in *.
  rewrite (storeAll_distinct (Engine.entities w) []) by exact Hok.
  rewrite app_nil_l, set_entities_same.
  change (Engine.entities (Engine.set_isDirty true (Engine.set_isDirty true ?x)))
    with (Engine.entities x).
  change (Engine.selectedIds (Engine.set_isDirty true (Engine.set_isDirty true ?x)))
    with (Engine.selectedIds x).
  split; [reflexivity|].
  unfold CanvasEngine.clearSelection, SelectionModule.clearSelection.
  rewrite broadcastSelection_on_bus, deselectAll_fold.
  fold (updateEach (Updates.ofMetadata (Metadata.mk (Some false))) (Engine.selectedIds w) w).
  split; [exact (updateEach_skeleton _ (Engine.selectedIds w) w Hok)|].
  split; [reflexivity|].
  intros Hnone. now rewrite Hnone.
Qed.

End ImportExport.

Lemma import_replaces_the_scene_witness :
  SceneManager.getAllObjects
    (CanvasEngine.importData Sample.parse "[box, arrow]"
       (CanvasEngine.select "old" false
          (Engine.set_entities [Sample.rectangle "old" 5 5 10 10] Sample.fresh)))
  = SceneManager.getAllObjects Sample.boxAndArrow.
Proof.
  refine (proj1 (import_replaces_the_scene
                   Sample.parse "[box, arrow]" (SceneManager.getAllObjects Sample.boxAndArrow)
                   _ eq_refl storeOk_boxAndArrow _)).
  intros sid Hsid Hin. vm_compute in Hsid. destruct Hsid as [<-|[]].
  vm_compute in Hin. destruct Hin as [Hin|[Hin|[]]]; discriminate Hin.
Defined.

Lemma export_then_import_witness :
  SceneManager.getAllObjects
    (CanvasEngine.importData
       Sample.parse (CanvasEngine.exportData Sample.stringify Sample.boxAndArrow)
       Sample.boxAndArrow)
  = SceneManager.getAllObjects Sample.boxAndArrow.
Proof.
  exact (proj2 (proj2 (proj2 (export_then_import Sample.stringify Sample.parse
                                                 Sample.boxAndArrow storeOk_boxAndArrow
                                                 eq_refl)))
               eq_refl).
Defined.
